(** * The task-routing engine of the personal assistant

    A shallow embedding of [src/core/multi_ai_engine.py] (class
    [MultiAIEngine]) and the properties of its classifier, model selector,
    dispatch boundary, personality post-processing and conversation store.

    Conventions of the embedding:
    - a Python [str] is a [string] holding its UTF-8 bytes; UTF-8 is
      self-synchronising, so [needle in hay] on code points is the substring
      test on the encodings;
    - a Python [float] that is finite is a rational and the comparison of
      finite floats is the comparison of rationals, so the scores, levels and
      random draws are [Q], and a decimal literal of the source is the
      rational value of the double it denotes;
    - a [dict] that is iterated (the registry, the score tables) is an
      association list in insertion order; a [dict] used as a record with
      optional keys (a response) is a [gmap string pyval];
    - [str.lower] (Unicode case mapping) and the formatting of a float are
      not re-implemented: they are variables of the section [Engine]. *)

From Stdlib Require Import ZArith QArith Lia Ascii String.
From stdpp Require Import gmap strings list pretty.

Open Scope string_scope.

(** ** Python primitives used by the engine *)

Module Py.

(** [needle in hay] for two [str]: a substring test. *)
Fixpoint contains (needle hay : string) : bool :=
  String.prefix needle hay ||
  match hay with
  | EmptyString => false
  | String _ hay' => contains needle hay'
  end.

(** The number of positions of [hay] at which [needle] starts; occurrences
    that overlap are counted one by one. *)
Fixpoint occurrences (needle hay : string) : nat :=
  ((if String.prefix needle hay then 1 else 0) +
   match hay with
   | EmptyString => 0
   | String _ hay' => occurrences needle hay'
   end)%nat.

(** [str.lower] on a text of ASCII letters and of characters without case
    (Persian letters among them): every byte [A]..[Z] is mapped to
    [a]..[z], every other byte is kept. *)
Definition ascii_lower_byte (c : ascii) : ascii :=
  let n := nat_of_ascii c in
  if (65 <=? n)%nat && (n <=? 90)%nat then ascii_of_nat (n + 32) else c.

Fixpoint ascii_lower (s : string) : string :=
  match s with
  | EmptyString => EmptyString
  | String c s' => String (ascii_lower_byte c) (ascii_lower s')
  end.

(** [sum(xs)] over integers. *)
Definition sum (xs : list Z) : Z := foldr Z.add 0%Z xs.

(** [max(x :: rest, key=key)]: CPython keeps the first item and replaces
    it only by an item whose key is strictly greater, so of several
    maximal items the first one is returned. *)
Definition max_from {A K : Type} (gt : K -> K -> bool) (key : A -> K)
    (x : A) (rest : list A) : A :=
  fold_left (fun best y => if gt (key y) (key best) then y else best) rest x.

(** [d.get(k)] and [k in d] on an insertion-ordered [dict]. *)
Fixpoint dict_get {K V : Type} `{EqDecision K} (k : K) (d : list (K * V))
    : option V :=
  match d with
  | [] => None
  | (k', v) :: d' => if decide (k = k') then Some v else dict_get k d'
  end.

Definition dict_mem {K V : Type} `{EqDecision K} (k : K) (d : list (K * V))
    : bool :=
  bool_decide (is_Some (dict_get k d)).

(** [d[k] = v]: an existing key keeps its place, a new key goes last. *)
Fixpoint dict_set {K V : Type} `{EqDecision K} (k : K) (v : V)
    (d : list (K * V)) : list (K * V) :=
  match d with
  | [] => [(k, v)]
  | (k', v') :: d' =>
      if decide (k = k') then (k, v) :: d' else (k', v') :: dict_set k v d'
  end.

(** [xs[-n:]]: the last [n] items, all of them when there are fewer. *)
Definition last_n {A : Type} (n : nat) (xs : list A) : list A :=
  drop (length xs - n) xs.

(** [xs.insert(-1, x)]: before the last item; at the front of an empty
    list. *)
Definition insert_before_last {A : Type} (x : A) (xs : list A) : list A :=
  take (length xs - 1) xs ++ x :: drop (length xs - 1) xs.

(** [sep.join(xs)]. *)
Fixpoint join (sep : string) (xs : list string) : string :=
  match xs with
  | [] => ""
  | [x] => x
  | x :: xs' => x ++ sep ++ join sep xs'
  end.

(** The doubles that the decimal literals of the source denote, as the
    rationals [m / 2^e] they are; [0.5] and [0.75] are doubles as
    written. *)
Definition double (m : Z) (e : positive) : Q := m # (2 ^ e).

Definition f0_2 : Q := double 3602879701896397 54.
Definition f0_3 : Q := double 5404319552844595 54.
Definition f0_4 : Q := double 3602879701896397 53.
Definition f0_6 : Q := double 5404319552844595 53.
Definition f0_7 : Q := double 3152519739159347 52.
Definition f0_8 : Q := double 3602879701896397 52.
Definition f0_85 : Q := double 7656119366529843 53.
Definition f0_9 : Q := double 8106479329266893 53.
Definition f0_95 : Q := double 4278419646001971 52.

(** [x < y] on finite floats. *)
Definition Qltb (x y : Q) : bool :=
  (Qnum x * Zpos (Qden y) <? Qnum y * Zpos (Qden x))%Z.

(** The values stored under the keys of a response. *)
Inductive pyval : Type :=
| VNone
| VBool (b : bool)
| VInt (z : Z)
| VStr (s : string).

#[global] Instance pyval_eq_dec : EqDecision pyval.
Proof. solve_decision. Defined.

(** Truth value of an object in a condition. *)
Definition truthy (v : pyval) : bool :=
  match v with
  | VNone => false
  | VBool b => b
  | VInt z => negb (z =? 0)%Z
  | VStr s => negb (String.eqb s "")
  end.

(** [d.get(k)] on a response is [None] for a missing key. *)
Definition get_or_None (d : gmap string pyval) (k : string) : pyval :=
  default VNone (d !! k).

(** [str(v)], which is also what an f-string puts for [{v}]. *)
Definition str (v : pyval) : string :=
  match v with
  | VNone => "None"
  | VBool true => "True"
  | VBool false => "False"
  | VInt z => pretty z
  | VStr s => s
  end.

(** Exceptions. [exn_is_Exception] tells the instances of [Exception]
    from those that derive from [BaseException] only (a cancellation, a
    keyboard interrupt): [except Exception] catches the former alone.
    [exn_str] is [str(e)]. *)
Record exn : Type := Exn {
  exn_class : string;
  exn_is_Exception : bool;
  exn_str : string
}.

(** [d[k]] for a missing key: [str(KeyError('content'))] is the [repr] of
    the key. *)
Definition KeyError (k : string) : exn := Exn "KeyError" true ("'" ++ k ++ "'").
Definition IndexError (msg : string) : exn := Exn "IndexError" true msg.
Definition AttributeError (msg : string) : exn :=
  Exn "AttributeError" true msg.

End Py.

Import Py.

(** ** Data model *)

(** [class AIModel(Enum)] and its [.value]. *)
Inductive AIModel : Type :=
| GPT4 | GPT35_TURBO | GEMINI_PRO | CLAUDE | LLAMA2 | T5.

#[global] Instance AIModel_eq_dec : EqDecision AIModel.
Proof. solve_decision. Defined.

Definition AIModel_value (m : AIModel) : string :=
  match m with
  | GPT4 => "gpt-4"
  | GPT35_TURBO => "gpt-3.5-turbo"
  | GEMINI_PRO => "gemini-pro"
  | CLAUDE => "claude-3"
  | LLAMA2 => "llama-2-70b"
  | T5 => "t5-large"
  end.

(** [class TaskType(Enum)] and its [.value]. *)
Inductive TaskType : Type :=
| CONVERSATION | CONTENT_GENERATION | FINANCIAL_ADVICE | PSYCHOLOGICAL_SUPPORT
| CREATIVE_WRITING | TECHNICAL_ANALYSIS | TRANSLATION | RESEARCH | MEDITATION
| COMPANIONSHIP.

#[global] Instance TaskType_eq_dec : EqDecision TaskType.
Proof. solve_decision. Defined.

Definition TaskType_value (t : TaskType) : string :=
  match t with
  | CONVERSATION => "conversation"
  | CONTENT_GENERATION => "content_generation"
  | FINANCIAL_ADVICE => "financial_advice"
  | PSYCHOLOGICAL_SUPPORT => "psychological_support"
  | CREATIVE_WRITING => "creative_writing"
  | TECHNICAL_ANALYSIS => "technical_analysis"
  | TRANSLATION => "translation"
  | RESEARCH => "research"
  | MEDITATION => "meditation"
  | COMPANIONSHIP => "companionship"
  end.

(** [@dataclass PersonalityProfile]. *)
Record PersonalityProfile : Type := {
  gender : string;
  name : string;
  personality_traits : list string;
  communication_style : string;
  expertise_areas : list string;
  emotional_intelligence : Q;
  humor_level : Q;
  formality_level : Q;
  empathy_level : Q
}.

(** The value of one key of [self.models]. The [client] is the module the
    adapter calls, or [None]. *)
Inductive Client : Type := client_openai | client_genai | client_None.

Record model_info : Type := {
  client : Client;
  available : bool;
  specialties : list TaskType;
  performance_score : Q
}.

(** A response is a [dict] whose keys differ from one path to the other. *)
Abbreviation Response := (gmap string pyval).

(** One item of [self.conversation_history], as [_save_to_history] builds
    it. *)
Record entry : Type := {
  entry_timestamp : string;
  entry_user_input : string;
  entry_response : Response;
  entry_task_type : string;
  entry_model_used : string;
  entry_success : pyval
}.

(** The fields of [MultiAIEngine] that the methods read or write
    ([user_preferences] and [model_performance] are set to [{}] by
    [__init__] and never used). *)
Record MultiAIEngine : Type := {
  models : list (AIModel * model_info);
  personality : option PersonalityProfile;
  conversation_history : list entry
}.

(** ** What lies outside the engine *)

(** One item of the [messages] of a chat completion. *)
Record message : Type := { role : string; content : pyval }.

(** The arguments of [openai.ChatCompletion.acreate]. *)
Record acreate_request : Type := {
  req_model : string;
  req_messages : list message;
  req_max_tokens : Z;
  req_temperature : Q;
  req_top_p : Q
}.

(** What the engine reads of the object [acreate] returns: the
    [message.content] of each of the [choices], and [usage.total_tokens]
    when the object has a [usage]. *)
Record chat_completion : Type := {
  choices : list pyval;
  usage : option pyval
}.

(** An awaited call returns or raises. *)
Inductive outcome (A : Type) : Type :=
| Returns (a : A)
| Raises (e : exn).
Arguments Returns {A} a.
Arguments Raises {A} e.

(** The calls the engine made to an adapter, the latest first. *)
Inductive adapter_call : Type :=
| call_openai (req : acreate_request)
| call_gemini (prompt : string).

(** The state the methods run in: the engine object, and the world around
    it. The world answers the [n]-th call to an adapter ([acreate],
    [generate_content_async], with [response.text] read), gives the
    [n]-th value of [random.random()], the index [random.choice] takes at
    the [n]-th use of the generator (reduced modulo the length of the
    sequence), and the [n]-th reading of [datetime.now().isoformat()]. *)
Record World : Type := {
  self : MultiAIEngine;
  acreate : nat -> acreate_request -> outcome chat_completion;
  generate_content_async : nat -> string -> outcome pyval;
  calls : list adapter_call;
  random_draws : nat -> Q;
  random_picks : nat -> nat;
  random_used : nat;
  now_isoformat : nat -> string;
  clock_read : nat
}.

(** ** Methods as state transformers that may raise *)

Definition M (A : Type) : Type := World -> outcome A * World.

Definition ret {A} (a : A) : M A := fun w => (Returns a, w).
Definition raise {A} (e : exn) : M A := fun w => (Raises e, w).
Definition bind {A B} (m : M A) (k : A -> M B) : M B :=
  fun w => match m w with
           | (Returns a, w') => k a w'
           | (Raises e, w') => (Raises e, w')
           end.

(** [try: body except Exception as e: handler(e)]. *)
Definition try_except {A} (body : M A) (handler : exn -> M A) : M A :=
  fun w => match body w with
           | (Raises e, w') =>
               if exn_is_Exception e then handler e w' else (Raises e, w')
           | r => r
           end.

Declare Scope py_scope.
Delimit Scope py_scope with py.
Notation "x <- m ;; k" := (bind m (fun x => k))
  (at level 100, m at next level, right associativity) : py_scope.
Notation "m ;;; k" := (bind m (fun _ => k))
  (at level 100, right associativity) : py_scope.
Open Scope py_scope.

(** The updates of the world the primitives make. *)
Definition with_self (engine : MultiAIEngine) (w : World) : World :=
  {| self := engine;
     acreate := acreate w;
     generate_content_async := generate_content_async w;
     calls := calls w;
     random_draws := random_draws w;
     random_picks := random_picks w;
     random_used := random_used w;
     now_isoformat := now_isoformat w;
     clock_read := clock_read w |}.

Definition log_call (call : adapter_call) (w : World) : World :=
  {| self := self w;
     acreate := acreate w;
     generate_content_async := generate_content_async w;
     calls := call :: calls w;
     random_draws := random_draws w;
     random_picks := random_picks w;
     random_used := random_used w;
     now_isoformat := now_isoformat w;
     clock_read := clock_read w |}.

Definition use_random (w : World) : World :=
  {| self := self w;
     acreate := acreate w;
     generate_content_async := generate_content_async w;
     calls := calls w;
     random_draws := random_draws w;
     random_picks := random_picks w;
     random_used := S (random_used w);
     now_isoformat := now_isoformat w;
     clock_read := clock_read w |}.

Definition read_clock (w : World) : World :=
  {| self := self w;
     acreate := acreate w;
     generate_content_async := generate_content_async w;
     calls := calls w;
     random_draws := random_draws w;
     random_picks := random_picks w;
     random_used := random_used w;
     now_isoformat := now_isoformat w;
     clock_read := S (clock_read w) |}.

Definition get_self : M MultiAIEngine := fun w => (Returns (self w), w).

(** [self.conversation_history = h]. *)
Definition set_history (h : list entry) : M unit :=
  fun w =>
    (Returns tt,
     with_self {| models := models (self w);
                  personality := personality (self w);
                  conversation_history := h |} w).

(** [random.random()]. *)
Definition random_random : M Q :=
  fun w => (Returns (random_draws w (random_used w)), use_random w).

(** [random.choice(x :: xs)], on a sequence that is not empty. *)
Definition random_choice {A} (x : A) (xs : list A) : M A :=
  fun w =>
    (Returns (nth (random_picks w (random_used w) mod length (x :: xs))
                  (x :: xs) x),
     use_random w).

(** [datetime.now().isoformat()]. *)
Definition datetime_now_isoformat : M string :=
  fun w => (Returns (now_isoformat w (clock_read w)), read_clock w).

(** [await openai.ChatCompletion.acreate(...)]. *)
Definition await_acreate (req : acreate_request) : M chat_completion :=
  fun w => (acreate w (length (calls w)) req, log_call (call_openai req) w).

(** [(await genai.GenerativeModel('gemini-pro')
        .generate_content_async(prompt)).text]. *)
Definition await_generate_content (prompt : string) : M pyval :=
  fun w =>
    (generate_content_async w (length (calls w)) prompt,
     log_call (call_gemini prompt) w).

(** [d[k]] on a response. *)
Definition getitem (d : Response) (k : string) : M pyval :=
  match d !! k with
  | Some v => ret v
  | None => raise (KeyError k)
  end.

(** ** The engine *)

(** [_initialize_models]: the registry [__init__] builds. The two
    arguments tell whether [settings.openai_api_key] and
    [settings.google_api_key] are set (the configuration of the client
    modules is outside the engine). *)
Definition _initialize_models (openai_api_key google_api_key : bool)
    : list (AIModel * model_info) :=
  let models := [] in
  let models :=
    if openai_api_key then
      let models :=
        dict_set GPT4
          {| client := client_openai; available := true;
             specialties := [CONVERSATION; CONTENT_GENERATION; RESEARCH];
             performance_score := f0_95 |} models in
      dict_set GPT35_TURBO
        {| client := client_openai; available := true;
           specialties := [CONVERSATION; TRANSLATION];
           performance_score := f0_85 |} models
    else models in
  let models :=
    if google_api_key then
      dict_set GEMINI_PRO
        {| client := client_genai; available := true;
           specialties := [CREATIVE_WRITING; TECHNICAL_ANALYSIS];
           performance_score := f0_9 |} models
    else models in
  let models :=
    dict_set LLAMA2
      {| client := client_None; available := false;
         specialties := [CONVERSATION; RESEARCH];
         performance_score := f0_8 |} models in
  dict_set T5
    {| client := client_None; available := false;
       specialties := [TRANSLATION; CONTENT_GENERATION];
       performance_score := 0.75 |} models.

(** [MultiAIEngine()]. *)
Definition __init__ (openai_api_key google_api_key : bool) : MultiAIEngine :=
  {| models := _initialize_models openai_api_key google_api_key;
     personality := None;
     conversation_history := [] |}.

(** The literal [task_keywords] of [_detect_task_type], in the order it is
    written. *)
Definition task_keywords : list (TaskType * list string) :=
  [ (FINANCIAL_ADVICE,
     ["سهام"; "بورس"; "ارز"; "بیت کوین"; "تریدینگ"; "سرمایه‌گذاری";
      "stock"; "crypto"; "bitcoin"; "trading"; "investment"]);
    (PSYCHOLOGICAL_SUPPORT,
     ["غمگین"; "استرس"; "اضطراب"; "مشکل"; "نگران"; "افسرده";
      "sad"; "stress"; "anxiety"; "worried"; "depressed"; "help me"]);
    (CREATIVE_WRITING,
     ["داستان"; "شعر"; "نوشتن"; "خلاقیت"; "متن";
      "story"; "poem"; "write"; "creative"; "content"]);
    (TRANSLATION,
     ["ترجمه"; "translate"; "معنی"; "meaning"]);
    (MEDITATION,
     ["آرامش"; "مدیتیشن"; "تنفس"; "آرام"; "استراحت";
      "meditation"; "relax"; "calm"; "peace"; "breathe"]);
    (RESEARCH,
     ["تحقیق"; "جستجو"; "اطلاعات"; "یاد بگیر"; "بگو";
      "research"; "search"; "information"; "learn"; "tell me"]) ].

(** [sum(1 for keyword in keywords if keyword in input_lower)]. *)
Definition keyword_score (keywords : list string) (input_lower : string) : Z :=
  Py.sum (map (fun _ => 1%Z)
              (filter (fun keyword => contains keyword input_lower = true)
                      keywords)).

(** The loop that fills [task_scores]: a category enters the [dict] when
    its score is positive. *)
Fixpoint fill_task_scores (table : list (TaskType * list string))
    (input_lower : string) (task_scores : list (TaskType * Z))
    : list (TaskType * Z) :=
  match table with
  | [] => task_scores
  | (task_type, keywords) :: table' =>
      let score := keyword_score keywords input_lower in
      fill_task_scores table' input_lower
        (if (score >? 0)%Z then dict_set task_type score task_scores
         else task_scores)
  end.

(** [_select_best_model]. [max] compares the scores of the pairs;
    [list(self.models.keys())[0]] raises on an empty registry. *)
Definition suitable_models (models : list (AIModel * model_info))
    (task_type : TaskType) : list (AIModel * Q) :=
  omap (fun '(model, info) =>
          if available info && bool_decide (task_type ∈ specialties info)
          then Some (model, performance_score info) else None)
       models.

Definition _select_best_model (task_type : TaskType) : M AIModel :=
  self <- get_self;;
  match suitable_models (models self) task_type with
  | x :: rest => ret (fst (max_from (fun a b => Qltb b a) snd x rest))
  | [] =>
      if dict_mem GPT35_TURBO (models self) then ret GPT35_TURBO
      else match map fst (models self) with
           | model :: _ => ret model
           | [] => raise (IndexError "list index out of range")
           end
  end.

(** The literal [system_prompts] of [_process_with_openai] follows, then
    the text the f-string [personality_info] adds to the system prompt. *)
Definition system_prompts : list (TaskType * string) :=
  [
    (CONVERSATION,
     "شما یک دستیار هوشمند و دوستانه هستید که با کاربران به صورت طبیعی گفتگو می‌کنید.");
    (FINANCIAL_ADVICE,
     "شما یک مشاور مالی حرفه‌ای هستید که در زمینه سرمایه‌گذاری، بورس و ارزهای دیجیتال تخصص دارید.");
    (PSYCHOLOGICAL_SUPPORT,
     "شما یک مشاور روانی دلسوز و درک‌کننده هستید که به افراد کمک می‌کنید احساسات خود را مدیریت کنند.");
    (CREATIVE_WRITING,
     "شما یک نویسنده خلاق و با تجربه هستید که در تولید محتوای جذاب و خلاقانه مهارت دارید.");
    (MEDITATION,
     "شما یک مربی مدیتیشن و آرامش هستید که به افراد کمک می‌کنید آرامش پیدا کنند.");
    (RESEARCH,
     "شما یک محقق دقیق و کارآمد هستید که اطلاعات جامع و قابل اعتماد ارائه می‌دهید.") ].


Definition personality_info (p : PersonalityProfile) : string :=
  "
            نام شما " ++ name p ++ " است و جنسیت شما " ++ gender p ++ " است.
            ویژگی‌های شخصیتی شما: " ++ join ", " (personality_traits p) ++ "
            سبک ارتباطی شما: " ++ communication_style p ++ "
            ".

(** The apology [_process_with_model] answers with when the call failed. *)
Definition fallback_apology : string :=
  "متأسفم، در حال حاضر مشکلی در پردازش درخواست شما وجود دارد.".

(** The literals of [_apply_personality]. *)
Definition greetings : list string := ["سلام"; "hello"; "hi"].

Definition friendly_starters : list string :=
  ["راستش"; "ببین"; "خب"; "Well"; "So"].

Definition empathy_phrases : list string :=
  ["درکت می‌کنم"; "حست رو می‌فهمم"; "I understand how you feel";
   "این واقعاً سخته"; "You're not alone in this"].

(** The literal [specialty_configs] of [get_specialized_response]. *)
Definition specialty_configs : list (string * (TaskType * string)) :=
  [
    ("financial_advisor",
     (FINANCIAL_ADVICE,
      "شما یک مشاور مالی حرفه‌ای با 10 سال تجربه هستید.
                تخصص شما در تحلیل بازار سهام، ارزهای دیجیتال، و استراتژی‌های سرمایه‌گذاری است.
                همیشه ریسک‌ها را توضیح دهید و توصیه‌های محافظه‌کارانه ارائه دهید."));
    ("therapist",
     (PSYCHOLOGICAL_SUPPORT,
      "شما یک روانشناس مجرب و دلسوز هستید.
                با همدلی و درک عمیق به مشکلات افراد گوش می‌دهید.
                تکنیک‌های عملی برای مدیریت استرس و بهبود سلامت روان ارائه می‌دهید."));
    ("creative_writer",
     (CREATIVE_WRITING,
      "شما یک نویسنده خلاق و با تجربه هستید.
                در تولید داستان، شعر، و محتوای جذاب مهارت فوق‌العاده‌ای دارید.
                از زبان زیبا و تصاویر قوی استفاده می‌کنید."));
    ("meditation_guide",
     (MEDITATION,
      "شما یک مربی مدیتیشن و mindfulness هستید.
                تکنیک‌های آرام‌سازی، تنفس، و تمرینات ذهن‌آگاهی را آموزش می‌دهید.
                صدای آرام و دلنشینی دارید که به آرامش افراد کمک می‌کند.")) ].


(** The values of the [dict] that [get_conversation_stats] returns. *)
Inductive stat_value : Type :=
| SNone
| SInt (z : Z)
| SStr (s : string)
| SCounts (d : list (string * Z)).

Section Engine.

(** [str.lower]. *)
Variable str_lower : string -> string.

(** [f"{successes / total * 100:.1f}%"], the float arithmetic and the
    rounding to one decimal included. *)
Variable format_success_rate : Z -> Z -> string.

(** [_detect_task_type]. [max(task_scores, key=task_scores.get)] goes
    through the keys in insertion order. *)
Definition _detect_task_type (user_input : string) : M TaskType :=
  let input_lower := str_lower user_input in
  let task_scores := fill_task_scores task_keywords input_lower [] in
  match map fst task_scores with
  | x :: rest =>
      ret (max_from Z.gtb
             (fun k => default 0%Z (dict_get k task_scores)) x rest)
  | [] => ret CONVERSATION
  end.

(** The loop of [_process_with_openai] over [recent_history]: each entry
    puts its two turns before the current user message;
    [entry["response"]["content"]] raises for a response without
    [content]. *)
Fixpoint replay_history (recent_history : list entry)
    (messages : list message) : M (list message) :=
  match recent_history with
  | [] => ret messages
  | entry :: recent_history' =>
      let messages :=
        insert_before_last
          {| role := "user"; content := VStr (entry_user_input entry) |}
          messages in
      previous <- getitem (entry_response entry) "content";;
      replay_history recent_history'
        (insert_before_last
           {| role := "assistant"; content := previous |} messages)
  end.

(** [_process_with_openai]. *)
Definition _process_with_openai (model : AIModel) (user_input : string)
    (task_type : TaskType) : M Response :=
  self <- get_self;;
  let system_prompt :=
    default (default "" (dict_get CONVERSATION system_prompts))
            (dict_get task_type system_prompts) in
  let system_prompt :=
    match personality self with
    | Some p => system_prompt ++ personality_info p
    | None => system_prompt
    end in
  let messages :=
    [ {| role := "system"; content := VStr system_prompt |};
      {| role := "user"; content := VStr user_input |} ] in
  messages <-
    (if (0 <? length (conversation_history self))%nat
     then replay_history (last_n 5 (conversation_history self)) messages
     else ret messages);;
  response <-
    await_acreate
      {| req_model := AIModel_value model;
         req_messages := messages;
         req_max_tokens := 1000;
         req_temperature :=
           if decide (task_type = CREATIVE_WRITING) then f0_7 else 0.5;
         req_top_p := f0_9 |};;
  text <-
    match choices response with
    | first :: _ => ret first
    | [] => raise (IndexError "list index out of range")
    end;;
  ret ({[ "success" := VBool true;
          "content" := text;
          "model_used" := VStr (AIModel_value model);
          "task_type" := VStr (TaskType_value task_type);
          "tokens_used" := default (VInt 0) (usage response) ]} : Response).

(** [_process_with_gemini], with a handler of its own. *)
Definition _process_with_gemini (user_input : string)
    (task_type : TaskType) : M Response :=
  try_except
    (text <- await_generate_content user_input;;
     ret ({[ "success" := VBool true;
             "content" := text;
             "model_used" := VStr "gemini-pro";
             "task_type" := VStr (TaskType_value task_type) ]} : Response))
    (fun e =>
       ret ({[ "success" := VBool false;
               "error" := VStr ("Gemini error: " ++ exn_str e) ]}
            : Response)).

(** [_process_with_model]. *)
Definition _process_with_model (model : AIModel) (user_input : string)
    (task_type : TaskType) : M Response :=
  try_except
    (if bool_decide (model ∈ [GPT4; GPT35_TURBO]) then
       _process_with_openai model user_input task_type
     else if bool_decide (model = GEMINI_PRO) then
       _process_with_gemini user_input task_type
     else
       _process_with_openai GPT35_TURBO user_input task_type)
    (fun e =>
       ret ({[ "success" := VBool false;
               "error" := VStr (exn_str e);
               "fallback_response" := VStr fallback_apology ]}
            : Response)).

(** [content.lower()]: only a [str] has the method. *)
Definition lower_method (v : pyval) : M string :=
  match v with
  | VStr s => ret (str_lower s)
  | VNone =>
      raise (AttributeError "'NoneType' object has no attribute 'lower'")
  | VBool _ =>
      raise (AttributeError "'bool' object has no attribute 'lower'")
  | VInt _ =>
      raise (AttributeError "'int' object has no attribute 'lower'")
  end.

(** [_apply_personality]. The three blocks that follow the guard are
    named after their comments in the source. *)
Definition informal_style (p : PersonalityProfile) (content : pyval)
    : M pyval :=
  if Qltb (formality_level p) 0.5 then
    lowered <- lower_method content;;
    if negb (existsb (fun greeting => contains greeting lowered) greetings)
    then
      draw <- random_random;;
      if Qltb draw f0_3 then
        starter <- random_choice "راستش" ["ببین"; "خب"; "Well"; "So"];;
        ret (VStr (starter ++ ", " ++ Py.str content))
      else ret content
    else ret content
  else ret content.

Definition emotional_elements (p : PersonalityProfile)
    (task_type : TaskType) (content : pyval) : M pyval :=
  if bool_decide (task_type = PSYCHOLOGICAL_SUPPORT)
     && Qltb f0_8 (empathy_level p) then
    draw <- random_random;;
    if Qltb draw f0_4 then
      phrase <-
        random_choice "درکت می‌کنم"
          ["حست رو می‌فهمم"; "I understand how you feel";
           "این واقعاً سخته"; "You're not alone in this"];;
      ret (VStr (phrase ++ ". " ++ Py.str content))
    else ret content
  else ret content.

Definition humor (p : PersonalityProfile) (task_type : TaskType)
    : M unit :=
  if Qltb f0_6 (humor_level p)
     && bool_decide (task_type ∈ [CONVERSATION; CREATIVE_WRITING]) then
    draw <- random_random;;
    if Qltb draw f0_2 then ret tt else ret tt
  else ret tt.

Definition _apply_personality (result : Response) (task_type : TaskType)
    : M Response :=
  self <- get_self;;
  match personality self with
  | None => ret result
  | Some p =>
      if negb (truthy (get_or_None result "success")) then ret result
      else
        content <- getitem result "content";;
        content <- informal_style p content;;
        content <- emotional_elements p task_type content;;
        humor p task_type;;;
        ret (<["personality_name" := VStr (name p)]>
               (<["personality_applied" := VBool true]>
                  (<["content" := content]> result)))
  end.

(** [_save_to_history]. *)
Definition _save_to_history (user_input : string) (response : Response)
    (task_type : TaskType) (model_used : AIModel) : M unit :=
  timestamp <- datetime_now_isoformat;;
  let entry :=
    {| entry_timestamp := timestamp;
       entry_user_input := user_input;
       entry_response := response;
       entry_task_type := TaskType_value task_type;
       entry_model_used := AIModel_value model_used;
       entry_success := default (VBool false) (response !! "success") |} in
  self <- get_self;;
  let history := (conversation_history self ++ [entry])%list in
  if (100 <? length history)%nat then set_history (last_n 100 history)
  else set_history history.

(** [process_request]; the [context] argument is handed on and never
    read. *)
Definition process_request (user_input : string)
    (task_type : option TaskType) : M Response :=
  task_type <-
    match task_type with
    | Some task_type => ret task_type
    | None => _detect_task_type user_input
    end;;
  selected_model <- _select_best_model task_type;;
  result <- _process_with_model selected_model user_input task_type;;
  personalized_result <- _apply_personality result task_type;;
  _save_to_history user_input personalized_result task_type selected_model;;;
  ret personalized_result.

(** [get_specialized_response]. *)
Definition get_specialized_response (specialty query : string)
    : M Response :=
  match dict_get specialty specialty_configs with
  | None =>
      ret ({[ "success" := VBool false;
              "error" := VStr "Specialty not found" ]} : Response)
  | Some config => process_request query (Some (fst config))
  end.

(** [get_conversation_stats]: the loop over the history, then the
    result. *)
Definition count_entry
    (acc : list (string * Z) * list (string * Z) * Z) (entry : entry)
    : list (string * Z) * list (string * Z) * Z :=
  let '(task_counts, model_usage, success_rate) := acc in
  let task_type := entry_task_type entry in
  let model_used := entry_model_used entry in
  (dict_set task_type
     (default 0%Z (dict_get task_type task_counts) + 1)%Z task_counts,
   dict_set model_used
     (default 0%Z (dict_get model_used model_usage) + 1)%Z model_usage,
   if truthy (entry_success entry) then (success_rate + 1)%Z
   else success_rate).

Definition most_used (counts : list (string * Z)) : stat_value :=
  match map fst counts with
  | x :: rest =>
      SStr (max_from Z.gtb (fun k => default 0%Z (dict_get k counts)) x rest)
  | [] => SNone
  end.

Definition get_conversation_stats : M (gmap string stat_value) :=
  self <- get_self;;
  match conversation_history self with
  | [] => ret {[ "total_conversations" := SInt 0 ]}
  | _ :: _ =>
      let '(task_counts, model_usage, success_rate) :=
        fold_left count_entry (conversation_history self) ([], [], 0%Z) in
      let total := Z.of_nat (length (conversation_history self)) in
      ret {[ "total_conversations" := SInt total;
             "task_distribution" := SCounts task_counts;
             "model_usage" := SCounts model_usage;
             "success_rate" := SStr (format_success_rate success_rate total);
             "most_used_task" := most_used task_counts;
             "most_used_model" := most_used model_usage ]}
  end.

End Engine.

(** ** The remaining methods *)

(** [self.personality = p]. *)
Definition set_personality (p : PersonalityProfile) : M unit :=
  fun w =>
    (Returns tt,
     with_self {| models := models (self w);
                  personality := Some p;
                  conversation_history := conversation_history (self w) |} w).

(** The values of the literal [personality_configs] of
    [setup_personality]. *)
Record personality_config : Type := {
  config_traits : list string;
  config_communication_style : string;
  config_empathy_level : Q;
  config_humor_level : Q;
  config_formality_level : Q
}.

Definition personality_configs : list (string * personality_config) :=
  [ ("friendly",
     {| config_traits := ["دوستانه"; "مهربان"; "صبور"; "کمک‌کار"];
        config_communication_style := "گرم و صمیمی";
        config_empathy_level := f0_9;
        config_humor_level := f0_7;
        config_formality_level := f0_3 |});
    ("professional",
     {| config_traits := ["حرفه‌ای"; "دقیق"; "قابل اعتماد"; "کارآمد"];
        config_communication_style := "رسمی و مؤدبانه";
        config_empathy_level := f0_6;
        config_humor_level := f0_3;
        config_formality_level := f0_8 |});
    ("companion",
     {| config_traits := ["رفیق"; "درک‌کننده"; "حمایت‌گر"; "آرام‌بخش"];
        config_communication_style := "صمیمی و حمایت‌کننده";
        config_empathy_level := f0_95;
        config_humor_level := f0_8;
        config_formality_level := f0_2 |}) ].

(** The pools of names of [setup_personality], by gender. *)
Definition names_female : list string :=
  ["آریا"; "نیلا"; "سارا"; "مهرناز"; "الهام"; "Aria"; "Luna"; "Sophie"].

Definition names_male : list string :=
  ["آرش"; "کیان"; "امیر"; "پویا"; "سینا"; "Alex"; "Max"; "David"].

Definition names_neutral : list string :=
  ["آی"; "هوشیار"; "دانا"; "AI"; "Assistant"; "Helper"].

(** The pool [setup_personality] draws a name from. *)
Definition names_for (gender : string) : list string :=
  if String.eqb gender "female" then names_female
  else if String.eqb gender "male" then names_male
  else names_neutral.

(** The choice of a name in [setup_personality]: [random.choice] on the
    pool of the gender. *)
Definition choose_name (gender : string) : M string :=
  match names_for gender with
  | first :: others => random_choice first others
  | [] => raise (IndexError "Cannot choose from an empty sequence")
  end.

(** [setup_personality]. The [name] argument is [None] or a [str];
    [not name] holds for [None] and for the empty string. *)
Definition setup_personality (gender : string) (name : option string)
    (personality_type : string) : M PersonalityProfile :=
  name <-
    match name with
    | Some given =>
        if negb (String.eqb given "") then ret given else choose_name gender
    | None => choose_name gender
    end;;
  match dict_get "friendly" personality_configs with
  | None => raise (KeyError "friendly")
  | Some friendly =>
      let config :=
        default friendly (dict_get personality_type personality_configs) in
      let profile :=
        {| gender := gender;
           name := name;
           personality_traits := config_traits config;
           communication_style := config_communication_style config;
           expertise_areas :=
             ["مکالمه عمومی"; "مشاوره"; "تولید محتوا"; "تحلیل مالی";
              "حمایت روانی"; "آموزش"; "سرگرمی"];
           emotional_intelligence := config_empathy_level config;
           humor_level := config_humor_level config;
           formality_level := config_formality_level config;
           empathy_level := config_empathy_level config |} in
      set_personality profile;;;
      ret profile
  end.

(** The values of the [dict] that [get_personality_info] returns. *)
Inductive info_value : Type :=
| IStr (s : string)
| IList (items : list string)
| IFloat (x : Q).

(** [get_personality_info]. *)
Definition get_personality_info : M (gmap string info_value) :=
  self <- get_self;;
  match personality self with
  | None => ret {[ "error" := IStr "No personality configured" ]}
  | Some p =>
      ret {[ "name" := IStr (name p);
             "gender" := IStr (gender p);
             "traits" := IList (personality_traits p);
             "communication_style" := IStr (communication_style p);
             "expertise_areas" := IList (expertise_areas p);
             "emotional_intelligence" := IFloat (emotional_intelligence p);
             "humor_level" := IFloat (humor_level p);
             "formality_level" := IFloat (formality_level p) ]}
  end.

(** The values of the [dict] that [get_available_models] returns. *)
Record model_summary : Type := {
  summary_available : bool;
  summary_specialties : list string;
  summary_performance_score : Q
}.

Definition summary_of (info : model_info) : model_summary :=
  {| summary_available := available info;
     summary_specialties := map TaskType_value (specialties info);
     summary_performance_score := performance_score info |}.

(** [get_available_models]: the comprehension sets one key after the
    other, in the order of the registry. *)
Definition get_available_models : M (list (string * model_summary)) :=
  self <- get_self;;
  ret (fold_left
         (fun summaries '(model, info) =>
            dict_set (AIModel_value model) (summary_of info) summaries)
         (models self) []).

(** ** Definitions used to state the properties *)

(** The trigger phrases of a category, and the score the loop of
    [_detect_task_type] computes for it. *)
Definition keywords_of (task_type : TaskType) : list string :=
  default [] (dict_get task_type task_keywords).

Definition category_score (str_lower : string -> string)
    (user_input : string) (task_type : TaskType) : Z :=
  keyword_score (keywords_of task_type) (str_lower user_input).

(** The counting rule in the words of the specification: every occurrence
    of a trigger phrase in the lower-cased input counts, a phrase that
    appears twice counts twice. *)
Definition occurrence_score (str_lower : string -> string)
    (user_input : string) (task_type : TaskType) : Z :=
  Py.sum (map (fun keyword =>
                 Z.of_nat (occurrences keyword (str_lower user_input)))
              (keywords_of task_type)).

(** A response that starts with a greeting phrase, in the words of the
    specification. *)
Definition starts_with_greeting (lowered : string) : bool :=
  existsb (fun greeting => String.prefix greeting lowered) greetings.

(** What [_apply_personality] tests instead. *)
Definition has_greeting_inside (lowered : string) : bool :=
  existsb (fun greeting => contains greeting lowered) greetings.

(** The entry [_save_to_history] appends when the clock reads
    [timestamp]. *)
Definition entry_of (timestamp : string)
    (saved : string * Response * TaskType * AIModel) : entry :=
  let '(user_input, response, task_type, model_used) := saved in
  {| entry_timestamp := timestamp;
     entry_user_input := user_input;
     entry_response := response;
     entry_task_type := TaskType_value task_type;
     entry_model_used := AIModel_value model_used;
     entry_success := default (VBool false) (response !! "success") |}.

(** [_save_to_history] called once for each item, in order. *)
Fixpoint save_all (saved : list (string * Response * TaskType * AIModel))
    : M unit :=
  match saved with
  | [] => ret tt
  | (user_input, response, task_type, model_used) :: saved' =>
      _save_to_history user_input response task_type model_used;;;
      save_all saved'
  end.

(** The entries those calls append when the clock has been read [read]
    times before the first of them. *)
Fixpoint saved_entries (clock : nat -> string) (read : nat)
    (saved : list (string * Response * TaskType * AIModel)) : list entry :=
  match saved with
  | [] => []
  | item :: saved' =>
      entry_of (clock read) item :: saved_entries clock (S read) saved'
  end.

(** One hundred and fifty requests to save, numbered in order. *)
Definition numbered_requests
    : list (string * Response * TaskType * AIModel) :=
  map (fun i : nat =>
         (pretty i, ({[ "success" := VBool true ]} : Response),
          CONVERSATION, GPT4))
      (seq 0 150).

(** What the loop filling [task_scores] leaves: the positive scores, in the
    order of the table. *)
Definition positive_scores (table : list (TaskType * list string))
    (input_lower : string) : list (TaskType * Z) :=
  omap (fun '(task_type, keywords) =>
          let score := keyword_score keywords input_lower in
          if (score >? 0)%Z then Some (task_type, score) else None)
       table.

(** After a dispatch the world is the one before it, or that one with a
    call more in the log. *)
Definition at_most_one_call (w w' : World) : Prop :=
  w' = w \/ exists call, w' = log_call call w.

(** A world around a given engine: the adapters answer every call with
    [reply] and [text], the generator follows [draws] and [picks], and the
    clock counts its readings. *)
Definition world_around (engine : MultiAIEngine)
    (reply : outcome chat_completion) (text : outcome pyval)
    (draws : nat -> Q) (picks : nat -> nat) : World :=
  {| self := engine;
     acreate := fun _ _ => reply;
     generate_content_async := fun _ _ => text;
     calls := [];
     random_draws := draws;
     random_picks := picks;
     random_used := 0;
     now_isoformat := fun n => pretty n;
     clock_read := 0 |}.

Definition answering : outcome chat_completion :=
  Returns {| choices := [VStr "Test response from GPT"];
             usage := Some (VInt 10) |}.

Definition quiet_world (engine : MultiAIEngine) : World :=
  world_around engine answering (Returns (VStr "Test response from Gemini"))
    (fun _ => 0.5%Q) (fun _ => 0%nat).


(** The profile [setup_personality] builds for the type ["friendly"],
    under a given name. *)
Definition friendly_profile (gender name : string) : PersonalityProfile :=
  {| gender := gender;
     name := name;
     personality_traits := ["دوستانه"; "مهربان"; "صبور"; "کمک‌کار"];
     communication_style := "گرم و صمیمی";
     expertise_areas :=
       ["مکالمه عمومی"; "مشاوره"; "تولید محتوا"; "تحلیل مالی";
        "حمایت روانی"; "آموزش"; "سرگرمی"];
     emotional_intelligence := f0_9;
     humor_level := f0_7;
     formality_level := f0_3;
     empathy_level := f0_9 |}.

Definition with_personality (p : PersonalityProfile) (engine : MultiAIEngine)
    : MultiAIEngine :=
  {| models := models engine;
     personality := Some p;
     conversation_history := conversation_history engine |}.


(** The history can be replayed: each of its last five entries has a
    response with a [content]. *)
Definition replayable (history : list entry) : Prop :=
  forall entry, entry ∈ last_n 5 history ->
                is_Some (entry_response entry !! "content").

(** The two turns an entry of the history gives when it is replayed. *)
Definition turns_of (entry : entry) : list message :=
  [ {| role := "user"; content := VStr (entry_user_input entry) |};
    {| role := "assistant";
       content := default VNone (entry_response entry !! "content") |} ].

(** The system prompt [_process_with_openai] composes. *)
Definition system_prompt_for (engine : MultiAIEngine) (task_type : TaskType)
    : string :=
  let base :=
    default (default "" (dict_get CONVERSATION system_prompts))
            (dict_get task_type system_prompts) in
  match personality engine with
  | Some p => base ++ personality_info p
  | None => base
  end.

(** The request [_process_with_openai] sends when the history can be
    replayed: the system prompt, the turns of the last five entries, the
    oldest first, then the input. *)
Definition request_for (engine : MultiAIEngine) (model : AIModel)
    (user_input : string) (task_type : TaskType) : acreate_request :=
  {| req_model := AIModel_value model;
     req_messages :=
       ({| role := "system";
           content := VStr (system_prompt_for engine task_type) |}
        :: flat_map turns_of (last_n 5 (conversation_history engine))
        ++ [ {| role := "user"; content := VStr user_input |} ])%list;
     req_max_tokens := 1000;
     req_temperature :=
       if decide (task_type = CREATIVE_WRITING) then f0_7 else 0.5;
     req_top_p := f0_9 |}.

(** The response of [_process_with_model] when the replay of the history
    raised its [KeyError]. *)
Definition replay_failure : Response :=
  {[ "success" := VBool false;
     "error" := VStr "'content'";
     "fallback_response" := VStr fallback_apology ]}.

(** The value of [model_used] in the response of a dispatch to a given
    adapter. *)
Definition dispatched_as (model : AIModel) : string :=
  if bool_decide (model ∈ [GPT4; GPT35_TURBO]) then AIModel_value model
  else if bool_decide (model = GEMINI_PRO) then "gemini-pro"
  else AIModel_value GPT35_TURBO.

(** The number of entries of a history with a given value of a field. *)
Definition occurrences_of (field : entry -> string) (value : string)
    (history : list entry) : Z :=
  Z.of_nat (length (filter (fun entry => field entry = value) history)).

(** The counting [dict] of [get_conversation_stats] after the keys of a
    list have been counted one by one:
    [counts[key] = counts.get(key, 0) + 1]. *)
Definition tally (keys : list string) (counts : list (string * Z))
    : list (string * Z) :=
  fold_left
    (fun counts key =>
       dict_set key (default 0%Z (dict_get key counts) + 1)%Z counts)
    keys counts.

(** The number of entries whose [success] is truthy. *)
Definition successes (history : list entry) : Z :=
  Z.of_nat (length (filter (fun entry => truthy (entry_success entry) = true)
                           history)).

(** A value of a field is the most frequent of a history, and of the
    values as frequent the one met first: it has the greatest number of
    entries, and every entry before its first one has a value with
    strictly fewer. *)
Definition first_most_frequent (field : entry -> string)
    (history : list entry) (value : string) : Prop :=
  exists before entry after,
    history = (before ++ entry :: after)%list /\
    field entry = value /\
    (forall earlier, earlier ∈ before -> field earlier <> value) /\
    (forall other,
        (occurrences_of field other history <=
         occurrences_of field value history)%Z) /\
    (forall earlier, earlier ∈ before ->
        (occurrences_of field (field earlier) history <
         occurrences_of field value history)%Z).

(** A failed response in the history, as [_process_with_model] builds it
    for a time-out. *)
Definition failed_entry : entry :=
  entry_of "0"
    ("hello",
     ({[ "success" := VBool false;
         "error" := VStr "";
         "fallback_response" := VStr fallback_apology ]} : Response),
     CONVERSATION, GPT4).

(** Several calls of [process_request], one after the other. *)
Fixpoint process_requests (str_lower : string -> string)
    (requests : list (string * option TaskType)) : M (list Response) :=
  match requests with
  | [] => ret []
  | (user_input, task_type) :: requests' =>
      response <- process_request str_lower user_input task_type;;
      responses <- process_requests str_lower requests';;
      ret (response :: responses)
  end.

(** The profile [setup_personality] builds for the type ["companion"],
    under a given name. *)
Definition companion_profile (gender name : string) : PersonalityProfile :=
  {| gender := gender;
     name := name;
     personality_traits := ["رفیق"; "درک‌کننده"; "حمایت‌گر"; "آرام‌بخش"];
     communication_style := "صمیمی و حمایت‌کننده";
     expertise_areas :=
       ["مکالمه عمومی"; "مشاوره"; "تولید محتوا"; "تحلیل مالی";
        "حمایت روانی"; "آموزش"; "سرگرمی"];
     emotional_intelligence := f0_95;
     humor_level := f0_8;
     formality_level := f0_2;
     empathy_level := f0_95 |}.

(** Two strings differ at an index that both have. *)
Fixpoint differ_inside (a b : string) : bool :=
  match a, b with
  | String x a, String y b => negb (Ascii.eqb x y) || differ_inside a b
  | _, _ => false
  end.

(** A history of six answered requests, numbered in order. *)
Definition answered_history : list entry :=
  map (fun i : nat =>
         entry_of (pretty i)
           ("question " ++ pretty i,
            ({[ "success" := VBool true;
                "content" := VStr ("answer " ++ pretty i) ]} : Response),
            CONVERSATION, GPT4))
      (seq 0 6).

(** A history of four entries in which two categories, and two adapters,
    have two entries each: two conversations answered by GPT-4 around two
    pieces of creative writing answered by Gemini. *)
Definition tied_history : list entry :=
  [ entry_of "0"
      ("hello", ({[ "success" := VBool true ]} : Response),
       CONVERSATION, GPT4);
    entry_of "1"
      ("a poem", ({[ "success" := VBool true ]} : Response),
       CREATIVE_WRITING, GEMINI_PRO);
    entry_of "2"
      ("a tale", ({[ "success" := VBool true ]} : Response),
       CREATIVE_WRITING, GEMINI_PRO);
    entry_of "3"
      ("goodbye", ({[ "success" := VBool true ]} : Response),
       CONVERSATION, GPT4) ].

(** * Properties *)

(** ** Python's [max] *)

Section MaxFrom.

Context {A K : Type} (gt : K -> K -> bool) (key : A -> K).

Hypothesis gt_trans :
  forall a b c, gt a b = true -> gt b c = true -> gt a c = true.
Hypothesis gt_above :
  forall a b c, gt a b = true -> gt c b = false -> gt a c = true.

Lemma max_from_snoc (x : A) (rest : list A) (y : A) :
  max_from gt key x (rest ++ [y])%list =
  if gt (key y) (key (max_from gt key x rest)) then y
  else max_from gt key x rest.
Proof. unfold max_from. by rewrite fold_left_app. Qed.

(** The item [max] returns splits the sequence: every item before it has
    a strictly smaller key, no item after it has a greater one. *)
Lemma max_from_first_maximal (x : A) (rest : list A) :
  exists before after,
    (x :: rest = before ++ max_from gt key x rest :: after)%list /\
    (forall y, y ∈ before ->
               gt (key (max_from gt key x rest)) (key y) = true) /\
    (forall y, y ∈ after ->
               gt (key y) (key (max_from gt key x rest)) = false).
Proof.
  induction rest as [|y rest IH] using rev_ind.
  - exists [], []. split; [done|]. split; intros y Hy; inversion Hy.
  - destruct IH as (before & after & Hsplit & Hbefore & Hafter).
    rewrite max_from_snoc.
    destruct (gt (key y) (key (max_from gt key x rest))) eqn:Hgt.
    + exists (x :: rest), []. split; [by rewrite app_comm_cons|].
      split; [|intros z Hz; inversion Hz].
      intros z Hz. rewrite Hsplit in Hz.
      apply elem_of_app in Hz as [Hz|Hz].
      * eapply gt_trans; [exact Hgt|]. by apply Hbefore.
      * apply elem_of_cons in Hz as [->|Hz]; [exact Hgt|].
        eapply gt_above; [exact Hgt|]. by apply Hafter.
    + exists before, (after ++ [y])%list. split.
      { rewrite app_comm_cons, Hsplit. by rewrite <- app_assoc. }
      split; [exact Hbefore|].
      intros z Hz. apply elem_of_app in Hz as [Hz|Hz]; [by apply Hafter|].
      apply list_elem_of_singleton in Hz as ->. exact Hgt.
Qed.

Lemma max_from_elem (x : A) (rest : list A) :
  max_from gt key x rest ∈ x :: rest.
Proof.
  destruct (max_from_first_maximal x rest) as (before & after & -> & _).
  apply elem_of_app. right. apply list_elem_of_here.
Qed.

End MaxFrom.

Lemma Zgtb_trans (a b c : Z) :
  (a >? b)%Z = true -> (b >? c)%Z = true -> (a >? c)%Z = true.
Proof. lia. Qed.

Lemma Zgtb_above (a b c : Z) :
  (a >? b)%Z = true -> (c >? b)%Z = false -> (a >? c)%Z = true.
Proof. lia. Qed.

Lemma Qltb_lt (x y : Q) : Qltb x y = true <-> (x < y)%Q.
Proof. unfold Qltb, Qlt. apply Z.ltb_lt. Qed.

Lemma Qltb_ge (x y : Q) : Qltb x y = false <-> (y <= x)%Q.
Proof. unfold Qltb, Qle. apply Z.ltb_ge. Qed.

Lemma Qgtb_trans (a b c : Q) :
  Qltb b a = true -> Qltb c b = true -> Qltb c a = true.
Proof. rewrite !Qltb_lt. intros H1 H2. by eapply Qlt_trans. Qed.

Lemma Qgtb_above (a b c : Q) :
  Qltb b a = true -> Qltb b c = false -> Qltb c a = true.
Proof. rewrite !Qltb_lt, Qltb_ge. intros H1 H2. by eapply Qle_lt_trans. Qed.

(** ** The registry and the selector *)

Lemma suitable_models_elem (registry : list (AIModel * model_info))
    (task_type : TaskType) (model : AIModel) (info : model_info) :
  (model, info) ∈ registry -> available info = true ->
  task_type ∈ specialties info ->
  (model, performance_score info) ∈ suitable_models registry task_type.
Proof.
  intros Hin Hav Hsp. unfold suitable_models.
  apply list_elem_of_omap. exists (model, info). split; [done|].
  simpl. rewrite Hav. by rewrite bool_decide_eq_true_2.
Qed.


Lemma suitable_models_cons (model : AIModel) (info : model_info)
    (registry : list (AIModel * model_info)) (task_type : TaskType) :
  suitable_models ((model, info) :: registry) task_type =
  if available info && bool_decide (task_type ∈ specialties info)
  then (model, performance_score info) :: suitable_models registry task_type
  else suitable_models registry task_type.
Proof.
  unfold suitable_models. simpl.
  by destruct (available info && bool_decide (task_type ∈ specialties info)).
Qed.

(** A split of the suitable pairs comes from a split of the registry. *)
Lemma suitable_models_split (registry : list (AIModel * model_info))
    (task_type : TaskType) (before : list (AIModel * Q)) (model : AIModel)
    (score : Q) (after : list (AIModel * Q)) :
  suitable_models registry task_type = (before ++ (model, score) :: after)%list ->
  exists registry1 info registry2,
    registry = (registry1 ++ (model, info) :: registry2)%list /\
    suitable_models registry1 task_type = before /\
    suitable_models registry2 task_type = after /\
    available info = true /\ task_type ∈ specialties info /\
    performance_score info = score.
Proof.
  revert before.
  induction registry as [|[model' info'] registry IH]; intros before Hsplit.
  - by destruct before.
  - rewrite suitable_models_cons in Hsplit.
    destruct (available info' && bool_decide (task_type ∈ specialties info'))
      eqn:Hok.
    + destruct before as [|first before]; simpl in Hsplit.
      * injection Hsplit as Hmodel Hscore Hafter.
        apply andb_true_iff in Hok as [Hav Hsp].
        apply bool_decide_eq_true in Hsp.
        exists [], info', registry. subst model'. by repeat split.
      * injection Hsplit as <- Hrest.
        destruct (IH _ Hrest) as (r1 & info & r2 & -> & H1 & H2 & H3).
        exists ((model', info') :: r1), info, r2. split; [done|].
        split; [|done].
        rewrite suitable_models_cons, Hok. by rewrite H1.
    + destruct (IH _ Hsplit) as (r1 & info & r2 & -> & H1 & H2 & H3).
      exists ((model', info') :: r1), info, r2. split; [done|].
      split; [|done].
      by rewrite suitable_models_cons, Hok.
Qed.

Lemma dict_mem_keys {K V : Type} `{EqDecision K} (k : K) (d : list (K * V)) :
  dict_mem k d = true <-> k ∈ map fst d.
Proof.
  unfold dict_mem. rewrite bool_decide_eq_true.
  induction d as [|[k' v] d IH]; simpl.
  - split; [intros [? ?]; done | intros H'; inversion H'].
  - destruct (decide (k = k')) as [->|Hne].
    + split; [intros _; apply list_elem_of_here | by eauto].
    + rewrite IH, elem_of_cons. split; [by right | by intros [?|?]].
Qed.

(** C2. When the registry holds an adapter that is available and lists the
    category among its specialties, [_select_best_model] returns, without
    raising and without changing anything, an adapter that is available,
    lists the category, and has the greatest performance score of all such
    adapters; of several with that score it returns the one registered
    first: every suitable adapter registered before it has a strictly
    smaller score, every one registered after it a smaller or equal one. *)
Theorem select_best_model_best_suitable (w : World) (task_type : TaskType) :
  (exists model info,
      (model, info) ∈ models (self w) /\ available info = true /\
      task_type ∈ specialties info) ->
  exists model info before after,
    _select_best_model task_type w = (Returns model, w) /\
    models (self w) = (before ++ (model, info) :: after)%list /\
    available info = true /\
    task_type ∈ specialties info /\
    (forall model' info',
        (model', info') ∈ before -> available info' = true ->
        task_type ∈ specialties info' ->
        (performance_score info' < performance_score info)%Q) /\
    (forall model' info',
        (model', info') ∈ after -> available info' = true ->
        task_type ∈ specialties info' ->
        (performance_score info' <= performance_score info)%Q).
Proof.
  intros (model0 & info0 & Hin0 & Hav0 & Hsp0).
  pose proof (suitable_models_elem _ _ _ _ Hin0 Hav0 Hsp0) as Hsuit.
  unfold _select_best_model, bind, get_self.
  destruct (suitable_models (models (self w)) task_type) as [|x rest] eqn:E;
    [inversion Hsuit|].
  destruct (max_from_first_maximal (fun a b => Qltb b a) snd
              (fun a b c => Qgtb_trans a b c)
              (fun a b c => Qgtb_above a b c) x rest)
    as (before & after & Hsplit & Hbefore & Hafter).
  destruct (max_from (fun a b => Qltb b a) snd x rest) as [model score].
  rewrite <- E in Hsplit.
  apply suitable_models_split in Hsplit
    as (r1 & info & r2 & Hreg & H1 & H2 & Hav & Hsp & Hscore).
  exists model, info, r1, r2. simpl. repeat split; try done.
  - intros model' info' Hin' Hav' Hsp'.
    apply Qltb_lt. rewrite Hscore.
    apply (Hbefore (model', performance_score info')).
    rewrite <- H1. by apply suitable_models_elem.
  - intros model' info' Hin' Hav' Hsp'.
    apply Qltb_ge. rewrite Hscore.
    apply (Hafter (model', performance_score info')).
    rewrite <- H2. by apply suitable_models_elem.
Qed.

Lemma select_best_model_best_suitable_witness :
  exists model info before after,
    _select_best_model CONVERSATION (quiet_world (__init__ true true))
      = (Returns model, quiet_world (__init__ true true)) /\
    models (self (quiet_world (__init__ true true)))
      = (before ++ (model, info) :: after)%list /\
    available info = true /\
    CONVERSATION ∈ specialties info /\
    (forall model' info',
        (model', info') ∈ before -> available info' = true ->
        CONVERSATION ∈ specialties info' ->
        (performance_score info' < performance_score info)%Q) /\
    (forall model' info',
        (model', info') ∈ after -> available info' = true ->
        CONVERSATION ∈ specialties info' ->
        (performance_score info' <= performance_score info)%Q).
Proof.
  apply (select_best_model_best_suitable
           (quiet_world (__init__ true true)) CONVERSATION).
  exists GPT35_TURBO,
    {| client := client_openai; available := true;
       specialties := [CONVERSATION; TRANSLATION];
       performance_score := f0_85 |}.
  split; [|split].
  - vm_compute. apply list_elem_of_further, list_elem_of_here.
  - reflexivity.
  - simpl. apply list_elem_of_here.
Defined.





(** ** The classifier *)

Lemma contains_occurrences (needle hay : string) :
  contains needle hay = true <-> (0 < occurrences needle hay)%nat.
Proof.
  induction hay as [|c hay IH]; cbn [contains occurrences].
  - destruct (String.prefix needle ""); simpl; [split; [lia|done]|].
    split; [done|lia].
  - destruct (String.prefix needle (String c hay)); simpl.
    + split; [lia|done].
    + exact IH.
Qed.

Lemma sum_of_ones {A : Type} (xs : list A) :
  Py.sum (map (fun _ => 1%Z) xs) = Z.of_nat (length xs).
Proof.
  unfold Py.sum. induction xs as [|x xs IH]; [done|].
  cbn [map foldr length]. rewrite IH. lia.
Qed.

Lemma keyword_score_length (keywords : list string) (input_lower : string) :
  keyword_score keywords input_lower =
  Z.of_nat (length (filter (fun keyword =>
                              contains keyword input_lower = true) keywords)).
Proof. unfold keyword_score. apply sum_of_ones. Qed.

Lemma keyword_score_nonneg (keywords : list string) (input_lower : string) :
  (0 <= keyword_score keywords input_lower)%Z.
Proof. rewrite keyword_score_length. lia. Qed.

Lemma keyword_score_le_occurrences (keywords : list string)
    (input_lower : string) :
  (keyword_score keywords input_lower <=
   Py.sum (map (fun keyword => Z.of_nat (occurrences keyword input_lower))
               keywords))%Z.
Proof.
  rewrite keyword_score_length. unfold Py.sum.
  induction keywords as [|k keywords IH]; [done|].
  rewrite filter_cons. cbn [map foldr].
  destruct (decide (contains k input_lower = true)) as [Hin|Hout].
  - apply contains_occurrences in Hin. cbn [length]. lia.
  - lia.
Qed.

(** The [dict] operations on a table without repeated keys. *)
Lemma dict_set_fresh {K V : Type} `{EqDecision K} (k : K) (v : V)
    (d : list (K * V)) :
  k ∉ map fst d -> dict_set k v d = (d ++ [(k, v)])%list.
Proof.
  induction d as [|[k' v'] d IH]; simpl; intros Hfresh; [done|].
  apply not_elem_of_cons in Hfresh as [Hne Hfresh].
  destruct (decide (k = k')); [done|]. by rewrite IH.
Qed.

Lemma dict_get_fresh {K V : Type} `{EqDecision K} (k : K) (d : list (K * V)) :
  k ∉ map fst d -> dict_get k d = None.
Proof.
  induction d as [|[k' v'] d IH]; simpl; intros Hfresh; [done|].
  apply not_elem_of_cons in Hfresh as [Hne Hfresh].
  destruct (decide (k = k')); [done|]. by apply IH.
Qed.

Lemma positive_scores_keys (table : list (TaskType * list string))
    (input_lower : string) (task_type : TaskType) :
  task_type ∈ map fst (positive_scores table input_lower) ->
  task_type ∈ map fst table.
Proof.
  intros Hin. apply list_elem_of_fmap in Hin as ([t score] & -> & Hin).
  apply list_elem_of_omap in Hin as ([t' keywords] & Hin & Hsome).
  simpl in Hsome.
  destruct (keyword_score keywords input_lower >? 0)%Z; [|done].
  injection Hsome as -> _.
  apply list_elem_of_fmap. by exists (t, keywords).
Qed.

Lemma fill_task_scores_positive (table : list (TaskType * list string))
    (input_lower : string) (task_scores : list (TaskType * Z)) :
  NoDup (map fst task_scores ++ map fst table) ->
  fill_task_scores table input_lower task_scores =
  (task_scores ++ positive_scores table input_lower)%list.
Proof.
  revert task_scores.
  induction table as [|[task_type keywords] table IH]; intros task_scores Hnodup;
    simpl.
  - by rewrite app_nil_r.
  - apply NoDup_app in Hnodup as (Hacc & Hdisjoint & Htable).
    apply NoDup_cons in Htable as [Hfresh Htable].
    assert (task_type ∉ map fst task_scores) as Hnew.
    { intros Hin. apply (Hdisjoint _ Hin), list_elem_of_here. }
    unfold positive_scores. simpl.
    fold (positive_scores table input_lower).
    destruct (keyword_score keywords input_lower >? 0)%Z.
    + rewrite dict_set_fresh by done.
      rewrite IH; [by rewrite <- app_assoc|].
      rewrite map_app. simpl. rewrite <- app_assoc. simpl.
      apply NoDup_app. split; [done|]. split; [|by apply NoDup_cons].
      intros t Hin. by apply Hdisjoint.
    + apply IH. apply NoDup_app. split; [done|]. split; [|done].
      intros t Hin Hin'. apply (Hdisjoint _ Hin). by apply list_elem_of_further.
Qed.

Lemma dict_get_positive_scores (table : list (TaskType * list string))
    (input_lower : string) (task_type : TaskType) :
  NoDup (map fst table) ->
  dict_get task_type (positive_scores table input_lower) =
  let score :=
    keyword_score (default [] (dict_get task_type table)) input_lower in
  if (score >? 0)%Z then Some score else None.
Proof.
  induction table as [|[t keywords] table IH]; intros Hnodup; [done|].
  apply NoDup_cons in Hnodup as [Hfresh Hnodup].
  unfold positive_scores. simpl. fold (positive_scores table input_lower).
  destruct (decide (task_type = t)) as [->|Hne]; simpl.
  - destruct (keyword_score keywords input_lower >? 0)%Z; simpl.
    + by rewrite decide_True.
    + apply dict_get_fresh. intros Hin. apply Hfresh.
      by eapply positive_scores_keys.
  - destruct (keyword_score keywords input_lower >? 0)%Z; simpl.
    + rewrite decide_False by done. by apply IH.
    + by apply IH.
Qed.

Lemma task_keywords_NoDup : NoDup (map fst task_keywords).
Proof. compute_done. Qed.

Lemma task_scores_lookup (str_lower : string -> string)
    (user_input : string) (task_type : TaskType) :
  dict_get task_type
    (fill_task_scores task_keywords (str_lower user_input) []) =
  if (category_score str_lower user_input task_type >? 0)%Z
  then Some (category_score str_lower user_input task_type) else None.
Proof.
  rewrite fill_task_scores_positive by exact task_keywords_NoDup.
  rewrite app_nil_l.
  by rewrite dict_get_positive_scores by exact task_keywords_NoDup.
Qed.

Lemma task_scores_key (str_lower : string -> string)
    (user_input : string) (task_type : TaskType) :
  default 0%Z
    (dict_get task_type
       (fill_task_scores task_keywords (str_lower user_input) [])) =
  category_score str_lower user_input task_type.
Proof.
  rewrite task_scores_lookup.
  pose proof (keyword_score_nonneg (keywords_of task_type)
                (str_lower user_input)) as Hge.
  fold (category_score str_lower user_input task_type) in Hge.
  destruct (category_score str_lower user_input task_type >? 0)%Z eqn:E;
    simpl; lia.
Qed.

(** A category whose score is positive and strictly above every other
    score is the answer. *)
Lemma detect_task_type_strict_max (str_lower : string -> string)
    (user_input : string) (w : World) (winner : TaskType) :
  (0 < category_score str_lower user_input winner)%Z ->
  (forall other, other <> winner ->
     (category_score str_lower user_input other <
      category_score str_lower user_input winner)%Z) ->
  _detect_task_type str_lower user_input w = (Returns winner, w).
Proof.
  intros Hpos Hmax. unfold _detect_task_type.
  set (task_scores :=
         fill_task_scores task_keywords (str_lower user_input) []).
  assert (winner ∈ map fst task_scores) as Hin.
  { apply dict_mem_keys. unfold dict_mem. apply bool_decide_eq_true.
    unfold task_scores. rewrite task_scores_lookup.
    replace (_ >? 0)%Z with true by lia. by eexists. }
  destruct (map fst task_scores) as [|x rest]; [inversion Hin|].
  unfold ret. f_equal. f_equal.
  set (key := fun k => default 0%Z (dict_get k task_scores)).
  destruct (max_from_first_maximal Z.gtb key Zgtb_trans Zgtb_above x rest)
    as (before & after & Hsplit & Hbefore & Hafter).
  set (best := max_from Z.gtb key x rest) in *.
  destruct (decide (best = winner)) as [Heq|Hne]; [done|].
  exfalso. specialize (Hmax best Hne).
  assert (forall k, key k = category_score str_lower user_input k) as Hkey.
  { intros k. apply task_scores_key. }
  rewrite Hsplit in Hin. apply elem_of_app in Hin as [Hin|Hin].
  - specialize (Hbefore _ Hin). rewrite !Hkey in Hbefore. lia.
  - apply elem_of_cons in Hin as [Hin|Hin]; [done|].
    specialize (Hafter _ Hin). rewrite !Hkey in Hafter. lia.
Qed.

(** C1, with the score the code computes. For an input with trigger
    phrases of two categories whose scores differ, and of no other
    category, [_detect_task_type] returns the category with the higher
    score, where the score of a category is the number of its trigger
    phrases that occur in the lower-cased input. *)
Theorem detect_task_type_higher_score (str_lower : string -> string)
    (user_input : string) (w : World) (higher lower : TaskType) :
  (0 < category_score str_lower user_input lower)%Z ->
  (category_score str_lower user_input lower <
   category_score str_lower user_input higher)%Z ->
  (forall other, other <> higher -> other <> lower ->
     category_score str_lower user_input other = 0%Z) ->
  _detect_task_type str_lower user_input w = (Returns higher, w).
Proof.
  intros Hlow Hdiff Hothers.
  apply detect_task_type_strict_max; [lia|].
  intros other Hne.
  destruct (decide (other = lower)) as [->|Hne']; [done|].
  rewrite (Hothers other) by done. lia.
Qed.

Lemma detect_task_type_higher_score_witness :
  _detect_task_type ascii_lower "sad and worried about my stock"
    (quiet_world (__init__ true true))
  = (Returns PSYCHOLOGICAL_SUPPORT, quiet_world (__init__ true true)).
Proof.
  apply (detect_task_type_higher_score ascii_lower
           "sad and worried about my stock" (quiet_world (__init__ true true))
           PSYCHOLOGICAL_SUPPORT FINANCIAL_ADVICE).
  - vm_compute. reflexivity.
  - vm_compute. reflexivity.
  - intros other H1 H2. destruct other; try done; vm_compute; reflexivity.
Defined.

(** C1, as it is worded, fails: counted by occurrences the input below has
    three for financial advice and two for psychological support, none for
    another category, and the classifier answers psychological support. *)
Lemma detect_task_type_occurrences_differ :
  occurrence_score ascii_lower "stock stock stock sad worried"
    FINANCIAL_ADVICE = 3%Z /\
  occurrence_score ascii_lower "stock stock stock sad worried"
    PSYCHOLOGICAL_SUPPORT = 2%Z /\
  (forall other, other <> FINANCIAL_ADVICE ->
     other <> PSYCHOLOGICAL_SUPPORT ->
     occurrence_score ascii_lower "stock stock stock sad worried" other
     = 0%Z) /\
  fst (_detect_task_type ascii_lower "stock stock stock sad worried"
         (quiet_world (__init__ true true)))
  = Returns PSYCHOLOGICAL_SUPPORT.
Proof.
  split; [|split; [|split]].
  - vm_compute. reflexivity.
  - vm_compute. reflexivity.
  - intros other H1 H2. destruct other; try done; vm_compute; reflexivity.
  - vm_compute. reflexivity.
Qed.

(** C5, as the code has it. The score of a category is the number of its
    trigger phrases that occur at least once in the lower-cased input: a
    phrase counts once however often it occurs. The score never exceeds the
    number of occurrences, and it is the value the classifier keeps for the
    category in [task_scores] when it is positive. *)
Theorem category_score_counts_phrases (str_lower : string -> string)
    (user_input : string) (task_type : TaskType) :
  category_score str_lower user_input task_type =
    Z.of_nat (length (filter
      (fun keyword => (0 < occurrences keyword (str_lower user_input))%nat)
      (keywords_of task_type))) /\
  (category_score str_lower user_input task_type <=
   occurrence_score str_lower user_input task_type)%Z /\
  dict_get task_type
    (fill_task_scores task_keywords (str_lower user_input) []) =
  if (category_score str_lower user_input task_type >? 0)%Z
  then Some (category_score str_lower user_input task_type) else None.
Proof.
  split; [|split].
  - unfold category_score. rewrite keyword_score_length. do 2 f_equal.
    apply list_filter_iff. intros keyword. apply contains_occurrences.
  - apply keyword_score_le_occurrences.
  - apply task_scores_lookup.
Qed.

(** C5, as it is worded, fails: a phrase that appears twice adds one to the
    score of its category, not two. *)
Lemma category_score_phrase_twice :
  category_score ascii_lower "stock stock" FINANCIAL_ADVICE = 1%Z /\
  occurrence_score ascii_lower "stock stock" FINANCIAL_ADVICE = 2%Z /\
  category_score ascii_lower "stock stock" FINANCIAL_ADVICE <>
  occurrence_score ascii_lower "stock stock" FINANCIAL_ADVICE.
Proof. vm_compute. repeat split; discriminate. Qed.

(** ** The conversation store *)

Lemma last_n_app_last_n {A : Type} (n : nat) (xs ys : list A) :
  last_n n (last_n n xs ++ ys)%list = last_n n (xs ++ ys)%list.
Proof.
  unfold last_n. rewrite !length_app, length_drop, !drop_app, drop_drop.
  rewrite length_drop. f_equal; f_equal; lia.
Qed.

Lemma last_n_length {A : Type} (n : nat) (xs : list A) :
  length (last_n n xs) <= n.
Proof. unfold last_n. rewrite length_drop. lia. Qed.

Lemma last_n_short {A : Type} (n : nat) (xs : list A) :
  length xs <= n -> last_n n xs = xs.
Proof.
  intros Hle. unfold last_n. replace (length xs - n) with 0 by lia. done.
Qed.

(** One call of [_save_to_history]: it returns, the history becomes the
    last hundred items of the old history followed by the new entry, the
    clock has been read once more, and nothing else has changed. *)
Lemma save_to_history_step (user_input : string) (response : Response)
    (task_type : TaskType) (model_used : AIModel) (w : World) :
  _save_to_history user_input response task_type model_used w =
  (Returns tt,
   with_self
     {| models := models (self w);
        personality := personality (self w);
        conversation_history :=
          last_n 100
            (conversation_history (self w) ++
             [entry_of (now_isoformat w (clock_read w))
                       (user_input, response, task_type, model_used)])%list |}
     (read_clock w)).
Proof.
  unfold _save_to_history, bind, datetime_now_isoformat, get_self,
    set_history.
  cbn [self read_clock conversation_history models personality].
  match goal with |- context [(100 <? length ?h)%nat] =>
    destruct (100 <? length h)%nat eqn:Hlen end; [done|].
  apply Nat.ltb_ge in Hlen. by rewrite last_n_short by exact Hlen.
Qed.

Lemma save_all_history (saved : list (string * Response * TaskType * AIModel))
    (w : World) :
  fst (save_all saved w) = Returns tt /\
  last_n 100 (conversation_history (self (snd (save_all saved w)))) =
    last_n 100
      (conversation_history (self w) ++
       saved_entries (now_isoformat w) (clock_read w) saved)%list /\
  (saved <> [] ->
   length (conversation_history (self (snd (save_all saved w)))) <= 100).
Proof.
  revert w.
  induction saved as [|[[[user_input response] task_type] model_used] saved IH];
    intros w.
  - simpl. rewrite app_nil_r. by repeat split.
  - cbn [save_all saved_entries]. unfold bind.
    rewrite save_to_history_step.
    match goal with |- context [save_all saved ?w1] =>
      destruct (IH w1) as (Hret & Hlast & Hlen) end.
    split; [exact Hret|]. split.
    + rewrite Hlast. cbn [with_self read_clock self conversation_history
                          now_isoformat clock_read].
      rewrite last_n_app_last_n. by rewrite <- app_assoc.
    + intros _. destruct saved as [|next saved].
      * cbn [save_all ret snd with_self self conversation_history].
        apply last_n_length.
      * by apply Hlen.
Qed.

(** C4. After every call of [_save_to_history] the history holds at most
    one hundred entries; and one hundred and fifty calls in a row on an
    empty history all return and leave exactly the entries of the last
    hundred calls, in the order of the calls. *)
Theorem save_to_history_keeps_last_100 (w : World) :
  (forall user_input response task_type model_used,
      length (conversation_history
                (self (snd (_save_to_history user_input response task_type
                              model_used w)))) <= 100) /\
  (forall saved,
      conversation_history (self w) = [] ->
      length saved = 150 ->
      fst (save_all saved w) = Returns tt /\
      conversation_history (self (snd (save_all saved w))) =
        drop 50 (saved_entries (now_isoformat w) (clock_read w) saved)).
Proof.
  split.
  - intros user_input response task_type model_used.
    rewrite save_to_history_step.
    cbn [snd with_self self conversation_history]. apply last_n_length.
  - intros saved Hempty Hlen.
    destruct (save_all_history saved w) as (Hret & Hlast & Hbound).
    split; [exact Hret|].
    rewrite last_n_short in Hlast
      by (apply Hbound; intros ->; discriminate Hlen).
    rewrite Hlast, Hempty, app_nil_l. unfold last_n.
    assert (forall clock read,
              length (saved_entries clock read saved) = length saved) as ->.
    { clear. induction saved as [|item saved IH]; intros clock read;
        [done|]. simpl. by rewrite IH. }
    by rewrite Hlen.
Qed.

Lemma save_to_history_keeps_last_100_witness :
  fst (save_all numbered_requests (quiet_world (__init__ true true)))
    = Returns tt /\
  conversation_history
    (self (snd (save_all numbered_requests
                  (quiet_world (__init__ true true))))) =
  drop 50 (saved_entries (now_isoformat (quiet_world (__init__ true true)))
             (clock_read (quiet_world (__init__ true true)))
             numbered_requests).
Proof.
  apply (proj2 (save_to_history_keeps_last_100
                  (quiet_world (__init__ true true))) numbered_requests).
  - reflexivity.
  - vm_compute. reflexivity.
Defined.

(** C9. On an empty history [get_conversation_stats] returns the [dict]
    with the single key [total_conversations], of value 0: it names no
    most used task and no most used model. *)
Theorem conversation_stats_empty (format_success_rate : Z -> Z -> string)
    (w : World) :
  conversation_history (self w) = [] ->
  exists stats,
    get_conversation_stats format_success_rate w = (Returns stats, w) /\
    stats = {[ "total_conversations" := SInt 0 ]} /\
    stats !! "total_conversations" = Some (SInt 0) /\
    stats !! "most_used_task" = None /\
    stats !! "most_used_model" = None.
Proof.
  intros Hempty. unfold get_conversation_stats, bind, get_self.
  rewrite Hempty. eexists. split; [reflexivity|]. by repeat split.
Qed.

Lemma conversation_stats_empty_witness :
  exists stats,
    get_conversation_stats (fun _ _ => "0.0%")
      (quiet_world (__init__ true true))
      = (Returns stats, quiet_world (__init__ true true)) /\
    stats = {[ "total_conversations" := SInt 0 ]} /\
    stats !! "total_conversations" = Some (SInt 0) /\
    stats !! "most_used_task" = None /\
    stats !! "most_used_model" = None.
Proof.
  apply (conversation_stats_empty (fun _ _ => "0.0%")
           (quiet_world (__init__ true true))).
  reflexivity.
Defined.

(** ** The personality and the shortcuts *)

(** A response whose [success] is missing or falsy passes through. *)
Lemma apply_personality_falsy (str_lower : string -> string) (w : World)
    (result : Response) (task_type : TaskType) :
  truthy (get_or_None result "success") = false ->
  _apply_personality str_lower result task_type w = (Returns result, w).
Proof.
  intros Hfalsy. unfold _apply_personality, bind, get_self.
  destruct (personality (self w)); [|done]. by rewrite Hfalsy.
Qed.

(** C7. [_apply_personality] returns the response it was given, and
    changes nothing, when the response has [success] false and when no
    profile is set: the content is the same and no [personality_applied]
    or [personality_name] is added. *)
Theorem apply_personality_noop (str_lower : string -> string) (w : World)
    (result : Response) (task_type : TaskType) :
  result !! "success" = Some (VBool false) \/ personality (self w) = None ->
  _apply_personality str_lower result task_type w = (Returns result, w).
Proof.
  intros Hskip. unfold _apply_personality, bind, get_self.
  destruct (personality (self w)) as [p|] eqn:Hp; [|done].
  destruct Hskip as [Hfalse|Hnone]; [|done].
  unfold get_or_None. by rewrite Hfalse.
Qed.

Lemma apply_personality_noop_witness :
  _apply_personality ascii_lower
    ({[ "success" := VBool false; "error" := VStr "timeout" ]} : Response)
    CONVERSATION
    (quiet_world (with_personality (friendly_profile "female" "Aria")
                    (__init__ true true)))
  = (Returns {[ "success" := VBool false; "error" := VStr "timeout" ]},
     quiet_world (with_personality (friendly_profile "female" "Aria")
                    (__init__ true true))).
Proof.
  apply (apply_personality_noop ascii_lower).
  left. vm_compute. reflexivity.
Defined.

Lemma specialty_configs_keys :
  map fst specialty_configs =
  ["financial_advisor"; "therapist"; "creative_writer"; "meditation_guide"].
Proof. reflexivity. Qed.

(** C10. For a specialty that is not one of the four keys,
    [get_specialized_response] returns the [dict] with [success] false
    and the error [Specialty not found]; the world is the one it started
    in, so no adapter was called and the history is unchanged. *)
Theorem specialized_response_unknown (str_lower : string -> string)
    (w : World) (specialty query : string) :
  specialty ∉ ["financial_advisor"; "therapist"; "creative_writer";
               "meditation_guide"] ->
  get_specialized_response str_lower specialty query w =
    (Returns {[ "success" := VBool false;
                "error" := VStr "Specialty not found" ]}, w) /\
  calls (snd (get_specialized_response str_lower specialty query w))
    = calls w /\
  conversation_history
    (self (snd (get_specialized_response str_lower specialty query w)))
    = conversation_history (self w).
Proof.
  intros Hunknown. unfold get_specialized_response.
  rewrite dict_get_fresh by (by rewrite specialty_configs_keys).
  by repeat split.
Qed.

Lemma specialized_response_unknown_witness :
  get_specialized_response ascii_lower "lawyer" "Can I sue?"
    (quiet_world (__init__ true true)) =
    (Returns {[ "success" := VBool false;
                "error" := VStr "Specialty not found" ]},
     quiet_world (__init__ true true)) /\
  calls (snd (get_specialized_response ascii_lower "lawyer" "Can I sue?"
                (quiet_world (__init__ true true))))
    = calls (quiet_world (__init__ true true)) /\
  conversation_history
    (self (snd (get_specialized_response ascii_lower "lawyer" "Can I sue?"
                  (quiet_world (__init__ true true)))))
    = conversation_history (self (quiet_world (__init__ true true))).
Proof.
  apply (specialized_response_unknown ascii_lower
           (quiet_world (__init__ true true)) "lawyer" "Can I sue?").
  intros Hin. vm_compute in Hin.
  repeat (apply elem_of_cons in Hin as [Heq|Hin]; [discriminate Heq|]).
  inversion Hin.
Defined.

Lemma string_app_assoc (a b c : string) : (a ++ b) ++ c = a ++ b ++ c.
Proof.
  induction a as [|x a IH]; [done|].
  change (String x ((a ++ b) ++ c) = String x (a ++ b ++ c)).
  by rewrite IH.
Qed.

Lemma random_choice_elem {A : Type} (x : A) (xs : list A) (w : World) :
  exists y, random_choice x xs w = (Returns y, use_random w) /\ y ∈ x :: xs.
Proof.
  eexists. split; [reflexivity|].
  apply nth_elem_of, Nat.mod_upper_bound. simpl. lia.
Qed.

Lemma humor_returns (p : PersonalityProfile) (task_type : TaskType)
    (w : World) :
  exists w', humor p task_type w = (Returns tt, w').
Proof.
  unfold humor, bind, random_random.
  destruct (Qltb f0_6 (humor_level p)
            && bool_decide (task_type ∈ [CONVERSATION; CREATIVE_WRITING]));
    [|by eexists].
  destruct (Qltb (random_draws w (random_used w)) f0_2); by eexists.
Qed.

(** The informal opener: the text is kept when a greeting phrase occurs
    anywhere in it or the draw is 0.3 or more, and gets one of the
    starters in front otherwise. *)
Lemma informal_style_text (str_lower : string -> string)
    (p : PersonalityProfile) (text : string) (w : World) :
  Qltb (formality_level p) 0.5 = true ->
  exists opener w',
    informal_style str_lower p (VStr text) w
      = (Returns (VStr (opener ++ text)), w') /\
    (has_greeting_inside (str_lower text) = true -> opener = "") /\
    (has_greeting_inside (str_lower text) = false ->
     (f0_3 <= random_draws w (random_used w))%Q -> opener = "") /\
    (has_greeting_inside (str_lower text) = false ->
     (random_draws w (random_used w) < f0_3)%Q ->
     exists starter, starter ∈ friendly_starters /\ opener = starter ++ ", ").
Proof.
  intros Hformal. unfold informal_style, bind, lower_method, ret.
  rewrite Hformal. fold (has_greeting_inside (str_lower text)).
  destruct (has_greeting_inside (str_lower text)) eqn:Hgreet; cbn [negb].
  { exists "", w. by repeat split. }
  unfold random_random.
  destruct (Qltb (random_draws w (random_used w)) f0_3) eqn:Hdraw.
  - destruct (random_choice_elem "راستش" ["ببین"; "خب"; "Well"; "So"]
                (use_random w)) as (starter & -> & Hin).
    exists (starter ++ ", "), (use_random (use_random w)).
    split; [by rewrite string_app_assoc|].
    split; [done|]. split.
    + intros _ Hge. apply Qltb_ge in Hge. congruence.
    + intros _ _. by exists starter.
  - exists "", (use_random w). split; [done|]. split; [done|].
    split; [done|]. intros _ Hlt. apply Qltb_lt in Hlt. congruence.
Qed.

Lemma emotional_elements_text (p : PersonalityProfile) (task_type : TaskType)
    (text : string) (w : World) :
  exists empathy w',
    emotional_elements p task_type (VStr text) w
      = (Returns (VStr (empathy ++ text)), w') /\
    (empathy = "" \/
     exists phrase, phrase ∈ empathy_phrases /\ empathy = phrase ++ ". ") /\
    (task_type <> PSYCHOLOGICAL_SUPPORT -> empathy = "").
Proof.
  unfold emotional_elements, bind, random_random, ret.
  destruct (bool_decide (task_type = PSYCHOLOGICAL_SUPPORT)
            && Qltb f0_8 (empathy_level p)) eqn:Hcond.
  - apply andb_true_iff in Hcond as [Htask _].
    apply bool_decide_eq_true in Htask.
    destruct (Qltb (random_draws w (random_used w)) f0_4).
    + destruct (random_choice_elem "درکت می‌کنم"
                  ["حست رو می‌فهمم"; "I understand how you feel";
                   "این واقعاً سخته"; "You're not alone in this"]
                  (use_random w)) as (phrase & -> & Hin).
      exists (phrase ++ ". "), (use_random (use_random w)).
      split; [by rewrite string_app_assoc|].
      split; [right; by exists phrase | done].
    + exists "", (use_random w). split; [done|]. split; [by left | done].
  - exists "", w. split; [done|]. split; [by left | done].
Qed.

(** [_apply_personality] on a successful response with a text, once the
    outcomes of its two blocks are known. *)
Lemma apply_personality_steps (str_lower : string -> string) (w w1 w2 : World)
    (result : Response) (task_type : TaskType) (p : PersonalityProfile)
    (text styled final : string) :
  personality (self w) = Some p ->
  result !! "success" = Some (VBool true) ->
  result !! "content" = Some (VStr text) ->
  informal_style str_lower p (VStr text) w = (Returns (VStr styled), w1) ->
  emotional_elements p task_type (VStr styled) w1
    = (Returns (VStr final), w2) ->
  exists w',
    _apply_personality str_lower result task_type w =
    (Returns (<["personality_name" := VStr (name p)]>
                (<["personality_applied" := VBool true]>
                   (<["content" := VStr final]> result))), w').
Proof.
  intros Hp Hsuccess Hcontent Hstyle Hemotion.
  unfold _apply_personality, bind at 1, get_self.
  rewrite Hp. unfold get_or_None. rewrite Hsuccess. simpl.
  unfold getitem. rewrite Hcontent. unfold bind at 1, ret at 1.
  unfold bind at 1. rewrite Hstyle.
  unfold bind at 1. rewrite Hemotion.
  destruct (humor_returns p task_type w2) as (w3 & Hhumor).
  unfold bind. rewrite Hhumor. by exists w3.
Qed.

(** C8, as the code has it. For a successful response and a profile whose
    formality level is below 0.5, the informal opener is withheld exactly
    when a greeting phrase occurs anywhere in the lower-cased text, at its
    start or inside it: such a text never gets an opener, and a text
    without one gets one of the five starters when the draw is below 0.3
    and none otherwise. The text that follows the opener is the text of
    the response, and only an empathy phrase can come before the opener,
    which happens for no category but psychological support. *)
Theorem informal_opener_unless_greeting_inside
    (str_lower : string -> string) (w : World) (result : Response)
    (task_type : TaskType) (p : PersonalityProfile) (text : string) :
  personality (self w) = Some p ->
  (formality_level p < 0.5)%Q ->
  result !! "success" = Some (VBool true) ->
  result !! "content" = Some (VStr text) ->
  exists personalized w' empathy opener,
    _apply_personality str_lower result task_type w
      = (Returns personalized, w') /\
    personalized !! "content" = Some (VStr (empathy ++ opener ++ text)) /\
    (empathy = "" \/
     exists phrase, phrase ∈ empathy_phrases /\ empathy = phrase ++ ". ") /\
    (task_type <> PSYCHOLOGICAL_SUPPORT -> empathy = "") /\
    (has_greeting_inside (str_lower text) = true -> opener = "") /\
    (has_greeting_inside (str_lower text) = false ->
     (f0_3 <= random_draws w (random_used w))%Q -> opener = "") /\
    (has_greeting_inside (str_lower text) = false ->
     (random_draws w (random_used w) < f0_3)%Q ->
     exists starter, starter ∈ friendly_starters /\ opener = starter ++ ", ").
Proof.
  intros Hp Hformal Hsuccess Hcontent. apply Qltb_lt in Hformal.
  destruct (informal_style_text str_lower p text w Hformal)
    as (opener & w1 & Hstyle & Hopener).
  destruct (emotional_elements_text p task_type (opener ++ text) w1)
    as (empathy & w2 & Hemotion & Hphrase & Hnone).
  destruct (apply_personality_steps str_lower w w1 w2 result task_type p
              text (opener ++ text) (empathy ++ opener ++ text)
              Hp Hsuccess Hcontent Hstyle Hemotion) as (w' & Hrun).
  eexists _, w', empathy, opener. split; [exact Hrun|].
  split; [|exact (conj Hphrase (conj Hnone Hopener))].
  rewrite lookup_insert_ne by done. rewrite lookup_insert_ne by done.
  by rewrite lookup_insert_eq.
Qed.

Lemma informal_opener_unless_greeting_inside_witness :
  exists personalized w' empathy opener,
    _apply_personality ascii_lower
      ({[ "success" := VBool true; "content" := VStr "Today is sunny." ]}
       : Response)
      CONVERSATION
      (world_around
         (with_personality (friendly_profile "female" "Aria")
            (__init__ true true))
         answering (Returns (VStr "Test response from Gemini"))
         (fun _ => 0.125%Q) (fun _ => 3%nat))
      = (Returns personalized, w') /\
    personalized !! "content"
      = Some (VStr (empathy ++ opener ++ "Today is sunny.")) /\
    (empathy = "" \/
     exists phrase, phrase ∈ empathy_phrases /\ empathy = phrase ++ ". ") /\
    (CONVERSATION <> PSYCHOLOGICAL_SUPPORT -> empathy = "") /\
    (has_greeting_inside (ascii_lower "Today is sunny.") = true ->
     opener = "") /\
    (has_greeting_inside (ascii_lower "Today is sunny.") = false ->
     (f0_3 <= 0.125)%Q -> opener = "") /\
    (has_greeting_inside (ascii_lower "Today is sunny.") = false ->
     (0.125 < f0_3)%Q ->
     exists starter, starter ∈ friendly_starters /\ opener = starter ++ ", ").
Proof.
  apply (informal_opener_unless_greeting_inside ascii_lower
           (world_around
              (with_personality (friendly_profile "female" "Aria")
                 (__init__ true true))
              answering (Returns (VStr "Test response from Gemini"))
              (fun _ => 0.125%Q) (fun _ => 3%nat))
           _ CONVERSATION (friendly_profile "female" "Aria")
           "Today is sunny.").
  - reflexivity.
  - vm_compute. reflexivity.
  - vm_compute. reflexivity.
  - vm_compute. reflexivity.
Defined.

(** C8, as it is worded, fails: the text below does not start with a
    greeting phrase, yet no draw gives it an opener, because [hi] occurs
    inside its first word. *)
Lemma informal_opener_withheld_inside_word :
  starts_with_greeting (ascii_lower "This is fine.") = false /\
  forall draws picks,
  exists personalized w',
    _apply_personality ascii_lower
      ({[ "success" := VBool true; "content" := VStr "This is fine." ]}
       : Response)
      CONVERSATION
      (world_around
         (with_personality (friendly_profile "female" "Aria")
            (__init__ true true))
         answering (Returns (VStr "Test response from Gemini")) draws picks)
      = (Returns personalized, w') /\
    personalized !! "content" = Some (VStr "This is fine.").
Proof.
  split; [vm_compute; reflexivity|]. intros draws picks.
  set (w := world_around _ _ _ draws picks).
  destruct (informal_style_text ascii_lower
              (friendly_profile "female" "Aria") "This is fine." w)
    as (opener & w1 & Hstyle & Hgreeting & _); [vm_compute; reflexivity|].
  rewrite Hgreeting in Hstyle by (vm_compute; reflexivity).
  destruct (emotional_elements_text (friendly_profile "female" "Aria")
              CONVERSATION "This is fine." w1)
    as (empathy & w2 & Hemotion & _ & Hnone).
  rewrite Hnone in Hemotion by discriminate.
  destruct (apply_personality_steps ascii_lower w w1 w2
              ({[ "success" := VBool true;
                  "content" := VStr "This is fine." ]} : Response)
              CONVERSATION (friendly_profile "female" "Aria")
              "This is fine." "This is fine." "This is fine.")
    as (w' & Hrun); try done.
  eexists _, w'. split; [exact Hrun|].
  rewrite lookup_insert_ne by done. rewrite lookup_insert_ne by done.
  by rewrite lookup_insert_eq.
Qed.

(** ** Dispatch and the orchestrator *)

Lemma detect_task_type_returns (str_lower : string -> string)
    (user_input : string) (w : World) :
  exists task_type,
    _detect_task_type str_lower user_input w = (Returns task_type, w).
Proof.
  unfold _detect_task_type.
  destruct (map fst _); by eexists.
Qed.

Lemma select_best_model_returns (task_type : TaskType) (w : World) :
  models (self w) <> [] ->
  exists model, _select_best_model task_type w = (Returns model, w).
Proof.
  intros Hne. unfold _select_best_model, bind, get_self.
  destruct (suitable_models (models (self w)) task_type); [|by eexists].
  destruct (dict_mem GPT35_TURBO (models (self w))); [by eexists|].
  destruct (models (self w)) as [|[model info] rest]; [done|]. by eexists.
Qed.

(** Replaying the history returns the messages or raises the [KeyError]
    of a response without [content]; it changes nothing. *)
Lemma replay_history_outcome (recent_history : list entry)
    (messages : list message) (w : World) :
  (exists messages', replay_history recent_history messages w
                     = (Returns messages', w)) \/
  replay_history recent_history messages w = (Raises (KeyError "content"), w).
Proof.
  revert messages.
  induction recent_history as [|entry recent_history IH]; intros messages.
  - left. by eexists.
  - cbn [replay_history]. unfold bind, getitem.
    destruct (entry_response entry !! "content"); [apply IH | by right].
Qed.

Lemma insert_before_last_snoc {A : Type} (x : A) (xs : list A) (y : A) :
  insert_before_last x (xs ++ [y])%list = (xs ++ [x; y])%list.
Proof.
  unfold insert_before_last. rewrite length_app. simpl.
  replace (length xs + 1 - 1) with (length xs) by lia.
  by rewrite take_app_length, drop_app_length.
Qed.

(** The replay puts the turns of the entries, in order, before the last
    message. *)
Lemma replay_history_turns (recent_history : list entry)
    (messages : list message) (current : message) (w : World) :
  (forall entry, entry ∈ recent_history ->
                 is_Some (entry_response entry !! "content")) ->
  replay_history recent_history (messages ++ [current])%list w =
  (Returns (messages ++ flat_map turns_of recent_history ++ [current])%list,
   w).
Proof.
  revert messages.
  induction recent_history as [|entry recent_history IH];
    intros messages Hcontent.
  - done.
  - cbn [replay_history flat_map]. unfold bind, getitem.
    destruct (Hcontent entry) as [previous Hprevious];
      [apply list_elem_of_here|].
    rewrite Hprevious. unfold ret at 1.
    rewrite insert_before_last_snoc.
    replace (messages ++ [_; current])%list
      with ((messages ++
             [ {| role := "user";
                  content := VStr (entry_user_input entry) |} ])
            ++ [current])%list by (by rewrite <- app_assoc).
    rewrite insert_before_last_snoc.
    replace (_ ++ [_; current])%list
      with ((messages ++ turns_of entry) ++ [current])%list.
    2:{ unfold turns_of. rewrite Hprevious. simpl.
        by rewrite <- !app_assoc. }
    rewrite IH by (intros e He; apply Hcontent; by apply list_elem_of_further).
    by rewrite <- !app_assoc.
Qed.

(** The replay raises as soon as one entry has no [content]. *)
Lemma replay_history_missing (recent_history : list entry)
    (messages : list message) (w : World) :
  (exists entry, entry ∈ recent_history /\
                 entry_response entry !! "content" = None) ->
  replay_history recent_history messages w = (Raises (KeyError "content"), w).
Proof.
  revert messages.
  induction recent_history as [|entry recent_history IH];
    intros messages (bad & Hin & Hbad).
  - inversion Hin.
  - cbn [replay_history]. unfold bind, getitem.
    destruct (entry_response entry !! "content") eqn:Hcontent; [|done].
    unfold ret at 1. apply IH. exists bad. split; [|done].
    apply elem_of_cons in Hin as [->|Hin]; [congruence|done].
Qed.

(** [_process_with_openai] when the history can be replayed: the request is
    sent, and the outcome follows what [acreate] answers. *)
Lemma process_with_openai_run (model : AIModel) (user_input : string)
    (task_type : TaskType) (w : World) :
  replayable (conversation_history (self w)) ->
  _process_with_openai model user_input task_type w =
  (match acreate w (length (calls w))
           (request_for (self w) model user_input task_type) with
   | Raises e => Raises e
   | Returns response =>
       match choices response with
       | first :: _ =>
           Returns ({[ "success" := VBool true;
                       "content" := first;
                       "model_used" := VStr (AIModel_value model);
                       "task_type" := VStr (TaskType_value task_type);
                       "tokens_used" := default (VInt 0) (usage response) ]}
                    : Response)
       | [] => Raises (IndexError "list index out of range")
       end
   end,
   log_call (call_openai (request_for (self w) model user_input task_type))
     w).
Proof.
  intros Hreplay.
  unfold _process_with_openai, bind at 1, get_self.
  fold (system_prompt_for (self w) task_type).
  set (system := {| role := "system"; content := _ |}).
  set (current := {| role := "user"; content := VStr user_input |}).
  assert ((if (0 <? length (conversation_history (self w)))%nat
           then replay_history (last_n 5 (conversation_history (self w)))
                  [system; current]
           else ret [system; current]) w =
          (Returns (req_messages
                      (request_for (self w) model user_input task_type)), w))
    as Hmessages.
  { destruct (0 <? length (conversation_history (self w)))%nat eqn:Hlen.
    - apply (replay_history_turns _ [system] current w Hreplay).
    - apply Nat.ltb_ge in Hlen.
      assert (conversation_history (self w) = []) as Hempty
        by (destruct (conversation_history (self w)); [done|simpl in Hlen; lia]).
      unfold request_for. cbn [req_messages]. by rewrite Hempty. }
  unfold bind at 1. rewrite Hmessages.
  unfold bind at 1, await_acreate.
  change {| req_model := AIModel_value model;
            req_messages :=
              req_messages (request_for (self w) model user_input task_type);
            req_max_tokens := 1000;
            req_temperature :=
              if decide (task_type = CREATIVE_WRITING) then f0_7 else 0.5;
            req_top_p := f0_9 |}
    with (request_for (self w) model user_input task_type).
  destruct (acreate w (length (calls w))
              (request_for (self w) model user_input task_type))
    as [response|e]; [|done].
  unfold bind. by destruct (choices response).
Qed.

Lemma last_in_last_n {A : Type} (n : nat) (xs : list A) (x : A) :
  last xs = Some x -> x ∈ last_n (S n) xs.
Proof.
  intros Hlast. apply last_Some in Hlast as [front ->].
  unfold last_n. rewrite length_app. simpl.
  rewrite drop_app_le by lia. apply elem_of_app. right.
  apply list_elem_of_here.
Qed.

(** [_process_with_openai] when the history cannot be replayed: the
    [KeyError] is raised before the call. *)
Lemma process_with_openai_missing_content (model : AIModel)
    (user_input : string) (task_type : TaskType) (w : World) :
  (exists entry,
      entry ∈ last_n 5 (conversation_history (self w)) /\
      entry_response entry !! "content" = None) ->
  _process_with_openai model user_input task_type w
    = (Raises (KeyError "content"), w).
Proof.
  intros Hbad. unfold _process_with_openai, bind at 1, get_self.
  assert ((0 <? length (conversation_history (self w)))%nat = true) as ->.
  { apply Nat.ltb_lt. destruct Hbad as (entry & Hin & _).
    destruct (conversation_history (self w)); [inversion Hin|simpl; lia]. }
  unfold bind at 1. by rewrite replay_history_missing.
Qed.



Lemma last_n_snoc {A : Type} (n : nat) (xs : list A) (x : A) :
  last (last_n (S n) (xs ++ [x])%list) = Some x.
Proof.
  unfold last_n. rewrite length_app. simpl.
  rewrite drop_app_le by lia. apply last_snoc.
Qed.




(** ** The assertions of the unit tests, on the embedding *)

(** [test_detect_task_type]. *)
Example unit_detect_task_type :
  let detect user_input :=
    fst (_detect_task_type ascii_lower user_input
           (quiet_world (__init__ true true))) in
  detect "چگونه سهام بخرم؟" = Returns FINANCIAL_ADVICE /\
  detect "احساس غمگینی می‌کنم" = Returns PSYCHOLOGICAL_SUPPORT /\
  detect "یک داستان کوتاه بنویس" = Returns CREATIVE_WRITING /\
  detect "ترجمه کن" = Returns TRANSLATION /\
  detect "درباره هوش مصنوعی تحقیق کن" = Returns RESEARCH /\
  detect "سلام حالت چطوره؟" = Returns CONVERSATION.
Proof. vm_compute. repeat split. Qed.

(** [test_select_best_model]: the first two branches of the test. In its
    last branch, without any key, GPT-3.5-Turbo is not registered and the
    selector returns the adapter registered first. *)
Example unit_select_best_model :
  fst (_select_best_model CONTENT_GENERATION
         (quiet_world (__init__ true true))) = Returns GPT4 /\
  fst (_select_best_model CREATIVE_WRITING
         (quiet_world (__init__ false true))) = Returns GEMINI_PRO /\
  fst (_select_best_model CONVERSATION
         (quiet_world (__init__ false false))) = Returns LLAMA2.
Proof. vm_compute. repeat split. Qed.

(** [test_get_conversation_stats]: two requests, then the statistics. *)
Example unit_conversation_stats :
  fst (get_conversation_stats (fun _ _ => "100.0%")
         (snd (process_request ascii_lower "یک شعر بنویس"
                 (Some CREATIVE_WRITING)
                 (snd (process_request ascii_lower "سلام" None
                         (quiet_world
                            (with_personality
                               (friendly_profile "neutral" "دستیار")
                               (__init__ true true))))))))
  = Returns
      {[ "total_conversations" := SInt 2;
         "task_distribution" :=
           SCounts [("conversation", 1%Z); ("creative_writing", 1%Z)];
         "model_usage" := SCounts [("gpt-4", 1%Z); ("gemini-pro", 1%Z)];
         "success_rate" := SStr "100.0%";
         "most_used_task" := SStr "conversation";
         "most_used_model" := SStr "gpt-4" ]}.
Proof. vm_compute. reflexivity. Qed.

(** * Further properties *)

(** ** The classifier, in full *)

Lemma prefix_spec (needle hay : string) :
  String.prefix needle hay = true <-> exists post, hay = needle ++ post.
Proof.
  revert hay. induction needle as [|c needle IH]; intros hay.
  - split; [intros _; by exists hay | by destruct hay].
  - destruct hay as [|c' hay].
    + split; [done | intros [post Hpost]; discriminate Hpost].
    + cbn [String.prefix]. destruct (Ascii.ascii_dec c c') as [->|Hne].
      * rewrite IH. split; intros [post Hpost]; exists post.
        -- by rewrite Hpost.
        -- by injection Hpost.
      * split; [done | intros [post Hpost]; by injection Hpost].
Qed.

(** [needle in hay] holds exactly when [hay] is some text, then [needle],
    then some text. *)
Lemma contains_spec (needle hay : string) :
  contains needle hay = true <->
  exists before after, hay = before ++ needle ++ after.
Proof.
  induction hay as [|c hay IH]; cbn [contains].
  - rewrite orb_false_r, prefix_spec. split.
    + intros [post Hpost]. by exists "", post.
    + intros (before & after & Hsplit). destruct before; [by exists after|].
      discriminate Hsplit.
  - rewrite orb_true_iff, prefix_spec, IH. split.
    + intros [[post Hpost]|(before & after & Hsplit)].
      * by exists "", post.
      * exists (String c before), after. by rewrite Hsplit.
    + intros (before & after & Hsplit). destruct before as [|c' before].
      * left. by exists after.
      * right. exists before, after. by injection Hsplit.
Qed.

Lemma category_score_zero (str_lower : string -> string)
    (user_input : string) (task_type : TaskType) :
  category_score str_lower user_input task_type = 0%Z <->
  forall keyword, keyword ∈ keywords_of task_type ->
                  contains keyword (str_lower user_input) = false.
Proof.
  unfold category_score. rewrite keyword_score_length. split.
  - intros Hzero keyword Hin.
    destruct (contains keyword (str_lower user_input)) eqn:Hcontains; [|done].
    assert (keyword ∈ filter (fun k => contains k (str_lower user_input) = true)
                        (keywords_of task_type)) as Hfiltered
      by (by apply list_elem_of_filter).
    destruct (filter _ (keywords_of task_type)); [inversion Hfiltered|].
    simpl in Hzero. lia.
  - intros Hnone.
    destruct (filter _ (keywords_of task_type)) as [|keyword rest] eqn:E;
      [done|].
    assert (keyword ∈ filter (fun k => contains k (str_lower user_input) = true)
                        (keywords_of task_type)) as Hfiltered
      by (rewrite E; apply list_elem_of_here).
    apply list_elem_of_filter in Hfiltered as [Hcontains Hin].
    rewrite (Hnone _ Hin) in Hcontains. discriminate Hcontains.
Qed.

Lemma dict_get_elem {K V : Type} `{EqDecision K} (k : K) (v : V)
    (d : list (K * V)) :
  NoDup (map fst d) -> (k, v) ∈ d -> dict_get k d = Some v.
Proof.
  induction d as [|[k' v'] d IH]; intros Hnodup Hin; [inversion Hin|].
  apply NoDup_cons in Hnodup as [Hfresh Hnodup]. simpl.
  apply elem_of_cons in Hin as [Heq|Hin].
  - injection Heq as -> ->. by rewrite decide_True.
  - destruct (decide (k = k')) as [->|Hne]; [|by apply IH].
    exfalso. apply Hfresh. apply list_elem_of_fmap. by exists (k', v).
Qed.

Lemma positive_scores_cons (task_type : TaskType) (keywords : list string)
    (table : list (TaskType * list string)) (input_lower : string) :
  positive_scores ((task_type, keywords) :: table) input_lower =
  if (keyword_score keywords input_lower >? 0)%Z
  then (task_type, keyword_score keywords input_lower)
         :: positive_scores table input_lower
  else positive_scores table input_lower.
Proof.
  unfold positive_scores. simpl.
  by destruct (keyword_score keywords input_lower >? 0)%Z.
Qed.

(** A split of the positive scores comes from a split of the table. *)
Lemma positive_scores_split (table : list (TaskType * list string))
    (input_lower : string) (before : list (TaskType * Z))
    (task_type : TaskType) (score : Z) (after : list (TaskType * Z)) :
  positive_scores table input_lower
    = (before ++ (task_type, score) :: after)%list ->
  exists table1 keywords table2,
    table = (table1 ++ (task_type, keywords) :: table2)%list /\
    positive_scores table1 input_lower = before /\
    score = keyword_score keywords input_lower /\
    (0 < score)%Z.
Proof.
  revert before.
  induction table as [|[t kws] table IH]; intros before Hsplit.
  - by destruct before.
  - rewrite positive_scores_cons in Hsplit.
    destruct (keyword_score kws input_lower >? 0)%Z eqn:Hpos.
    + destruct before as [|first before]; simpl in Hsplit.
      * injection Hsplit as Ht Hscore Hafter. subst t.
        exists [], kws, table. repeat split; [done|lia].
      * injection Hsplit as <- Hrest.
        destruct (IH _ Hrest) as (t1 & kws' & t2 & -> & H1 & H2 & H3).
        exists ((t, kws) :: t1), kws', t2. split; [done|].
        split; [|done]. rewrite positive_scores_cons, Hpos. by rewrite H1.
    + destruct (IH _ Hsplit) as (t1 & kws' & t2 & -> & H1 & H2 & H3).
      exists ((t, kws) :: t1), kws', t2. split; [done|].
      split; [|done]. by rewrite positive_scores_cons, Hpos.
Qed.

(** The answer of the classifier: the default when every score is zero;
    otherwise a category of the table whose score is positive, is the
    greatest, and is greater than the score of every category written
    before it in the table. *)
Lemma detect_task_type_cases (str_lower : string -> string)
    (user_input : string) (w : World) :
  exists answer,
    _detect_task_type str_lower user_input w = (Returns answer, w) /\
    ((answer = CONVERSATION /\
      forall task_type,
        category_score str_lower user_input task_type = 0%Z) \/
     (exists before after,
        map fst task_keywords = (before ++ answer :: after)%list /\
        (0 < category_score str_lower user_input answer)%Z /\
        (forall task_type,
            (category_score str_lower user_input task_type <=
             category_score str_lower user_input answer)%Z) /\
        (forall task_type, task_type ∈ before ->
            (category_score str_lower user_input task_type <
             category_score str_lower user_input answer)%Z))).
Proof.
  unfold _detect_task_type.
  set (task_scores :=
         fill_task_scores task_keywords (str_lower user_input) []).
  assert (forall k, default 0%Z (dict_get k task_scores)
                    = category_score str_lower user_input k) as Hkey
    by (intros k; apply task_scores_key).
  assert (forall k, k ∈ map fst task_scores <->
                    (0 < category_score str_lower user_input k)%Z) as Hkeys.
  { intros k. rewrite <- dict_mem_keys. unfold dict_mem.
    rewrite bool_decide_eq_true. unfold task_scores.
    rewrite task_scores_lookup.
    destruct (category_score str_lower user_input k >? 0)%Z eqn:E.
    - split; [lia | by eexists].
    - split; [intros [? ?]; done | lia]. }
  destruct (map fst task_scores) as [|x rest] eqn:Ekeys.
  - exists CONVERSATION. split; [done|]. left. split; [done|].
    intros task_type.
    pose proof (keyword_score_nonneg (keywords_of task_type)
                  (str_lower user_input)) as Hge.
    fold (category_score str_lower user_input task_type) in Hge.
    destruct (decide (0 < category_score str_lower user_input task_type)%Z)
      as [Hpos|Hnpos]; [|lia].
    apply Hkeys in Hpos. inversion Hpos.
  - set (key := fun k => default 0%Z (dict_get k task_scores)).
    destruct (max_from_first_maximal Z.gtb key Zgtb_trans Zgtb_above x rest)
      as (before & after & Hsplit & Hbefore & Hafter).
    set (answer := max_from Z.gtb key x rest) in *.
    exists answer. split; [done|]. right.
    assert (0 < category_score str_lower user_input answer)%Z as Hpos.
    { apply Hkeys. rewrite Hsplit. apply elem_of_app. right.
      apply list_elem_of_here. }
    assert (forall task_type,
               (category_score str_lower user_input task_type <=
                category_score str_lower user_input answer)%Z) as Hmax.
    { intros task_type.
      destruct (decide (0 < category_score str_lower user_input task_type)%Z)
        as [Hpos'|Hnpos]; [|lia].
      apply Hkeys in Hpos'. rewrite Hsplit in Hpos'.
      apply elem_of_app in Hpos' as [Hin|Hin].
      - specialize (Hbefore _ Hin). unfold key in Hbefore.
        rewrite !Hkey in Hbefore. lia.
      - apply elem_of_cons in Hin as [->|Hin]; [lia|].
        specialize (Hafter _ Hin). unfold key in Hafter.
        rewrite !Hkey in Hafter. lia. }
    rewrite <- Ekeys in Hsplit. unfold task_scores in Hsplit.
    rewrite fill_task_scores_positive in Hsplit by exact task_keywords_NoDup.
    rewrite app_nil_l in Hsplit.
    apply fmap_app_inv in Hsplit as (scores1 & rest2 & -> & Hrest & Hscores).
    symmetry in Hrest.
    apply fmap_cons_inv in Hrest as ([a score] & scores2 & Ha & -> & ->).
    simpl in Ha. subst a.
    apply positive_scores_split in Hscores
      as (table1 & kws & table2 & Htable & Hscores1 & _ & _).
    exists (map fst table1), (map fst table2).
    split; [by rewrite Htable, map_app|]. split; [exact Hpos|].
    split; [exact Hmax|].
    intros task_type Hin.
    apply list_elem_of_fmap in Hin as ([t kws'] & -> & Hin). simpl.
    assert (category_score str_lower user_input t
            = keyword_score kws' (str_lower user_input)) as Hscore.
    { unfold category_score, keywords_of.
      rewrite (dict_get_elem t kws' task_keywords task_keywords_NoDup);
        [done|].
      rewrite Htable. apply elem_of_app. by left. }
    destruct (decide (0 < keyword_score kws' (str_lower user_input))%Z)
      as [Hpos'|Hnpos]; [|lia].
    assert ((t, keyword_score kws' (str_lower user_input))
              ∈ positive_scores table1 (str_lower user_input)) as Hin'.
    { apply list_elem_of_omap. exists (t, kws'). split; [done|]. simpl.
      by replace (_ >? 0)%Z with true by lia. }
    rewrite Hscores1 in Hin'.
    assert (t ∈ map fst scores1) as Hin''
      by (apply list_elem_of_fmap; by eexists (_, _)).
    specialize (Hbefore _ Hin''). unfold key in Hbefore.
    rewrite !Hkey in Hbefore. lia.
Qed.

(** X1. The classifier answers the default category exactly when no
    trigger phrase of any category occurs in the lower-cased input, that
    is, when the input cannot be cut into some text, a trigger phrase, and
    some text. *)
Theorem detect_task_type_default_iff (str_lower : string -> string)
    (user_input : string) (w : World) :
  _detect_task_type str_lower user_input w = (Returns CONVERSATION, w) <->
  forall task_type keyword,
    keyword ∈ keywords_of task_type ->
    ~ (exists before after,
          str_lower user_input = before ++ keyword ++ after).
Proof.
  destruct (detect_task_type_cases str_lower user_input w)
    as (answer & Hrun & Hcases).
  rewrite Hrun. split.
  - intros Hanswer. injection Hanswer as ->.
    destruct Hcases as [[_ Hzero]|(before & after & Hsplit & _)].
    + intros task_type keyword Hin Hinside.
      apply contains_spec in Hinside.
      pose proof (proj1 (category_score_zero _ _ _) (Hzero task_type)
                    keyword Hin) as Hout.
      congruence.
    + exfalso.
      assert (CONVERSATION ∈ map fst task_keywords) as Hin
        by (rewrite Hsplit; apply elem_of_app; right; apply list_elem_of_here).
      vm_compute in Hin.
      repeat (apply elem_of_cons in Hin as [Hin|Hin]; [discriminate Hin|]).
      inversion Hin.
  - intros Hnone.
    assert (forall task_type,
               category_score str_lower user_input task_type = 0%Z) as Hzero.
    { intros task_type. apply category_score_zero. intros keyword Hin.
      destruct (contains keyword (str_lower user_input)) eqn:E; [|done].
      apply contains_spec in E. by destruct (Hnone task_type keyword Hin). }
    destruct Hcases as [[-> _]|(before & after & _ & Hpos & _)]; [done|].
    rewrite Hzero in Hpos. lia.
Qed.

(** X2. The classifier always answers, and never with one of the three
    categories that have no trigger phrases. No category scores more than
    the answer, and when the answer is not the default every category
    written before it in the table of trigger phrases scores strictly
    less: of several categories with the greatest score the one written
    first wins. *)
Theorem detect_task_type_greatest_first (str_lower : string -> string)
    (user_input : string) (w : World) :
  exists answer,
    _detect_task_type str_lower user_input w = (Returns answer, w) /\
    (answer ∉ [CONTENT_GENERATION; TECHNICAL_ANALYSIS; COMPANIONSHIP]) /\
    (forall task_type,
        (category_score str_lower user_input task_type <=
         category_score str_lower user_input answer)%Z) /\
    (answer = CONVERSATION \/
     exists before after,
       map fst task_keywords = (before ++ answer :: after)%list /\
       forall task_type, task_type ∈ before ->
         (category_score str_lower user_input task_type <
          category_score str_lower user_input answer)%Z).
Proof.
  destruct (detect_task_type_cases str_lower user_input w)
    as (answer & Hrun & Hcases).
  exists answer. split; [exact Hrun|].
  destruct Hcases as [[-> Hzero]|(before & after & Hsplit & Hpos & Hmax & Hless)].
  - split.
    { intros Hin.
      repeat (apply elem_of_cons in Hin as [Hin|Hin]; [discriminate Hin|]).
      inversion Hin. }
    split; [|by left]. intros task_type. rewrite !Hzero. lia.
  - split.
    { assert (answer ∈ map fst task_keywords) as Hin
        by (rewrite Hsplit; apply elem_of_app; right; apply list_elem_of_here).
      intros Hbad. vm_compute in Hin.
      repeat (apply elem_of_cons in Hin as [Hin|Hin];
              [subst answer;
               repeat (apply elem_of_cons in Hbad as [Hbad|Hbad];
                       [discriminate Hbad|]);
               inversion Hbad|]).
      inversion Hin. }
    split; [exact Hmax|]. right. by exists before, after.
Qed.

(** X3. An input with trigger phrases of exactly one category is
    classified in that category. *)
Theorem detect_task_type_single_category (str_lower : string -> string)
    (user_input : string) (w : World) (task_type : TaskType) :
  (0 < category_score str_lower user_input task_type)%Z ->
  (forall other, other <> task_type ->
     category_score str_lower user_input other = 0%Z) ->
  _detect_task_type str_lower user_input w = (Returns task_type, w).
Proof.
  intros Hpos Hothers. apply detect_task_type_strict_max; [exact Hpos|].
  intros other Hne. rewrite (Hothers other Hne). exact Hpos.
Qed.

Lemma detect_task_type_single_category_witness :
  _detect_task_type ascii_lower "Please TRANSLATE this"
    (quiet_world (__init__ true true))
  = (Returns TRANSLATION, quiet_world (__init__ true true)).
Proof.
  apply (detect_task_type_single_category ascii_lower
           "Please TRANSLATE this" (quiet_world (__init__ true true))
           TRANSLATION).
  - vm_compute. reflexivity.
  - intros other Hne. destruct other; try done; vm_compute; reflexivity.
Defined.

(** ** The selector and the registry *)

(** X4. [_select_best_model] raises, an [IndexError], exactly on an empty
    registry; on any other registry it returns an adapter that is
    registered. It never changes the engine. *)
Theorem select_best_model_registered (task_type : TaskType) (w : World) :
  (models (self w) = [] /\
   _select_best_model task_type w
     = (Raises (IndexError "list index out of range"), w)) \/
  (exists model,
      _select_best_model task_type w = (Returns model, w) /\
      model ∈ map fst (models (self w))).
Proof.
  unfold _select_best_model, bind, get_self.
  destruct (suitable_models (models (self w)) task_type) as [|x rest] eqn:E.
  - destruct (dict_mem GPT35_TURBO (models (self w))) eqn:Hmem.
    + right. exists GPT35_TURBO. split; [done|]. by apply dict_mem_keys.
    + destruct (models (self w)) as [|[model info] registry]; [by left|].
      right. exists model. split; [done|]. apply list_elem_of_here.
  - right. eexists. split; [reflexivity|].
    pose proof (max_from_elem (fun a b => Qltb b a) snd
                  (fun a b c => Qgtb_trans a b c)
                  (fun a b c => Qgtb_above a b c) x rest) as Hin.
    rewrite <- E in Hin.
    apply list_elem_of_omap in Hin as ([model info] & Hin & Hsome).
    simpl in Hsome.
    destruct (available info && bool_decide (task_type ∈ specialties info));
      [|done].
    injection Hsome as <-. simpl.
    apply list_elem_of_fmap. by exists (model, info).
Qed.

(** X5. Whatever keys are configured, the registry [_initialize_models]
    builds has no adapter twice, always holds LLaMA-2 and T5, so is never
    empty, and never holds Claude; an adapter in it is available exactly
    when it is one of the two GPT models and the OpenAI key is set, or
    Gemini and the Google key is set. *)
Theorem initialize_models_registry (openai_api_key google_api_key : bool) :
  NoDup (map fst (_initialize_models openai_api_key google_api_key)) /\
  LLAMA2 ∈ map fst (_initialize_models openai_api_key google_api_key) /\
  T5 ∈ map fst (_initialize_models openai_api_key google_api_key) /\
  (CLAUDE ∉ map fst (_initialize_models openai_api_key google_api_key)) /\
  forall model info,
    (model, info) ∈ _initialize_models openai_api_key google_api_key ->
    (available info = true <->
     (openai_api_key = true /\ model ∈ [GPT4; GPT35_TURBO]) \/
     (google_api_key = true /\ model = GEMINI_PRO)).
Proof.
  split; [|split; [|split; [|split]]].
  - destruct openai_api_key, google_api_key; compute_done.
  - destruct openai_api_key, google_api_key; compute_done.
  - destruct openai_api_key, google_api_key; compute_done.
  - destruct openai_api_key, google_api_key; compute_done.
  - intros model info Hin.
    destruct openai_api_key, google_api_key; vm_compute in Hin;
      repeat (apply elem_of_cons in Hin as [Hin|Hin];
              [injection Hin as -> ->; simpl;
               split; [intros Hav; try discriminate Hav;
                       first [left; split; [done|compute_done]
                             | right; by split]
                      | intros [[Hkey Hm]|[Hkey Hm]];
                        first [done | discriminate Hkey | discriminate Hm
                              | exfalso; revert Hm; compute_done]]|]);
      inversion Hin.
Qed.

(** X6. On an engine built with the OpenAI key, every category is routed
    to an adapter of the registry that is available. *)
Theorem select_best_model_with_openai_key (google_api_key : bool)
    (task_type : TaskType) (w : World) :
  models (self w) = _initialize_models true google_api_key ->
  exists model info,
    _select_best_model task_type w = (Returns model, w) /\
    dict_get model (models (self w)) = Some info /\
    available info = true.
Proof.
  intros Hregistry. unfold _select_best_model, bind, get_self.
  rewrite Hregistry.
  destruct google_api_key, task_type; eexists _, _;
    (split; [vm_compute; reflexivity|]); split; reflexivity.
Qed.

Lemma select_best_model_with_openai_key_witness :
  exists model info,
    _select_best_model MEDITATION (quiet_world (__init__ true false))
      = (Returns model, quiet_world (__init__ true false)) /\
    dict_get model (models (self (quiet_world (__init__ true false))))
      = Some info /\
    available info = true.
Proof.
  apply (select_best_model_with_openai_key false MEDITATION
           (quiet_world (__init__ true false))).
  reflexivity.
Defined.

(** X7. On an engine built without the OpenAI key, every category is
    routed to the adapter registered first: to Gemini when the Google key
    is set, whether or not Gemini lists the category, and to LLaMA-2, which
    is not available, when it is not. *)
Theorem select_best_model_without_openai_key (google_api_key : bool)
    (task_type : TaskType) (w : World) :
  models (self w) = _initialize_models false google_api_key ->
  _select_best_model task_type w =
  (Returns (if google_api_key then GEMINI_PRO else LLAMA2), w).
Proof.
  intros Hregistry. unfold _select_best_model, bind, get_self.
  rewrite Hregistry.
  destruct google_api_key, task_type; vm_compute; reflexivity.
Qed.

Lemma select_best_model_without_openai_key_witness :
  _select_best_model CONVERSATION (quiet_world (__init__ false true)) =
  (Returns (if true then GEMINI_PRO else LLAMA2),
   quiet_world (__init__ false true)).
Proof.
  apply (select_best_model_without_openai_key true CONVERSATION
           (quiet_world (__init__ false true))).
  reflexivity.
Defined.

(** ** Dispatch *)

Lemma last_n_length_min {A : Type} (n : nat) (xs : list A) :
  length (last_n n xs) = Nat.min n (length xs).
Proof. unfold last_n. rewrite length_drop. lia. Qed.

Lemma flat_map_turns_length (history : list entry) :
  length (flat_map turns_of history) = 2 * length history.
Proof.
  induction history as [|entry history IH]; [done|].
  cbn [flat_map]. rewrite length_app, IH. simpl. lia.
Qed.

(** X8. When each of the last five entries of the history has a
    [content], a dispatch logs exactly one call. To Gemini it sends the
    input alone, without the history or the profile. To any other adapter
    it sends a chat request made of the system prompt, the two turns of
    each of the last five entries, the oldest first, and the input: two
    messages more than twice the number of entries replayed, twelve at
    most; the model named in the request is the adapter for GPT-4 and
    GPT-3.5-Turbo, and GPT-3.5-Turbo for every other adapter. *)
Theorem process_with_model_request (model : AIModel) (user_input : string)
    (task_type : TaskType) (w : World) :
  replayable (conversation_history (self w)) ->
  calls (snd (_process_with_model model user_input task_type w)) =
    (if bool_decide (model = GEMINI_PRO) then call_gemini user_input
     else call_openai
            (request_for (self w)
               (if bool_decide (model ∈ [GPT4; GPT35_TURBO]) then model
                else GPT35_TURBO)
               user_input task_type))
    :: calls w /\
  forall sent,
    length (req_messages (request_for (self w) sent user_input task_type)) =
    2 + 2 * Nat.min 5 (length (conversation_history (self w))).
Proof.
  intros Hreplay. split.
  - assert (forall sent,
               calls (snd (try_except
                             (_process_with_openai sent user_input task_type)
                             (fun e =>
                                ret ({[ "success" := VBool false;
                                        "error" := VStr (exn_str e);
                                        "fallback_response" :=
                                          VStr fallback_apology ]}
                                     : Response)) w))
               = call_openai (request_for (self w) sent user_input task_type)
                   :: calls w) as Hopenai.
    { intros sent. unfold try_except.
      rewrite (process_with_openai_run sent user_input task_type w Hreplay).
      destruct (acreate _ _ _) as [response|e].
      - by destruct (choices response).
      - by destruct (exn_is_Exception e). }
    unfold _process_with_model.
    destruct (bool_decide (model ∈ [GPT4; GPT35_TURBO])) eqn:Hgpt.
    + apply bool_decide_eq_true in Hgpt.
      rewrite bool_decide_eq_false_2; [apply Hopenai|].
      intros ->.
      repeat (apply elem_of_cons in Hgpt as [Hgpt|Hgpt]; [discriminate Hgpt|]).
      inversion Hgpt.
    + destruct (bool_decide (model = GEMINI_PRO)); [|apply Hopenai].
      unfold try_except at 1, _process_with_gemini, try_except, bind,
        await_generate_content.
      destruct (generate_content_async _ _ _) as [text|e]; [reflexivity|].
      destruct (exn_is_Exception e) eqn:Hcaught; [reflexivity|].
      by rewrite Hcaught.
  - intros sent. unfold request_for. cbn [req_messages length].
    rewrite length_app, flat_map_turns_length, last_n_length_min. simpl. lia.
Qed.

Lemma process_with_model_request_witness :
  calls (snd (_process_with_model T5 "hello" TRANSLATION
                (quiet_world
                   {| models := _initialize_models true true;
                      personality := None;
                      conversation_history := answered_history |}))) =
    (if bool_decide (T5 = GEMINI_PRO) then call_gemini "hello"
     else call_openai
            (request_for
               (self (quiet_world
                        {| models := _initialize_models true true;
                           personality := None;
                           conversation_history := answered_history |}))
               (if bool_decide (T5 ∈ [GPT4; GPT35_TURBO]) then T5
                else GPT35_TURBO)
               "hello" TRANSLATION))
    :: calls (quiet_world
                {| models := _initialize_models true true;
                   personality := None;
                   conversation_history := answered_history |}) /\
  forall sent,
    length (req_messages
              (request_for
                 (self (quiet_world
                          {| models := _initialize_models true true;
                             personality := None;
                             conversation_history := answered_history |}))
                 sent "hello" TRANSLATION)) =
    2 + 2 * Nat.min 5
          (length (conversation_history
                     (self (quiet_world
                              {| models := _initialize_models true true;
                                 personality := None;
                                 conversation_history :=
                                   answered_history |})))).
Proof.
  apply (process_with_model_request T5 "hello" TRANSLATION
           (quiet_world
              {| models := _initialize_models true true;
                 personality := None;
                 conversation_history := answered_history |})).
  intros entry Hin. vm_compute in Hin.
  repeat (apply elem_of_cons in Hin as [->|Hin]; [by eexists|]).
  inversion Hin.
Defined.

(** X9. When one of the last five entries of the history holds a response
    without [content], as every failed response is, a dispatch to an
    adapter other than Gemini fails before any call is made: it returns
    the failed response whose error is the message of the [KeyError], and
    the call log is unchanged. *)
Theorem process_with_model_after_failure (model : AIModel)
    (user_input : string) (task_type : TaskType) (w : World) :
  (exists entry,
      entry ∈ last_n 5 (conversation_history (self w)) /\
      entry_response entry !! "content" = None) ->
  model <> GEMINI_PRO ->
  _process_with_model model user_input task_type w
    = (Returns {[ "success" := VBool false;
                  "error" := VStr "'content'";
                  "fallback_response" := VStr fallback_apology ]}, w) /\
  calls (snd (_process_with_model model user_input task_type w)) = calls w.
Proof.
  intros Hbad Hmodel.
  assert (_process_with_model model user_input task_type w
          = (Returns replay_failure, w)) as Hrun.
  { unfold _process_with_model.
    destruct (bool_decide (model ∈ [GPT4; GPT35_TURBO])).
    - unfold try_except.
      by rewrite (process_with_openai_missing_content _ _ _ _ Hbad).
    - rewrite bool_decide_eq_false_2 by done. unfold try_except.
      by rewrite (process_with_openai_missing_content _ _ _ _ Hbad). }
  rewrite Hrun. by split.
Qed.

Lemma process_with_model_after_failure_witness :
  _process_with_model GPT4 "hello again" CONVERSATION
    (quiet_world {| models := _initialize_models true true;
                    personality := None;
                    conversation_history := [failed_entry] |})
    = (Returns {[ "success" := VBool false;
                  "error" := VStr "'content'";
                  "fallback_response" := VStr fallback_apology ]},
       quiet_world {| models := _initialize_models true true;
                      personality := None;
                      conversation_history := [failed_entry] |}) /\
  calls (snd (_process_with_model GPT4 "hello again" CONVERSATION
                (quiet_world {| models := _initialize_models true true;
                                personality := None;
                                conversation_history := [failed_entry] |})))
    = calls (quiet_world {| models := _initialize_models true true;
                            personality := None;
                            conversation_history := [failed_entry] |}).
Proof.
  apply (process_with_model_after_failure GPT4 "hello again" CONVERSATION
           (quiet_world {| models := _initialize_models true true;
                           personality := None;
                           conversation_history := [failed_entry] |})).
  - exists failed_entry. split; [|vm_compute; reflexivity].
    vm_compute. apply list_elem_of_here.
  - discriminate.
Defined.

(** X10. A completion without any choice is a failure like another: the
    [IndexError] of [choices[0]] is caught, and the dispatch to an adapter
    other than Gemini returns the failed response with that error and the
    apology, after the one call it made. *)
Theorem process_with_model_no_choices (model : AIModel)
    (user_input : string) (task_type : TaskType) (w : World)
    (completion : chat_completion) :
  replayable (conversation_history (self w)) ->
  model <> GEMINI_PRO ->
  (forall n req, acreate w n req = Returns completion) ->
  choices completion = [] ->
  exists request,
    _process_with_model model user_input task_type w =
    (Returns {[ "success" := VBool false;
                "error" := VStr "list index out of range";
                "fallback_response" := VStr fallback_apology ]},
     log_call (call_openai request) w).
Proof.
  intros Hreplay Hmodel Hanswer Hchoices.
  unfold _process_with_model.
  destruct (bool_decide (model ∈ [GPT4; GPT35_TURBO])).
  - unfold try_except. rewrite process_with_openai_run by done.
    rewrite Hanswer, Hchoices. by eexists.
  - rewrite bool_decide_eq_false_2 by done.
    unfold try_except. rewrite process_with_openai_run by done.
    rewrite Hanswer, Hchoices. by eexists.
Qed.

Lemma process_with_model_no_choices_witness :
  exists request,
    _process_with_model GPT4 "hello" CONVERSATION
      (world_around (__init__ true true)
         (Returns {| choices := []; usage := None |}) (Returns VNone)
         (fun _ => 0.5%Q) (fun _ => 0%nat)) =
    (Returns {[ "success" := VBool false;
                "error" := VStr "list index out of range";
                "fallback_response" := VStr fallback_apology ]},
     log_call (call_openai request)
       (world_around (__init__ true true)
          (Returns {| choices := []; usage := None |}) (Returns VNone)
          (fun _ => 0.5%Q) (fun _ => 0%nat))).
Proof.
  apply (process_with_model_no_choices GPT4 "hello" CONVERSATION
           (world_around (__init__ true true)
              (Returns {| choices := []; usage := None |}) (Returns VNone)
              (fun _ => 0.5%Q) (fun _ => 0%nat))
           {| choices := []; usage := None |}).
  - intros entry Hin. vm_compute in Hin. inversion Hin.
  - discriminate.
  - intros n req. reflexivity.
  - reflexivity.
Defined.

(** ** The orchestrator *)

Lemma selected_model_registered (task_type : TaskType) (w : World)
    (model : AIModel) :
  _select_best_model task_type w = (Returns model, w) ->
  model ∈ map fst (models (self w)).
Proof.
  unfold _select_best_model, bind, get_self.
  destruct (suitable_models (models (self w)) task_type) as [|x rest] eqn:E.
  - destruct (dict_mem GPT35_TURBO (models (self w))) eqn:Hmem.
    + intros Hrun. injection Hrun as <-. by apply dict_mem_keys.
    + destruct (models (self w)) as [|[first info] registry]; [done|].
      intros Hrun. injection Hrun as <-. apply list_elem_of_here.
  - intros Hrun. injection Hrun as <-.
    pose proof (max_from_elem (fun a b => Qltb b a) snd
                  (fun a b c => Qgtb_trans a b c)
                  (fun a b c => Qgtb_above a b c) x rest) as Hin.
    rewrite <- E in Hin.
    apply list_elem_of_omap in Hin as ([model info] & Hin & Hsome).
    simpl in Hsome.
    destruct (available info && bool_decide (task_type ∈ specialties info));
      [|done].
    injection Hsome as <-. simpl.
    apply list_elem_of_fmap. by exists (model, info).
Qed.

(** A request on an engine without Gemini whose latest entry has no
    [content]: it fails, it is recorded, and no call is made. *)
Lemma process_request_after_failure (str_lower : string -> string)
    (user_input : string) (task_type : option TaskType) (w : World) :
  GEMINI_PRO ∉ map fst (models (self w)) ->
  models (self w) <> [] ->
  (exists entry,
      last (conversation_history (self w)) = Some entry /\
      entry_response entry !! "content" = None) ->
  exists category model,
    process_request str_lower user_input task_type w =
    (Returns replay_failure,
     with_self
       {| models := models (self w);
          personality := personality (self w);
          conversation_history :=
            last_n 100
              (conversation_history (self w) ++
               [entry_of (now_isoformat w (clock_read w))
                  (user_input, replay_failure, category, model)])%list |}
       (read_clock w)).
Proof.
  intros Hgemini Hregistry (bad & Hlast & Hbad).
  unfold process_request.
  assert (exists category,
             match task_type with
             | Some task_type => ret task_type
             | None => _detect_task_type str_lower user_input
             end w = (Returns category, w)) as (category & Hcategory).
  { destruct task_type as [category|]; [by eexists|].
    apply detect_task_type_returns. }
  unfold bind at 1. rewrite Hcategory.
  destruct (select_best_model_returns category w Hregistry)
    as (model & Hmodel).
  unfold bind at 1. rewrite Hmodel.
  assert (model <> GEMINI_PRO) as Hne.
  { intros ->. apply Hgemini. by eapply selected_model_registered. }
  assert (_process_with_model model user_input category w
          = (Returns replay_failure, w)) as Hrun.
  { assert (exists entry,
               entry ∈ last_n 5 (conversation_history (self w)) /\
               entry_response entry !! "content" = None) as Hmissing
      by (exists bad; split; [by apply last_in_last_n | done]).
    unfold _process_with_model.
    destruct (bool_decide (model ∈ [GPT4; GPT35_TURBO])).
    - unfold try_except.
      by rewrite (process_with_openai_missing_content _ _ _ _ Hmissing).
    - rewrite bool_decide_eq_false_2 by done. unfold try_except.
      by rewrite (process_with_openai_missing_content _ _ _ _ Hmissing). }
  unfold bind at 1. rewrite Hrun.
  unfold bind at 1. rewrite apply_personality_falsy by done.
  unfold bind. rewrite save_to_history_step. by exists category, model.
Qed.

(** X11. On an engine without Gemini, once the latest entry of the history
    holds a response without [content], every later request fails in the
    same way, whatever it asks and however many follow: each returns the
    failed response of the [KeyError], and no adapter is ever called. Each
    failure is recorded in turn: there is one entry for each request, in
    order, holding the input of the request, the failed response and a
    [success] that is false, and a history of at most a hundred entries,
    as [_save_to_history] leaves it, becomes the last hundred of its
    entries followed by these. The clock is read once for each request;
    the registry and the profile stay as they are. *)
Theorem process_requests_after_failure (str_lower : string -> string)
    (requests : list (string * option TaskType)) (w : World) :
  GEMINI_PRO ∉ map fst (models (self w)) ->
  models (self w) <> [] ->
  (exists entry,
      last (conversation_history (self w)) = Some entry /\
      entry_response entry !! "content" = None) ->
  exists w' entries,
    process_requests str_lower requests w
      = (Returns (replicate (length requests) replay_failure), w') /\
    calls w' = calls w /\
    models (self w') = models (self w) /\
    personality (self w') = personality (self w) /\
    clock_read w' = (clock_read w + length requests)%nat /\
    map entry_user_input entries = map fst requests /\
    Forall (fun entry => entry_response entry = replay_failure /\
                         entry_success entry = VBool false) entries /\
    (length (conversation_history (self w)) <= 100 ->
     conversation_history (self w') =
       last_n 100 (conversation_history (self w) ++ entries)%list).
Proof.
  revert w.
  induction requests as [|[user_input task_type] requests IH];
    intros w Hgemini Hregistry Hbad.
  - exists w, []. split; [done|]. split; [done|]. split; [done|].
    split; [done|]. split; [cbn [length]; lia|]. split; [done|].
    split; [done|].
    intros Hbound. rewrite app_nil_r. symmetry. by apply last_n_short.
  - cbn [process_requests]. unfold bind at 1.
    destruct (process_request_after_failure str_lower user_input task_type w
                Hgemini Hregistry Hbad) as (category & model & ->).
    cbv beta iota. unfold bind at 1.
    match goal with |- context [process_requests _ _ ?w1] =>
      destruct (IH w1)
        as (w' & entries & Hrun & Hcalls & Hmodels & Hprofile & Hclock &
            Hinputs & Hfailed & Hhistory) end.
    + exact Hgemini.
    + exact Hregistry.
    + eexists. split; [apply last_n_snoc|]. reflexivity.
    + exists w',
        (entry_of (now_isoformat w (clock_read w))
           (user_input, replay_failure, category, model) :: entries).
      unfold bind. rewrite Hrun.
      cbn [with_self read_clock self models personality
             conversation_history clock_read calls] in *.
      split; [done|]. split; [done|]. split; [done|]. split; [done|].
      split; [rewrite Hclock; cbn [length]; lia|].
      split; [cbn [map fst entry_of entry_user_input]; by rewrite Hinputs|].
      split; [apply Forall_cons; split; [by split | exact Hfailed]|].
      intros _. rewrite Hhistory by apply last_n_length.
      by rewrite last_n_app_last_n, <- app_assoc.
Qed.

Lemma process_requests_after_failure_witness :
  exists w' entries,
    process_requests ascii_lower
      [("hello", None); ("write a poem", Some CREATIVE_WRITING);
       ("translate this", None)]
      (quiet_world {| models := _initialize_models true false;
                      personality := None;
                      conversation_history := [failed_entry] |})
      = (Returns
           (replicate
              (length [("hello", @None TaskType);
                       ("write a poem", Some CREATIVE_WRITING);
                       ("translate this", None)])
              replay_failure), w') /\
    calls w' =
      calls (quiet_world {| models := _initialize_models true false;
                            personality := None;
                            conversation_history := [failed_entry] |}) /\
    models (self w') =
      models (self (quiet_world {| models := _initialize_models true false;
                                   personality := None;
                                   conversation_history := [failed_entry] |}))
    /\
    personality (self w') =
      personality
        (self (quiet_world {| models := _initialize_models true false;
                              personality := None;
                              conversation_history := [failed_entry] |})) /\
    clock_read w' =
      (clock_read
         (quiet_world {| models := _initialize_models true false;
                         personality := None;
                         conversation_history := [failed_entry] |})
       + length [("hello", @None TaskType);
                 ("write a poem", Some CREATIVE_WRITING);
                 ("translate this", None)])%nat /\
    map entry_user_input entries =
      map fst [("hello", @None TaskType);
               ("write a poem", Some CREATIVE_WRITING);
               ("translate this", None)] /\
    Forall (fun entry => entry_response entry = replay_failure /\
                         entry_success entry = VBool false) entries /\
    (length (conversation_history
               (self (quiet_world
                        {| models := _initialize_models true false;
                           personality := None;
                           conversation_history := [failed_entry] |})))
       <= 100 ->
     conversation_history (self w') =
       last_n 100
         (conversation_history
            (self (quiet_world
                     {| models := _initialize_models true false;
                        personality := None;
                        conversation_history := [failed_entry] |}))
          ++ entries)%list).
Proof.
  apply (process_requests_after_failure ascii_lower
           [("hello", None); ("write a poem", Some CREATIVE_WRITING);
            ("translate this", None)]
           (quiet_world {| models := _initialize_models true false;
                           personality := None;
                           conversation_history := [failed_entry] |})).
  - intros Hin. vm_compute in Hin.
    repeat (apply elem_of_cons in Hin as [Hin|Hin]; [discriminate Hin|]).
    inversion Hin.
  - vm_compute. discriminate.
  - exists failed_entry. split; vm_compute; reflexivity.
Defined.

(** A dispatch when the history can be replayed and the adapters answer. *)
Lemma process_with_model_success (model : AIModel) (user_input : string)
    (task_type : TaskType) (w : World) (completion : chat_completion)
    (first : pyval) (others : list pyval) (text : pyval) :
  replayable (conversation_history (self w)) ->
  (forall n req, acreate w n req = Returns completion) ->
  choices completion = first :: others ->
  (forall n prompt, generate_content_async w n prompt = Returns text) ->
  exists result call,
    _process_with_model model user_input task_type w
      = (Returns result, log_call call w) /\
    result !! "success" = Some (VBool true) /\
    result !! "content"
      = Some (if bool_decide (model = GEMINI_PRO) then text else first) /\
    result !! "model_used" = Some (VStr (dispatched_as model)) /\
    result !! "task_type" = Some (VStr (TaskType_value task_type)).
Proof.
  intros Hreplay Hopenai Hchoices Hgemini.
  unfold _process_with_model, dispatched_as.
  destruct (bool_decide (model ∈ [GPT4; GPT35_TURBO])) eqn:Hgpt.
  - apply bool_decide_eq_true in Hgpt.
    rewrite bool_decide_eq_false_2.
    2:{ intros ->.
        repeat (apply elem_of_cons in Hgpt as [Hgpt|Hgpt];
                [discriminate Hgpt|]).
        inversion Hgpt. }
    unfold try_except. rewrite process_with_openai_run by done.
    rewrite Hopenai, Hchoices. eexists _, _. split; [reflexivity|].
    by repeat split.
  - destruct (bool_decide (model = GEMINI_PRO)).
    + unfold try_except at 1, _process_with_gemini, try_except, bind,
        await_generate_content.
      rewrite Hgemini. eexists _, _. split; [reflexivity|].
      by repeat split.
    + unfold try_except. rewrite process_with_openai_run by done.
      rewrite Hopenai, Hchoices. eexists _, _. split; [reflexivity|].
      by repeat split.
Qed.

(** X12. Without a profile, on a registry that is not empty, when the
    history can be replayed and the adapters answer, [process_request]
    returns a response with [success] true, the text of the adapter as
    [content] and the value of the category as [task_type]; one call is
    made; the response is appended to the history in an entry whose
    [success] is true. The entry names the adapter that was selected,
    while [model_used] in the response names the model the request was
    sent as: GPT-3.5-Turbo for an adapter that is neither a GPT model nor
    Gemini. *)
Theorem process_request_success (str_lower : string -> string) (w : World)
    (user_input : string) (task_type : option TaskType)
    (completion : chat_completion) (first : pyval) (others : list pyval)
    (text : pyval) :
  personality (self w) = None ->
  models (self w) <> [] ->
  replayable (conversation_history (self w)) ->
  (forall n req, acreate w n req = Returns completion) ->
  choices completion = first :: others ->
  (forall n prompt, generate_content_async w n prompt = Returns text) ->
  exists category model result w' entry,
    (task_type = Some category \/
     task_type = None /\
     _detect_task_type str_lower user_input w = (Returns category, w)) /\
    _select_best_model category w = (Returns model, w) /\
    process_request str_lower user_input task_type w = (Returns result, w') /\
    result !! "success" = Some (VBool true) /\
    result !! "content"
      = Some (if bool_decide (model = GEMINI_PRO) then text else first) /\
    result !! "model_used" = Some (VStr (dispatched_as model)) /\
    result !! "task_type" = Some (VStr (TaskType_value category)) /\
    conversation_history (self w') =
      last_n 100 (conversation_history (self w) ++ [entry])%list /\
    entry_response entry = result /\
    entry_success entry = VBool true /\
    entry_user_input entry = user_input /\
    entry_model_used entry = AIModel_value model /\
    entry_task_type entry = TaskType_value category /\
    length (calls w') = S (length (calls w)).
Proof.
  intros Hprofile Hregistry Hreplay Hopenai Hchoices Hgemini.
  assert (exists category,
             (task_type = Some category \/
              task_type = None /\
              _detect_task_type str_lower user_input w
                = (Returns category, w)) /\
             match task_type with
             | Some task_type => ret task_type
             | None => _detect_task_type str_lower user_input
             end w = (Returns category, w))
    as (category & Hwhich & Hcategory).
  { destruct task_type as [category|].
    - exists category. split; [by left|done].
    - destruct (detect_task_type_returns str_lower user_input w)
        as (category & Hdetect).
      exists category. split; [by right|done]. }
  destruct (select_best_model_returns category w Hregistry)
    as (model & Hmodel).
  destruct (process_with_model_success model user_input category w completion
              first others text Hreplay Hopenai Hchoices Hgemini)
    as (result & call & Hrun & Hsuccess & Hcontent & Hused & Htask).
  exists category, model, result.
  unfold process_request.
  unfold bind at 1. rewrite Hcategory.
  unfold bind at 1. rewrite Hmodel.
  unfold bind at 1. rewrite Hrun.
  unfold bind at 1, _apply_personality, bind at 1, get_self.
  cbn [log_call self]. rewrite Hprofile. unfold ret at 1.
  unfold bind. rewrite save_to_history_step. unfold ret.
  eexists _,
    (entry_of (now_isoformat w (clock_read w))
       (user_input, result, category, model)).
  split; [exact Hwhich|]. split; [reflexivity|]. split; [reflexivity|].
  repeat (split; [done|]).
  split; [simpl; by rewrite Hsuccess|].
  by repeat split.
Qed.

Lemma process_request_success_witness :
  exists category model result w' entry,
    (@None TaskType = Some category \/
     @None TaskType = None /\
     _detect_task_type ascii_lower "good morning"
       (quiet_world (__init__ false false))
       = (Returns category, quiet_world (__init__ false false))) /\
    _select_best_model category (quiet_world (__init__ false false))
      = (Returns model, quiet_world (__init__ false false)) /\
    process_request ascii_lower "good morning" None
      (quiet_world (__init__ false false)) = (Returns result, w') /\
    result !! "success" = Some (VBool true) /\
    result !! "content"
      = Some (if bool_decide (model = GEMINI_PRO)
              then VStr "Test response from Gemini"
              else VStr "Test response from GPT") /\
    result !! "model_used" = Some (VStr (dispatched_as model)) /\
    result !! "task_type" = Some (VStr (TaskType_value category)) /\
    conversation_history (self w') =
      last_n 100
        (conversation_history (self (quiet_world (__init__ false false)))
         ++ [entry])%list /\
    entry_response entry = result /\
    entry_success entry = VBool true /\
    entry_user_input entry = "good morning" /\
    entry_model_used entry = AIModel_value model /\
    entry_task_type entry = TaskType_value category /\
    length (calls w')
      = S (length (calls (quiet_world (__init__ false false)))).
Proof.
  apply (process_request_success ascii_lower
           (quiet_world (__init__ false false)) "good morning" None
           {| choices := [VStr "Test response from GPT"];
              usage := Some (VInt 10) |}
           (VStr "Test response from GPT") []
           (VStr "Test response from Gemini")).
  - reflexivity.
  - vm_compute. discriminate.
  - intros entry Hin. vm_compute in Hin. inversion Hin.
  - intros n req. reflexivity.
  - reflexivity.
  - intros n prompt. reflexivity.
Defined.

(** The adapter that is selected and the model a request is sent as
    differ on the engine built without any key. *)
Lemma process_request_local_adapter :
  fst (process_request ascii_lower "good morning" None
         (quiet_world (__init__ false false)))
    = Returns {[ "success" := VBool true;
                 "content" := VStr "Test response from GPT";
                 "model_used" := VStr "gpt-3.5-turbo";
                 "task_type" := VStr "conversation";
                 "tokens_used" := VInt 10 ]} /\
  entry_model_used <$>
    last (conversation_history
            (self (snd (process_request ascii_lower "good morning" None
                          (quiet_world (__init__ false false))))))
    = Some "llama-2-70b".
Proof. split; vm_compute; reflexivity. Qed.

(** X13. With a profile whose formality level is below 0.5, when the
    adapters answer with a content that is [None], [process_request]
    raises the [AttributeError] of [content.lower()]: the call has been
    made and nothing is appended to the history. *)
Theorem process_request_content_None (str_lower : string -> string)
    (w : World) (user_input : string) (task_type : option TaskType)
    (p : PersonalityProfile) (completion : chat_completion)
    (others : list pyval) :
  personality (self w) = Some p ->
  (formality_level p < 0.5)%Q ->
  models (self w) <> [] ->
  replayable (conversation_history (self w)) ->
  (forall n req, acreate w n req = Returns completion) ->
  choices completion = VNone :: others ->
  (forall n prompt, generate_content_async w n prompt = Returns VNone) ->
  exists w',
    process_request str_lower user_input task_type w =
    (Raises (AttributeError "'NoneType' object has no attribute 'lower'"),
     w') /\
    conversation_history (self w') = conversation_history (self w) /\
    length (calls w') = S (length (calls w)).
Proof.
  intros Hprofile Hformal Hregistry Hreplay Hopenai Hchoices Hgemini.
  apply Qltb_lt in Hformal.
  assert (exists category,
             match task_type with
             | Some task_type => ret task_type
             | None => _detect_task_type str_lower user_input
             end w = (Returns category, w)) as (category & Hcategory).
  { destruct task_type as [category|]; [by eexists|].
    apply detect_task_type_returns. }
  destruct (select_best_model_returns category w Hregistry)
    as (model & Hmodel).
  destruct (process_with_model_success model user_input category w completion
              VNone others VNone Hreplay Hopenai Hchoices Hgemini)
    as (result & call & Hrun & Hsuccess & Hcontent & _).
  assert (result !! "content" = Some VNone) as Hnone
    by (rewrite Hcontent; by destruct (bool_decide _)).
  unfold process_request.
  unfold bind at 1. rewrite Hcategory.
  unfold bind at 1. rewrite Hmodel.
  unfold bind at 1. rewrite Hrun.
  unfold bind at 1, _apply_personality, bind at 1, get_self.
  cbn [log_call self]. rewrite Hprofile.
  unfold get_or_None. rewrite Hsuccess. cbn [default truthy negb].
  unfold getitem. rewrite Hnone. unfold bind at 1, ret at 1.
  unfold bind at 1, informal_style. rewrite Hformal.
  unfold bind at 1, lower_method, raise.
  eexists. split; [reflexivity|]. by split.
Qed.

Lemma process_request_content_None_witness :
  exists w',
    process_request ascii_lower "hello" None
      (world_around
         (with_personality (friendly_profile "female" "Aria")
            (__init__ true true))
         (Returns {| choices := [VNone]; usage := None |}) (Returns VNone)
         (fun _ => 0.5%Q) (fun _ => 0%nat)) =
    (Raises (AttributeError "'NoneType' object has no attribute 'lower'"),
     w') /\
    conversation_history (self w') =
      conversation_history
        (self (world_around
                 (with_personality (friendly_profile "female" "Aria")
                    (__init__ true true))
                 (Returns {| choices := [VNone]; usage := None |})
                 (Returns VNone) (fun _ => 0.5%Q) (fun _ => 0%nat))) /\
    length (calls w') =
      S (length (calls
                   (world_around
                      (with_personality (friendly_profile "female" "Aria")
                         (__init__ true true))
                      (Returns {| choices := [VNone]; usage := None |})
                      (Returns VNone) (fun _ => 0.5%Q) (fun _ => 0%nat)))).
Proof.
  apply (process_request_content_None ascii_lower
           (world_around
              (with_personality (friendly_profile "female" "Aria")
                 (__init__ true true))
              (Returns {| choices := [VNone]; usage := None |})
              (Returns VNone) (fun _ => 0.5%Q) (fun _ => 0%nat))
           "hello" None (friendly_profile "female" "Aria")
           {| choices := [VNone]; usage := None |} []).
  - reflexivity.
  - vm_compute. reflexivity.
  - vm_compute. discriminate.
  - intros entry Hin. vm_compute in Hin. inversion Hin.
  - intros n req. reflexivity.
  - reflexivity.
  - intros n prompt. reflexivity.
Defined.

(** [_process_with_openai] makes one call at most and changes nothing
    else. *)
Lemma process_with_openai_world (model : AIModel) (user_input : string)
    (task_type : TaskType) (w : World) :
  exists out w',
    _process_with_openai model user_input task_type w = (out, w') /\
    at_most_one_call w w'.
Proof.
  unfold _process_with_openai, bind at 1, get_self.
  set (messages := [_; _]).
  assert ((exists messages',
              (if (0 <? length (conversation_history (self w)))%nat
               then replay_history (last_n 5 (conversation_history (self w)))
                      messages
               else ret messages) w = (Returns messages', w)) \/
          (if (0 <? length (conversation_history (self w)))%nat
           then replay_history (last_n 5 (conversation_history (self w)))
                  messages
           else ret messages) w = (Raises (KeyError "content"), w))
    as [[messages' Hreplay]|Hreplay].
  { destruct (0 <? length (conversation_history (self w)))%nat.
    - apply replay_history_outcome.
    - left. by eexists. }
  - unfold bind at 1. rewrite Hreplay.
    unfold bind at 1, await_acreate.
    destruct (acreate _ _ _) as [response|e].
    + unfold bind. destruct (choices response);
        eexists _, _; (split; [reflexivity|]); right; by eexists.
    + eexists _, _. split; [reflexivity|]. right. by eexists.
  - unfold bind at 1. rewrite Hreplay.
    eexists _, _. split; [reflexivity|]. by left.
Qed.

(** [_process_with_model] lets through no instance of [Exception]. *)
Lemma process_with_model_outcome (model : AIModel) (user_input : string)
    (task_type : TaskType) (w : World) :
  exists out w',
    _process_with_model model user_input task_type w = (out, w') /\
    at_most_one_call w w' /\
    match out with
    | Returns _ => True
    | Raises e => exn_is_Exception e = false
    end.
Proof.
  assert (forall sent,
    exists out w',
      try_except (_process_with_openai sent user_input task_type)
        (fun e =>
           ret ({[ "success" := VBool false;
                   "error" := VStr (exn_str e);
                   "fallback_response" := VStr fallback_apology ]}
                : Response)) w = (out, w') /\
      at_most_one_call w w' /\
      match out with
      | Returns _ => True
      | Raises e => exn_is_Exception e = false
      end) as Hopenai.
  { intros sent.
    destruct (process_with_openai_world sent user_input task_type w)
      as (out & w' & Hrun & Hcalls).
    unfold try_except. rewrite Hrun.
    destruct out as [result|e]; [by eexists _, _|].
    destruct (exn_is_Exception e) eqn:Hcaught; by eexists _, _. }
  unfold _process_with_model.
  destruct (bool_decide (model ∈ [GPT4; GPT35_TURBO])); [apply Hopenai|].
  destruct (bool_decide (model = GEMINI_PRO)); [|apply Hopenai].
  unfold try_except at 1, _process_with_gemini, try_except, bind,
    await_generate_content.
  destruct (generate_content_async _ _ _) as [text|e].
  - eexists _, _. split; [reflexivity|]. split; [right; by eexists|done].
  - destruct (exn_is_Exception e) eqn:Hcaught.
    + eexists _, _. split; [reflexivity|]. split; [right; by eexists|done].
    + rewrite Hcaught. eexists _, _. split; [reflexivity|].
      split; [right; by eexists|done].
Qed.

(** X14. Without a profile, on a registry that is not empty, whatever the
    adapters do, [process_request] either returns a response, which is
    then the response of the entry it has appended to the history, or
    raises an exception that is not an instance of [Exception], and then
    the history is unchanged. *)
Theorem process_request_without_profile (str_lower : string -> string)
    (w : World) (user_input : string) (task_type : option TaskType) :
  personality (self w) = None ->
  models (self w) <> [] ->
  (exists result w' entry,
      process_request str_lower user_input task_type w = (Returns result, w')
      /\ conversation_history (self w') =
           last_n 100 (conversation_history (self w) ++ [entry])%list
      /\ entry_response entry = result
      /\ entry_user_input entry = user_input) \/
  (exists e w',
      process_request str_lower user_input task_type w = (Raises e, w')
      /\ exn_is_Exception e = false
      /\ conversation_history (self w') = conversation_history (self w)).
Proof.
  intros Hprofile Hregistry.
  assert (exists category,
             match task_type with
             | Some task_type => ret task_type
             | None => _detect_task_type str_lower user_input
             end w = (Returns category, w)) as (category & Hcategory).
  { destruct task_type as [category|]; [by eexists|].
    apply detect_task_type_returns. }
  destruct (select_best_model_returns category w Hregistry)
    as (model & Hmodel).
  destruct (process_with_model_outcome model user_input category w)
    as (out & w1 & Hrun & Hcalls & Hout).
  assert (self w1 = self w /\ now_isoformat w1 = now_isoformat w /\
          clock_read w1 = clock_read w) as (Hself & Hnow & Hclock)
    by (destruct Hcalls as [->|[call ->]]; done).
  destruct out as [result|e].
  - left. unfold process_request.
    unfold bind at 1. rewrite Hcategory.
    unfold bind at 1. rewrite Hmodel.
    unfold bind at 1. rewrite Hrun.
    unfold bind at 1, _apply_personality, bind at 1, get_self.
    rewrite Hself, Hprofile. unfold ret at 1.
    unfold bind. rewrite save_to_history_step. unfold ret.
    eexists result, _,
      (entry_of (now_isoformat w (clock_read w))
         (user_input, result, category, model)).
    split; [reflexivity|].
    cbn [with_self self conversation_history].
    rewrite Hself, Hnow, Hclock. by repeat split.
  - right. exists e, w1. rewrite Hself. unfold process_request.
    unfold bind at 1. rewrite Hcategory.
    unfold bind at 1. rewrite Hmodel.
    unfold bind at 1. rewrite Hrun. by repeat split.
Qed.

Lemma process_request_without_profile_witness :
  (exists result w' entry,
      process_request ascii_lower "hello" None
        (quiet_world (__init__ true true)) = (Returns result, w')
      /\ conversation_history (self w') =
           last_n 100
             (conversation_history (self (quiet_world (__init__ true true)))
              ++ [entry])%list
      /\ entry_response entry = result
      /\ entry_user_input entry = "hello") \/
  (exists e w',
      process_request ascii_lower "hello" None
        (quiet_world (__init__ true true)) = (Raises e, w')
      /\ exn_is_Exception e = false
      /\ conversation_history (self w') =
           conversation_history (self (quiet_world (__init__ true true)))).
Proof.
  apply (process_request_without_profile ascii_lower
           (quiet_world (__init__ true true)) "hello" None).
  - reflexivity.
  - vm_compute. discriminate.
Defined.

(** ** The personality, further *)

Lemma humor_world (p : PersonalityProfile) (task_type : TaskType)
    (w : World) :
  humor p task_type w = (Returns tt, w) \/
  humor p task_type w = (Returns tt, use_random w).
Proof.
  unfold humor, bind, random_random.
  destruct (Qltb f0_6 (humor_level p)
            && bool_decide (task_type ∈ [CONVERSATION; CREATIVE_WRITING]));
    [|by left].
  right. by destruct (Qltb (random_draws w (random_used w)) f0_2).
Qed.

(** X15. With a profile whose formality level is 0.5 or more, for a
    category other than psychological support or an empathy level of 0.8
    or less, [_apply_personality] leaves the content of a successful
    response as it is, whatever it is, and every other key too: it only
    adds [personality_applied] and [personality_name]. It makes no call
    and leaves the engine as it is. *)
Theorem apply_personality_formal (str_lower : string -> string) (w : World)
    (result : Response) (task_type : TaskType) (p : PersonalityProfile) :
  personality (self w) = Some p ->
  (0.5 <= formality_level p)%Q ->
  task_type <> PSYCHOLOGICAL_SUPPORT \/ (empathy_level p <= f0_8)%Q ->
  truthy (get_or_None result "success") = true ->
  is_Some (result !! "content") ->
  exists w',
    _apply_personality str_lower result task_type w =
    (Returns (<["personality_name" := VStr (name p)]>
                (<["personality_applied" := VBool true]> result)), w') /\
    self w' = self w /\
    calls w' = calls w.
Proof.
  intros Hprofile Hformal Hempathy Hsuccess [content Hcontent].
  apply Qltb_ge in Hformal.
  unfold _apply_personality, bind at 1, get_self.
  rewrite Hprofile, Hsuccess. cbn [negb].
  unfold getitem. rewrite Hcontent. unfold bind at 1, ret at 1.
  unfold bind at 1, informal_style. rewrite Hformal. unfold ret at 1.
  unfold bind at 1, emotional_elements.
  assert (bool_decide (task_type = PSYCHOLOGICAL_SUPPORT)
          && Qltb f0_8 (empathy_level p) = false) as ->.
  { destruct Hempathy as [Hne|Hlow].
    - by rewrite bool_decide_eq_false_2.
    - apply Qltb_ge in Hlow. rewrite Hlow. apply andb_false_r. }
  unfold ret at 1. unfold bind.
  rewrite (insert_id result "content" content Hcontent).
  destruct (humor_world p task_type w) as [-> | ->]; by eexists.
Qed.

Lemma apply_personality_formal_witness :
  exists w',
    _apply_personality ascii_lower
      ({[ "success" := VBool true; "content" := VStr "Hello there" ]}
       : Response)
      PSYCHOLOGICAL_SUPPORT
      (quiet_world
         (with_personality
            {| gender := "male"; name := "Robert";
               personality_traits := []; communication_style := "";
               expertise_areas := [];
               emotional_intelligence := f0_6; humor_level := f0_3;
               formality_level := f0_8; empathy_level := f0_6 |}
            (__init__ true true))) =
    (Returns (<["personality_name" := VStr "Robert"]>
                (<["personality_applied" := VBool true]>
                   ({[ "success" := VBool true;
                       "content" := VStr "Hello there" ]} : Response))),
     w') /\
    self w' =
      self (quiet_world
              (with_personality
                 {| gender := "male"; name := "Robert";
                    personality_traits := []; communication_style := "";
                    expertise_areas := [];
                    emotional_intelligence := f0_6; humor_level := f0_3;
                    formality_level := f0_8; empathy_level := f0_6 |}
                 (__init__ true true))) /\
    calls w' =
      calls (quiet_world
               (with_personality
                  {| gender := "male"; name := "Robert";
                     personality_traits := []; communication_style := "";
                     expertise_areas := [];
                     emotional_intelligence := f0_6; humor_level := f0_3;
                     formality_level := f0_8; empathy_level := f0_6 |}
                  (__init__ true true))).
Proof.
  apply (apply_personality_formal ascii_lower
           (quiet_world
              (with_personality
                 {| gender := "male"; name := "Robert";
                    personality_traits := []; communication_style := "";
                    expertise_areas := [];
                    emotional_intelligence := f0_6; humor_level := f0_3;
                    formality_level := f0_8; empathy_level := f0_6 |}
                 (__init__ true true)))
           _ PSYCHOLOGICAL_SUPPORT
           {| gender := "male"; name := "Robert";
              personality_traits := []; communication_style := "";
              expertise_areas := [];
              emotional_intelligence := f0_6; humor_level := f0_3;
              formality_level := f0_8; empathy_level := f0_6 |}).
  - reflexivity.
  - vm_compute. discriminate.
  - right. vm_compute. discriminate.
  - vm_compute. reflexivity.
  - vm_compute. by eexists.
Defined.

(** ** The conversation store, further *)

(** X16. From a history of at most one hundred entries, any number of
    calls of [_save_to_history] in a row all return and leave the last
    hundred entries of the old history followed by the new entries, in
    order; the clock has been read once per call, and the registry, the
    profile and the call log are unchanged. *)
Theorem save_all_fifo (saved : list (string * Response * TaskType * AIModel))
    (w : World) :
  length (conversation_history (self w)) <= 100 ->
  exists w',
    save_all saved w = (Returns tt, w') /\
    conversation_history (self w') =
      last_n 100
        (conversation_history (self w) ++
         saved_entries (now_isoformat w) (clock_read w) saved)%list /\
    clock_read w' = clock_read w + length saved /\
    models (self w') = models (self w) /\
    personality (self w') = personality (self w) /\
    calls w' = calls w.
Proof.
  revert w.
  induction saved as [|[[[user_input response] task_type] model_used] saved IH];
    intros w Hbound.
  - exists w. cbn [save_all saved_entries length]. rewrite app_nil_r.
    rewrite last_n_short by exact Hbound.
    split; [done|]. split; [done|]. split; [lia|done].
  - cbn [save_all saved_entries]. unfold bind.
    rewrite save_to_history_step.
    match goal with |- context [save_all saved ?w1] =>
      destruct (IH w1) as (w' & Hrun & Hhistory & Hclock & Hrest) end.
    { cbn [with_self self conversation_history]. apply last_n_length. }
    exists w'. split; [exact Hrun|].
    cbn [with_self read_clock self conversation_history now_isoformat
           clock_read models personality calls] in *.
    split.
    { rewrite Hhistory, last_n_app_last_n. by rewrite <- app_assoc. }
    split; [rewrite Hclock; simpl; lia | exact Hrest].
Qed.

Lemma save_all_fifo_witness :
  exists w',
    save_all numbered_requests
      (quiet_world {| models := _initialize_models true true;
                      personality := None;
                      conversation_history := [failed_entry] |})
      = (Returns tt, w') /\
    conversation_history (self w') =
      last_n 100
        ([failed_entry] ++
         saved_entries pretty 0 numbered_requests)%list /\
    clock_read w' = 0 + length numbered_requests /\
    models (self w') = _initialize_models true true /\
    personality (self w') = None /\
    calls w' = [].
Proof.
  apply (save_all_fifo numbered_requests
           (quiet_world {| models := _initialize_models true true;
                           personality := None;
                           conversation_history := [failed_entry] |})).
  simpl. lia.
Defined.

(** ** The statistics *)

Lemma dict_get_dict_set {K V : Type} `{EqDecision K} (k k' : K) (v : V)
    (d : list (K * V)) :
  dict_get k (dict_set k' v d) =
  if decide (k = k') then Some v else dict_get k d.
Proof.
  induction d as [|[k0 v0] d IH]; simpl.
  - by destruct (decide (k = k')).
  - destruct (decide (k' = k0)) as [->|Hne]; simpl.
    + by destruct (decide (k = k0)).
    + destruct (decide (k = k0)) as [->|Hne'].
      * by rewrite decide_False by done.
      * exact IH.
Qed.

Lemma dict_set_keys {K V : Type} `{EqDecision K} (k : K) (v : V)
    (d : list (K * V)) :
  map fst (dict_set k v d) =
  if decide (k ∈ map fst d) then map fst d else (map fst d ++ [k])%list.
Proof.
  induction d as [|[k0 v0] d IH]; cbn [dict_set map fst].
  - destruct (decide (k ∈ [])) as [Hin|_]; [inversion Hin|done].
  - destruct (decide (k = k0)) as [->|Hne]; cbn [map fst].
    + destruct (decide (k0 ∈ k0 :: map fst d)) as [_|Hout]; [done|].
      exfalso. apply Hout, list_elem_of_here.
    + rewrite IH.
      destruct (decide (k ∈ map fst d)) as [Hin|Hout];
        destruct (decide (k ∈ k0 :: map fst d)) as [Hin'|Hout']; try done.
      * exfalso. apply Hout'. by apply list_elem_of_further.
      * exfalso. apply elem_of_cons in Hin' as [Heq|Hin']; done.
Qed.

Lemma tally_snoc (keys : list string) (key : string)
    (counts : list (string * Z)) :
  tally (keys ++ [key])%list counts =
  dict_set key (default 0%Z (dict_get key (tally keys counts)) + 1)%Z
    (tally keys counts).
Proof. unfold tally. by rewrite fold_left_app. Qed.

(** What the counting [dict] holds for a key: nothing when the key was
    never counted, its number of occurrences otherwise. *)
Lemma tally_get (keys : list string) (key : string) :
  dict_get key (tally keys []) =
  let n := Z.of_nat (length (filter (fun k => k = key) keys)) in
  if (n =? 0)%Z then None else Some n.
Proof.
  induction keys as [|k keys IH] using rev_ind; [done|].
  rewrite tally_snoc, dict_get_dict_set, filter_app, length_app.
  cbv zeta in *. rewrite filter_cons, filter_nil.
  destruct (decide (key = k)) as [->|Hne].
  - rewrite decide_True by done. rewrite IH. cbn [length].
    set (n := length (filter (fun k0 => k0 = k) keys)).
    assert ((Z.of_nat (n + 1) =? 0)%Z = false) as ->
      by (apply Z.eqb_neq; lia).
    destruct (Z.of_nat n =? 0)%Z eqn:Hzero; cbn [default]; f_equal.
    + apply Z.eqb_eq in Hzero. unfold id. lia.
    + unfold id. lia.
  - rewrite decide_False by congruence. rewrite IH. cbn [length].
    by rewrite Nat.add_0_r.
Qed.

Lemma tally_keys (keys : list string) (key : string) :
  key ∈ map fst (tally keys []) <-> key ∈ keys.
Proof.
  rewrite <- dict_mem_keys. unfold dict_mem. rewrite bool_decide_eq_true.
  rewrite tally_get. cbv zeta.
  destruct (Z.of_nat (length (filter (fun k => k = key) keys)) =? 0)%Z
    eqn:Hzero.
  - split; [intros [? ?]; done|]. intros Hin.
    assert (key ∈ filter (fun k => k = key) keys) as Hfiltered
      by (by apply list_elem_of_filter).
    destruct (filter (fun k => k = key) keys); [inversion Hfiltered|].
    simpl in Hzero. lia.
  - split; [|by eexists]. intros _.
    destruct (filter (fun k => k = key) keys) as [|k rest] eqn:E;
      [simpl in Hzero; lia|].
    assert (k ∈ filter (fun k => k = key) keys) as Hfiltered
      by (rewrite E; apply list_elem_of_here).
    by apply list_elem_of_filter in Hfiltered as [-> Hin].
Qed.

(** The keys of the counting [dict] are in the order in which they were
    first counted. *)
Lemma tally_first_counted (keys : list string) (before : list string)
    (key : string) (after : list string) :
  map fst (tally keys []) = (before ++ key :: after)%list ->
  exists keys1 keys2,
    keys = (keys1 ++ key :: keys2)%list /\
    (key ∉ keys1) /\
    forall k, k ∈ keys1 -> k ∈ before.
Proof.
  revert before after.
  induction keys as [|k keys IH] using rev_ind; intros before after Hsplit.
  - by destruct before.
  - rewrite tally_snoc, dict_set_keys in Hsplit.
    destruct (decide (k ∈ map fst (tally keys []))) as [Hin|Hout].
    + destruct (IH _ _ Hsplit) as (keys1 & keys2 & -> & Hfresh & Hbefore).
      exists keys1, (keys2 ++ [k])%list. split; [|done].
      by rewrite <- app_assoc.
    + destruct after as [|last after] using rev_ind.
      * apply app_inj_tail in Hsplit as [Hkeys ->].
        exists keys, []. split; [done|]. split.
        -- intros Hin. apply Hout. by apply tally_keys.
        -- intros k' Hin. rewrite <- Hkeys. by apply tally_keys.
      * clear IHafter.
        replace (before ++ key :: after ++ [last])%list
          with ((before ++ key :: after) ++ [last])%list in Hsplit
          by (by rewrite <- app_assoc).
        apply app_inj_tail in Hsplit as [Hkeys _].
        destruct (IH _ _ Hkeys) as (keys1 & keys2 & -> & Hfresh & Hbefore).
        exists keys1, (keys2 ++ [k])%list. split; [|done].
        by rewrite <- app_assoc.
Qed.

Lemma fold_count_entry (history : list entry)
    (task_counts model_usage : list (string * Z)) (success_rate : Z) :
  fold_left count_entry history (task_counts, model_usage, success_rate) =
  (tally (map entry_task_type history) task_counts,
   tally (map entry_model_used history) model_usage,
   (success_rate + successes history)%Z).
Proof.
  revert task_counts model_usage success_rate.
  induction history as [|entry history IH];
    intros task_counts model_usage success_rate.
  - unfold successes. simpl. f_equal. lia.
  - cbn [fold_left count_entry map]. rewrite IH.
    unfold tally at 3 4. cbn [fold_left]. f_equal.
    unfold successes. rewrite filter_cons.
    destruct (truthy (entry_success entry)).
    + rewrite decide_True by done. simpl length. lia.
    + rewrite decide_False by done. lia.
Qed.

Lemma filter_map_length {A : Type} (f : A -> string) (value : string)
    (xs : list A) :
  length (filter (fun k => k = value) (map f xs)) =
  length (filter (fun x => f x = value) xs).
Proof.
  induction xs as [|x xs IH]; [done|].
  cbn [map]. rewrite !filter_cons.
  destruct (decide (f x = value)); simpl; by rewrite IH.
Qed.

Lemma tally_field (field : entry -> string) (history : list entry)
    (value : string) :
  dict_get value (tally (map field history) []) =
  if (occurrences_of field value history =? 0)%Z then None
  else Some (occurrences_of field value history).
Proof.
  rewrite tally_get. cbv zeta. unfold occurrences_of.
  by rewrite filter_map_length.
Qed.

(** The run of [get_conversation_stats] on a history that is not empty. *)
Lemma conversation_stats_run (format_success_rate : Z -> Z -> string)
    (w : World) :
  conversation_history (self w) <> [] ->
  get_conversation_stats format_success_rate w =
  (Returns
     {[ "total_conversations" :=
          SInt (Z.of_nat (length (conversation_history (self w))));
        "task_distribution" :=
          SCounts (tally (map entry_task_type (conversation_history (self w)))
                     []);
        "model_usage" :=
          SCounts (tally (map entry_model_used
                            (conversation_history (self w))) []);
        "success_rate" :=
          SStr (format_success_rate
                  (successes (conversation_history (self w)))
                  (Z.of_nat (length (conversation_history (self w)))));
        "most_used_task" :=
          most_used (tally (map entry_task_type
                              (conversation_history (self w))) []);
        "most_used_model" :=
          most_used (tally (map entry_model_used
                              (conversation_history (self w))) []) ]}, w).
Proof.
  intros Hhistory. unfold get_conversation_stats, bind, get_self.
  destruct (conversation_history (self w)) as [|entry history] eqn:E;
    [done|].
  rewrite fold_count_entry. by rewrite Z.add_0_l.
Qed.

(** X17. On a history that is not empty the statistics report the number
    of entries; for each category and each adapter the number of entries
    that name it, and no key for one that no entry names; and the success
    rate formatted from the number of entries whose [success] is truthy
    and the number of entries. *)
Theorem conversation_stats_counts (format_success_rate : Z -> Z -> string)
    (w : World) :
  conversation_history (self w) <> [] ->
  exists stats task_counts model_usage,
    get_conversation_stats format_success_rate w = (Returns stats, w) /\
    stats !! "total_conversations" =
      Some (SInt (Z.of_nat (length (conversation_history (self w))))) /\
    stats !! "task_distribution" = Some (SCounts task_counts) /\
    stats !! "model_usage" = Some (SCounts model_usage) /\
    stats !! "success_rate" =
      Some (SStr (format_success_rate
                    (successes (conversation_history (self w)))
                    (Z.of_nat (length (conversation_history (self w)))))) /\
    (forall value,
        dict_get value task_counts =
        if (occurrences_of entry_task_type value
              (conversation_history (self w)) =? 0)%Z
        then None
        else Some (occurrences_of entry_task_type value
                     (conversation_history (self w)))) /\
    (forall value,
        dict_get value model_usage =
        if (occurrences_of entry_model_used value
              (conversation_history (self w)) =? 0)%Z
        then None
        else Some (occurrences_of entry_model_used value
                     (conversation_history (self w)))).
Proof.
  intros Hhistory.
  rewrite (conversation_stats_run format_success_rate w Hhistory).
  eexists _, _, _. split; [reflexivity|].
  split; [reflexivity|]. split; [reflexivity|]. split; [reflexivity|].
  split; [reflexivity|]. split; intros value; apply tally_field.
Qed.

Lemma occurrences_of_nonneg (field : entry -> string) (value : string)
    (history : list entry) :
  (0 <= occurrences_of field value history)%Z.
Proof. unfold occurrences_of. lia. Qed.

Lemma tally_count (field : entry -> string) (history : list entry)
    (value : string) :
  default 0%Z (dict_get value (tally (map field history) []))
  = occurrences_of field value history.
Proof.
  rewrite tally_field.
  destruct (occurrences_of field value history =? 0)%Z eqn:Hzero; [|done].
  apply Z.eqb_eq in Hzero. by rewrite Hzero.
Qed.

(** The key [most_used] picks in the counting [dict] of a field. *)
Lemma most_used_first_greatest (field : entry -> string)
    (history : list entry) :
  history <> [] ->
  exists value,
    most_used (tally (map field history) []) = SStr value /\
    first_most_frequent field history value.
Proof.
  intros Hhistory. unfold most_used.
  set (counts := tally (map field history) []).
  assert (forall k, default 0%Z (dict_get k counts)
                    = occurrences_of field k history) as Hkey
    by (intros k; apply tally_count).
  destruct (map fst counts) as [|x rest] eqn:Ekeys.
  - exfalso. destruct history as [|entry history]; [done|].
    assert (field entry ∈ map fst counts) as Hin
      by (apply tally_keys; apply list_elem_of_here).
    rewrite Ekeys in Hin. inversion Hin.
  - set (key := fun k => default 0%Z (dict_get k counts)).
    destruct (max_from_first_maximal Z.gtb key Zgtb_trans Zgtb_above x rest)
      as (before & after & Hsplit & Hbefore & Hafter).
    set (value := max_from Z.gtb key x rest) in *.
    exists value. split; [done|].
    rewrite <- Ekeys in Hsplit.
    destruct (tally_first_counted _ _ _ _ Hsplit)
      as (keys1 & keys2 & Hkeys & Hfresh & Hearlier).
    apply fmap_app_inv in Hkeys as (history1 & rest2 & -> & Hrest & ->).
    symmetry in Hrest.
    apply fmap_cons_inv in Hrest as (entry & history2 & Hfield & -> & ->).
    exists history1, entry, history2.
    split; [done|]. split; [done|]. split.
    { intros earlier Hin Heq. apply Hfresh. rewrite <- Heq.
      by apply list_elem_of_fmap_2. }
    split.
    { intros other.
      destruct (decide (other ∈ map fst counts)) as [Hin|Hout].
      - rewrite Hsplit in Hin. apply elem_of_app in Hin as [Hin|Hin].
        + specialize (Hbefore _ Hin). unfold key in Hbefore.
          rewrite !Hkey in Hbefore. lia.
        + apply elem_of_cons in Hin as [->|Hin]; [lia|].
          specialize (Hafter _ Hin). unfold key in Hafter.
          rewrite !Hkey in Hafter. lia.
      - assert (occurrences_of field other
                  (history1 ++ entry :: history2) = 0%Z) as ->.
        { rewrite <- Hkey.
          by rewrite dict_get_fresh. }
        apply occurrences_of_nonneg. }
    intros earlier Hin.
    assert (field earlier ∈ before) as Hin'
      by (apply Hearlier; by apply list_elem_of_fmap_2).
    specialize (Hbefore _ Hin'). unfold key in Hbefore.
    rewrite !Hkey in Hbefore. lia.
Qed.

(** X18. On a history that is not empty the statistics name as most used
    category, and as most used adapter, the one with the most entries; of
    several with as many, the one whose first entry is the earliest. *)
Theorem conversation_stats_most_used
    (format_success_rate : Z -> Z -> string) (w : World) :
  conversation_history (self w) <> [] ->
  exists stats task model,
    get_conversation_stats format_success_rate w = (Returns stats, w) /\
    stats !! "most_used_task" = Some (SStr task) /\
    first_most_frequent entry_task_type (conversation_history (self w)) task /\
    stats !! "most_used_model" = Some (SStr model) /\
    first_most_frequent entry_model_used (conversation_history (self w)) model.
Proof.
  intros Hhistory.
  rewrite (conversation_stats_run format_success_rate w Hhistory).
  destruct (most_used_first_greatest entry_task_type _ Hhistory)
    as (task & Htask & Htask_first).
  destruct (most_used_first_greatest entry_model_used _ Hhistory)
    as (model & Hmodel & Hmodel_first).
  rewrite Htask, Hmodel.
  eexists _, task, model. split; [reflexivity|].
  split; [reflexivity|]. split; [exact Htask_first|].
  split; [reflexivity | exact Hmodel_first].
Qed.

Lemma conversation_stats_counts_witness :
  exists stats task_counts model_usage,
    get_conversation_stats (fun _ _ => "0.0%")
      (quiet_world {| models := _initialize_models true true;
                      personality := None;
                      conversation_history := [failed_entry] |})
      = (Returns stats,
         quiet_world {| models := _initialize_models true true;
                        personality := None;
                        conversation_history := [failed_entry] |}) /\
    stats !! "total_conversations" =
      Some (SInt (Z.of_nat (length [failed_entry]))) /\
    stats !! "task_distribution" = Some (SCounts task_counts) /\
    stats !! "model_usage" = Some (SCounts model_usage) /\
    stats !! "success_rate" =
      Some (SStr ((fun _ _ => "0.0%") (successes [failed_entry])
                    (Z.of_nat (length [failed_entry])))) /\
    (forall value,
        dict_get value task_counts =
        if (occurrences_of entry_task_type value [failed_entry] =? 0)%Z
        then None
        else Some (occurrences_of entry_task_type value [failed_entry])) /\
    (forall value,
        dict_get value model_usage =
        if (occurrences_of entry_model_used value [failed_entry] =? 0)%Z
        then None
        else Some (occurrences_of entry_model_used value [failed_entry])).
Proof.
  apply (conversation_stats_counts (fun _ _ => "0.0%")
           (quiet_world {| models := _initialize_models true true;
                           personality := None;
                           conversation_history := [failed_entry] |})).
  simpl. discriminate.
Defined.

Lemma conversation_stats_most_used_witness :
  exists stats task model,
    get_conversation_stats (fun _ _ => "100.0%")
      (quiet_world {| models := _initialize_models true true;
                      personality := None;
                      conversation_history := tied_history |})
      = (Returns stats,
         quiet_world {| models := _initialize_models true true;
                        personality := None;
                        conversation_history := tied_history |}) /\
    stats !! "most_used_task" = Some (SStr task) /\
    first_most_frequent entry_task_type
      (conversation_history
         (self (quiet_world {| models := _initialize_models true true;
                               personality := None;
                               conversation_history := tied_history |})))
      task /\
    stats !! "most_used_model" = Some (SStr model) /\
    first_most_frequent entry_model_used
      (conversation_history
         (self (quiet_world {| models := _initialize_models true true;
                               personality := None;
                               conversation_history := tied_history |})))
      model.
Proof.
  apply (conversation_stats_most_used (fun _ _ => "100.0%")
           (quiet_world {| models := _initialize_models true true;
                           personality := None;
                           conversation_history := tied_history |})).
  discriminate.
Defined.

(** ** The profile and the catalogue *)

Lemma dict_get_Some_elem {K V : Type} `{EqDecision K} (k : K) (v : V)
    (d : list (K * V)) :
  dict_get k d = Some v -> (k, v) ∈ d.
Proof.
  induction d as [|[k' v'] d IH]; [done|]. simpl.
  destruct (decide (k = k')) as [->|Hne].
  - intros Hsome. injection Hsome as ->. apply list_elem_of_here.
  - intros Hsome. apply list_elem_of_further. by apply IH.
Qed.

Lemma personality_configs_bounded (key : string)
    (config : personality_config) :
  (key, config) ∈ personality_configs ->
  (0 <= config_empathy_level config <= 1)%Q /\
  (0 <= config_humor_level config <= 1)%Q /\
  (0 <= config_formality_level config <= 1)%Q.
Proof.
  intros Hin. unfold personality_configs in Hin.
  repeat (apply elem_of_cons in Hin as [Hin|Hin];
          [injection Hin as _ ->; repeat split; vm_compute; discriminate|]).
  inversion Hin.
Qed.

Lemma choose_name_pool (chosen : string) (w : World) :
  exists picked,
    choose_name chosen w = (Returns picked, use_random w) /\
    picked ∈ names_for chosen.
Proof.
  unfold choose_name, names_for.
  destruct (String.eqb chosen "female");
    [|destruct (String.eqb chosen "male")];
    apply random_choice_elem.
Qed.

(** The run of [setup_personality] once the name is known. *)
Lemma setup_personality_run (chosen : string) (given : option string)
    (personality_type : string) (w : World) :
  exists picked w1,
    match given with
    | Some text =>
        if negb (String.eqb text "") then ret text else choose_name chosen
    | None => choose_name chosen
    end w = (Returns picked, w1) /\
    self w1 = self w /\ calls w1 = calls w /\
    match given with
    | Some text =>
        if String.eqb text ""
        then picked ∈ names_for chosen /\ w1 = use_random w
        else picked = text /\ w1 = w
    | None => picked ∈ names_for chosen /\ w1 = use_random w
    end.
Proof.
  destruct given as [text|].
  - destruct (String.eqb text "") eqn:Hempty; cbn [negb].
    + destruct (choose_name_pool chosen w) as (picked & -> & Hin).
      by exists picked, (use_random w).
    + by exists text, w.
  - destruct (choose_name_pool chosen w) as (picked & -> & Hin).
    by exists picked, (use_random w).
Qed.

(** X19. [setup_personality] always returns: it installs the profile it
    returns and touches neither the registry, the history nor the call
    log. The profile has the gender that was asked; its emotional
    intelligence is its empathy level; its three levels lie between 0
    and 1, whatever type was asked. A name that is given and not empty is
    kept and no random draw is made; without a name, or with the empty
    name, the name is drawn from the pool of the gender, with one use of
    the generator. *)
Theorem setup_personality_profile (chosen : string) (given : option string)
    (personality_type : string) (w : World) :
  exists p w',
    setup_personality chosen given personality_type w = (Returns p, w') /\
    personality (self w') = Some p /\
    models (self w') = models (self w) /\
    conversation_history (self w') = conversation_history (self w) /\
    calls w' = calls w /\
    gender p = chosen /\
    emotional_intelligence p = empathy_level p /\
    (0 <= empathy_level p <= 1)%Q /\
    (0 <= humor_level p <= 1)%Q /\
    (0 <= formality_level p <= 1)%Q /\
    match given with
    | Some text =>
        if String.eqb text ""
        then name p ∈ names_for chosen /\
             random_used w' = S (random_used w)
        else name p = text /\ random_used w' = random_used w
    | None =>
        name p ∈ names_for chosen /\ random_used w' = S (random_used w)
    end.
Proof.
  destruct (setup_personality_run chosen given personality_type w)
    as (picked & w1 & Hname & Hself & Hcalls & Hpicked).
  unfold setup_personality, bind at 1. rewrite Hname.
  change (dict_get "friendly" personality_configs)
    with (Some {| config_traits := ["دوستانه"; "مهربان"; "صبور"; "کمک‌کار"];
                  config_communication_style := "گرم و صمیمی";
                  config_empathy_level := f0_9;
                  config_humor_level := f0_7;
                  config_formality_level := f0_3 |}).
  cbv beta iota.
  set (friendly := {| config_traits := _ |}).
  set (config :=
         default friendly (dict_get personality_type personality_configs)).
  assert (exists key, (key, config) ∈ personality_configs) as [key Hconfig].
  { unfold config.
    destruct (dict_get personality_type personality_configs) as [found|]
      eqn:Hfound.
    - exists personality_type. by apply dict_get_Some_elem.
    - exists "friendly". apply list_elem_of_here. }
  destruct (personality_configs_bounded key config Hconfig)
    as (Hempathy & Hhumor & Hformality).
  unfold bind, set_personality, ret.
  eexists _, _. split; [reflexivity|].
  cbn [with_self self personality models conversation_history calls gender
         emotional_intelligence empathy_level humor_level formality_level
         name random_used].
  rewrite Hself, Hcalls.
  repeat (split; [done|]).
  destruct given as [text|].
  - destruct (String.eqb text ""); destruct Hpicked as [Hin ->]; by split.
  - destruct Hpicked as [Hin ->]; by split.
Qed.

(** X20. A personality type that is not one of the three of the table
    gives the profile of the friendly type. *)
Theorem setup_personality_unknown_type (chosen : string)
    (given : option string) (personality_type : string) (w : World) :
  personality_type ∉ ["friendly"; "professional"; "companion"] ->
  setup_personality chosen given personality_type w =
  setup_personality chosen given "friendly" w.
Proof.
  intros Hunknown. unfold setup_personality.
  assert (dict_get personality_type personality_configs = None) as Hnone
    by (by apply dict_get_fresh).
  unfold bind.
  destruct (match given with
            | Some text =>
                if negb (String.eqb text "") then ret text
                else choose_name chosen
            | None => choose_name chosen
            end w) as [[picked|e] w1]; [|done].
  by rewrite Hnone.
Qed.

Lemma setup_personality_unknown_type_witness :
  setup_personality "male" (Some "Robert") "grumpy"
    (quiet_world (__init__ true true)) =
  setup_personality "male" (Some "Robert") "friendly"
    (quiet_world (__init__ true true)).
Proof.
  apply (setup_personality_unknown_type "male" (Some "Robert") "grumpy"
           (quiet_world (__init__ true true))).
  intros Hin.
  repeat (apply elem_of_cons in Hin as [Hin|Hin]; [discriminate Hin|]).
  inversion Hin.
Defined.

(** X21. [get_personality_info] answers with the single key [error] until
    a profile is set. After [setup_personality] with a name it answers
    with that name, the gender and the levels of the profile, the empathy
    level under the key [emotional_intelligence]; it has no key
    [empathy_level] and no key [error]. *)
Theorem personality_info_after_setup (chosen text personality_type : string)
    (w : World) :
  text <> "" ->
  (personality (self w) = None ->
   get_personality_info w
     = (Returns {[ "error" := IStr "No personality configured" ]}, w)) /\
  exists p w' info,
    setup_personality chosen (Some text) personality_type w
      = (Returns p, w') /\
    get_personality_info w' = (Returns info, w') /\
    info !! "name" = Some (IStr text) /\
    info !! "gender" = Some (IStr chosen) /\
    info !! "emotional_intelligence" = Some (IFloat (empathy_level p)) /\
    info !! "humor_level" = Some (IFloat (humor_level p)) /\
    info !! "formality_level" = Some (IFloat (formality_level p)) /\
    info !! "empathy_level" = None /\
    info !! "error" = None.
Proof.
  intros Hname. split.
  { intros Hnone. unfold get_personality_info, bind, get_self.
    by rewrite Hnone. }
  apply String.eqb_neq in Hname.
  unfold setup_personality, bind at 1. rewrite Hname. cbn [negb].
  unfold ret at 1.
  change (dict_get "friendly" personality_configs)
    with (Some {| config_traits := ["دوستانه"; "مهربان"; "صبور"; "کمک‌کار"];
                  config_communication_style := "گرم و صمیمی";
                  config_empathy_level := f0_9;
                  config_humor_level := f0_7;
                  config_formality_level := f0_3 |}).
  cbv beta iota. unfold bind, set_personality, ret.
  eexists _, _, _. split; [reflexivity|].
  unfold get_personality_info, bind, get_self.
  cbn [with_self self personality]. split; [reflexivity|].
  by repeat split.
Qed.

Lemma personality_info_after_setup_witness :
  (personality (self (quiet_world (__init__ true true))) = None ->
   get_personality_info (quiet_world (__init__ true true))
     = (Returns {[ "error" := IStr "No personality configured" ]},
        quiet_world (__init__ true true))) /\
  exists p w' info,
    setup_personality "male" (Some "Robert") "professional"
      (quiet_world (__init__ true true)) = (Returns p, w') /\
    get_personality_info w' = (Returns info, w') /\
    info !! "name" = Some (IStr "Robert") /\
    info !! "gender" = Some (IStr "male") /\
    info !! "emotional_intelligence" = Some (IFloat (empathy_level p)) /\
    info !! "humor_level" = Some (IFloat (humor_level p)) /\
    info !! "formality_level" = Some (IFloat (formality_level p)) /\
    info !! "empathy_level" = None /\
    info !! "error" = None.
Proof.
  apply (personality_info_after_setup "male" "Robert" "professional"
           (quiet_world (__init__ true true))).
  discriminate.
Defined.

Lemma AIModel_value_inj (model model' : AIModel) :
  AIModel_value model = AIModel_value model' -> model = model'.
Proof. destruct model, model'; (done || discriminate). Qed.

Lemma summaries_fold (registry : list (AIModel * model_info))
    (summaries : list (string * model_summary)) :
  NoDup (map fst summaries ++ map (fun entry => AIModel_value (fst entry))
                                  registry) ->
  fold_left
    (fun summaries '(model, info) =>
       dict_set (AIModel_value model) (summary_of info) summaries)
    registry summaries =
  (summaries ++
   map (fun entry => (AIModel_value (fst entry), summary_of (snd entry)))
       registry)%list.
Proof.
  revert summaries.
  induction registry as [|[model info] registry IH]; intros summaries Hnodup.
  - by rewrite app_nil_r.
  - cbn [fold_left map fst snd] in *.
    apply NoDup_app in Hnodup as (Hleft & Hdisjoint & Hright).
    apply NoDup_cons in Hright as [Hfresh Hright].
    rewrite dict_set_fresh.
    2:{ intros Hin. apply (Hdisjoint _ Hin), list_elem_of_here. }
    rewrite IH; [by rewrite <- app_assoc|].
    rewrite map_app. cbn [map fst]. rewrite <- app_assoc. cbn [app].
    apply NoDup_app. split; [done|]. split; [|by apply NoDup_cons].
    intros key Hin. by apply Hdisjoint.
Qed.

(** X22. On a registry without an adapter twice, [get_available_models]
    gives one summary for each adapter, in the order of the registry and
    under the value of the adapter: looking up the value of a registered
    adapter gives a summary with that adapter's own [available] flag, the
    values of its specialties in their order, and its score. It changes
    nothing. *)
Theorem available_models_summaries (w : World) :
  NoDup (map fst (models (self w))) ->
  exists summaries,
    get_available_models w = (Returns summaries, w) /\
    map fst summaries = map AIModel_value (map fst (models (self w))) /\
    forall model info,
      dict_get model (models (self w)) = Some info ->
      exists summary,
        dict_get (AIModel_value model) summaries = Some summary /\
        summary_available summary = available info /\
        summary_specialties summary
          = map TaskType_value (specialties info) /\
        summary_performance_score summary = performance_score info.
Proof.
  intros Hnodup.
  assert (NoDup (map (fun entry : AIModel * model_info =>
                        AIModel_value (fst entry)) (models (self w))))
    as Hvalues.
  { assert (Inj eq eq AIModel_value) as Hinj
      by (intros a b; apply AIModel_value_inj).
    rewrite <- (map_map fst AIModel_value).
    by apply (NoDup_fmap_2 AIModel_value). }
  exists (map (fun entry => (AIModel_value (fst entry), summary_of (snd entry)))
              (models (self w))).
  split; [|split].
  - unfold get_available_models, bind, get_self, ret.
    by rewrite summaries_fold.
  - by rewrite !map_map.
  - intros model info Hfound. exists (summary_of info).
    split; [|done].
    apply dict_get_elem.
    + by rewrite map_map.
    + apply dict_get_Some_elem in Hfound.
      apply list_elem_of_fmap. by exists (model, info).
Qed.

Lemma available_models_summaries_witness :
  exists summaries,
    get_available_models (quiet_world (__init__ true true))
      = (Returns summaries, quiet_world (__init__ true true)) /\
    map fst summaries =
      map AIModel_value
        (map fst (models (self (quiet_world (__init__ true true))))) /\
    forall model info,
      dict_get model (models (self (quiet_world (__init__ true true))))
        = Some info ->
      exists summary,
        dict_get (AIModel_value model) summaries = Some summary /\
        summary_available summary = available info /\
        summary_specialties summary
          = map TaskType_value (specialties info) /\
        summary_performance_score summary = performance_score info.
Proof.
  apply (available_models_summaries (quiet_world (__init__ true true))).
  compute_done.
Defined.

(** ** The personality and the specialties, end to end *)

(** [use_random] moves the generator and nothing else. *)
Lemma iter_use_random (n : nat) (w : World) :
  self (Nat.iter n use_random w) = self w /\
  calls (Nat.iter n use_random w) = calls w /\
  clock_read (Nat.iter n use_random w) = clock_read w /\
  random_used (Nat.iter n use_random w) = (n + random_used w)%nat.
Proof.
  induction n as [|n (IHself & IHcalls & IHclock & IHused)]; [done|].
  rewrite Nat.iter_succ.
  cbn [use_random self calls clock_read random_used].
  rewrite IHused. by repeat split.
Qed.

(** The first block of [_apply_personality], on any content. *)
Lemma informal_style_outcome (str_lower : string -> string)
    (p : PersonalityProfile) (content : pyval) (w : World) :
  exists out n,
    informal_style str_lower p content w = (out, Nat.iter n use_random w) /\
    (n <= 2)%nat /\
    match out with
    | Returns styled =>
        styled = content \/
        exists text starter,
          content = VStr text /\ starter ∈ friendly_starters /\
          styled = VStr (starter ++ ", " ++ text)
    | Raises e =>
        exn_is_Exception e = true /\ forall text, content <> VStr text
    end.
Proof.
  unfold informal_style.
  destruct (Qltb (formality_level p) 0.5);
    [|exists (Returns content), 0%nat; split; [done|]; split; [lia|by left]].
  destruct content as [|b|z|text].
  1-3: eexists (Raises _), 0%nat; split; [reflexivity|]; split; [lia|];
       split; [reflexivity|intros text; discriminate].
  unfold lower_method, bind at 1, ret at 1.
  destruct (negb (existsb _ greetings));
    [|exists (Returns (VStr text)), 0%nat; split; [done|];
      split; [lia|by left]].
  unfold bind at 1, random_random.
  destruct (Qltb (random_draws w (random_used w)) f0_3);
    [|exists (Returns (VStr text)), 1%nat; split; [done|];
      split; [lia|by left]].
  destruct (random_choice_elem "راستش" ["ببین"; "خب"; "Well"; "So"]
              (use_random w)) as (starter & Hchoice & Hin).
  unfold bind. rewrite Hchoice.
  exists (Returns (VStr (starter ++ ", " ++ Py.str (VStr text)))), 2%nat.
  split; [done|]. split; [lia|]. right. by exists text, starter.
Qed.

(** The second block, on any content: it never raises, and draws only for
    psychological support. *)
Lemma emotional_elements_outcome (p : PersonalityProfile)
    (task_type : TaskType) (content : pyval) (w : World) :
  exists final n,
    emotional_elements p task_type content w
      = (Returns final, Nat.iter n use_random w) /\
    (n <= 2)%nat /\
    (task_type <> PSYCHOLOGICAL_SUPPORT -> n = 0%nat) /\
    (final = content \/
     exists phrase,
       phrase ∈ empathy_phrases /\
       final = VStr (phrase ++ ". " ++ Py.str content)).
Proof.
  unfold emotional_elements.
  destruct (bool_decide (task_type = PSYCHOLOGICAL_SUPPORT)) eqn:Htask;
    cbn [andb].
  2:{ exists content, 0%nat. split; [done|]. split; [lia|].
      split; [done|by left]. }
  apply bool_decide_eq_true in Htask.
  destruct (Qltb f0_8 (empathy_level p)).
  2:{ exists content, 0%nat. split; [done|]. split; [lia|].
      split; [done|by left]. }
  unfold bind at 1, random_random.
  destruct (Qltb (random_draws w (random_used w)) f0_4).
  2:{ exists content, 1%nat. split; [done|]. split; [lia|].
      split; [done|by left]. }
  destruct (random_choice_elem "درکت می‌کنم"
              ["حست رو می‌فهمم"; "I understand how you feel";
               "این واقعاً سخته"; "You're not alone in this"]
              (use_random w)) as (phrase & Hchoice & Hin).
  unfold bind. rewrite Hchoice.
  exists (VStr (phrase ++ ". " ++ Py.str content)), 2%nat.
  split; [done|]. split; [lia|]. split; [done|]. right. by exists phrase.
Qed.

(** The third block draws at most once, and only for a conversation or
    creative writing. *)
Lemma humor_outcome (p : PersonalityProfile) (task_type : TaskType)
    (w : World) :
  exists n,
    humor p task_type w = (Returns tt, Nat.iter n use_random w) /\
    (n <= 1)%nat /\
    (task_type = PSYCHOLOGICAL_SUPPORT -> n = 0%nat).
Proof.
  unfold humor, bind, random_random.
  destruct (bool_decide (task_type ∈ [CONVERSATION; CREATIVE_WRITING]))
    eqn:Htask.
  - apply bool_decide_eq_true in Htask.
    destruct (Qltb f0_6 (humor_level p)); cbn [andb].
    + exists 1%nat.
      destruct (Qltb (random_draws w (random_used w)) f0_2);
        (split; [done|]); (split; [lia|]); intros ->;
        repeat (apply elem_of_cons in Htask as [Htask|Htask];
                [discriminate Htask|]); inversion Htask.
    + exists 0%nat. split; [done|]. split; [lia|done].
  - rewrite andb_false_r. exists 0%nat. split; [done|]. split; [lia|done].
Qed.

Lemma iter_use_random_add (n m : nat) (w : World) :
  Nat.iter n use_random (Nat.iter m use_random w)
  = Nat.iter (m + n) use_random w.
Proof.
  induction n as [|n IH].
  - by rewrite Nat.add_0_r.
  - by rewrite Nat.add_succ_r, !Nat.iter_succ, IH.
Qed.

(** X23. [_apply_personality] touches nothing but the random generator,
    which it uses four times at most: it makes no adapter call and leaves
    the engine, the call log and the clock as they are. What it returns is
    the response it was given, or that response with [content] set and the
    two annotations of the profile added. It raises only for a successful
    response that has no [content] or whose [content] is not a [str], and
    what it raises then is an instance of [Exception]. *)
Theorem apply_personality_frame (str_lower : string -> string) (w : World)
    (result : Response) (task_type : TaskType) :
  exists out n,
    _apply_personality str_lower result task_type w
      = (out, Nat.iter n use_random w) /\
    (n <= 4)%nat /\
    match out with
    | Returns personalized =>
        personalized = result /\ n = 0%nat \/
        exists p content,
          personality (self w) = Some p /\
          personalized =
            <["personality_name" := VStr (name p)]>
              (<["personality_applied" := VBool true]>
                 (<["content" := content]> result))
    | Raises e =>
        exn_is_Exception e = true /\
        truthy (get_or_None result "success") = true /\
        (result !! "content" = None \/
         exists v, result !! "content" = Some v /\
                   forall text, v <> VStr text)
    end.
Proof.
  unfold _apply_personality, bind at 1, get_self.
  destruct (personality (self w)) as [p|];
    [|exists (Returns result), 0%nat; split; [done|]; split; [lia|by left]].
  destruct (truthy (get_or_None result "success")) eqn:Hsuccess; cbn [negb];
    [|exists (Returns result), 0%nat; split; [done|]; split; [lia|by left]].
  unfold getitem.
  destruct (result !! "content") as [content|] eqn:Hcontent.
  2:{ exists (Raises (KeyError "content")), 0%nat. split; [done|].
      split; [lia|]. split; [done|]. split; [done|by left]. }
  unfold bind at 1, ret at 1.
  destruct (informal_style_outcome str_lower p content w)
    as (styled & n1 & Hstyle & Hn1 & Hstyled).
  unfold bind at 1. rewrite Hstyle.
  destruct styled as [styled|e].
  2:{ exists (Raises e), n1. split; [done|]. split; [lia|].
      destruct Hstyled as [He Hnot]. split; [done|]. split; [done|].
      right. by exists content. }
  destruct (emotional_elements_outcome p task_type styled
              (Nat.iter n1 use_random w))
    as (final & n2 & Hemotion & Hn2 & Hnone & _).
  unfold bind at 1. rewrite Hemotion.
  destruct (humor_outcome p task_type
              (Nat.iter n2 use_random (Nat.iter n1 use_random w)))
    as (n3 & Hhumor & Hn3 & Hsupport).
  unfold bind, ret. rewrite Hhumor.
  rewrite !iter_use_random_add.
  exists (Returns
            (<["personality_name" := VStr (name p)]>
               (<["personality_applied" := VBool true]>
                  (<["content" := final]> result)))), (n1 + (n2 + n3))%nat.
  split; [done|]. split.
  - destruct (decide (task_type = PSYCHOLOGICAL_SUPPORT)) as [Htask|Htask].
    + rewrite (Hsupport Htask). lia.
    + rewrite (Hnone Htask). lia.
  - right. by exists p, final.
Qed.

(** X24. For psychological support and a profile whose empathy level is
    above 0.8, when the informal block leaves the content alone (the
    formality level is 0.5 or more, or the text holds a greeting), one
    number is drawn: below 0.4 an empathy phrase, picked by a second draw,
    is put before the content with a full stop and a space, and a content
    that is not a [str] is turned into one; otherwise the response only
    gets the two annotations. The humor block draws nothing. *)
Theorem apply_personality_empathy (str_lower : string -> string) (w : World)
    (result : Response) (p : PersonalityProfile) (content : pyval) :
  personality (self w) = Some p ->
  (0.5 <= formality_level p)%Q \/
  (exists text,
      content = VStr text /\ has_greeting_inside (str_lower text) = true) ->
  (f0_8 < empathy_level p)%Q ->
  truthy (get_or_None result "success") = true ->
  result !! "content" = Some content ->
  _apply_personality str_lower result PSYCHOLOGICAL_SUPPORT w =
    if Qltb (random_draws w (random_used w)) f0_4 then
      (Returns
         (<["personality_name" := VStr (name p)]>
            (<["personality_applied" := VBool true]>
               (<["content" :=
                    VStr (nth (random_picks w (S (random_used w)) mod 5)
                              empathy_phrases "درکت می‌کنم"
                          ++ ". " ++ Py.str content)]> result))),
       use_random (use_random w))
    else
      (Returns
         (<["personality_name" := VStr (name p)]>
            (<["personality_applied" := VBool true]> result)),
       use_random w).
Proof.
  intros Hprofile Hplain Hempathy Hsuccess Hcontent.
  apply Qltb_lt in Hempathy.
  unfold _apply_personality, bind at 1, get_self.
  rewrite Hprofile, Hsuccess. cbn [negb].
  unfold getitem. rewrite Hcontent. unfold bind at 1, ret at 1.
  assert (informal_style str_lower p content w = (Returns content, w))
    as Hstyle.
  { unfold informal_style.
    destruct (Qltb (formality_level p) 0.5) eqn:Hformal; [|done].
    destruct Hplain as [Hplain | (text & -> & Hgreeting)].
    - apply Qltb_ge in Hplain. congruence.
    - unfold lower_method, bind, ret.
      unfold has_greeting_inside in Hgreeting. by rewrite Hgreeting. }
  unfold bind at 1. rewrite Hstyle.
  unfold bind at 1, emotional_elements.
  rewrite bool_decide_eq_true_2 by done. rewrite Hempathy. cbn [andb].
  unfold bind at 1, random_random.
  destruct (Qltb (random_draws w (random_used w)) f0_4).
  - unfold bind, random_choice, humor, ret.
    cbn [andb bool_decide]. rewrite andb_false_r. reflexivity.
  - unfold bind, humor, ret. rewrite andb_false_r.
    by rewrite (insert_id result "content" content Hcontent).
Qed.

Lemma apply_personality_empathy_witness :
  _apply_personality ascii_lower
    ({[ "success" := VBool true; "content" := VStr "hi, that is hard" ]}
     : Response)
    PSYCHOLOGICAL_SUPPORT
    (world_around
       (with_personality (companion_profile "female" "Luna")
          (__init__ true true))
       answering (Returns VNone) (fun _ => 0.25%Q) (fun _ => 2%nat)) =
    if Qltb (random_draws
               (world_around
                  (with_personality (companion_profile "female" "Luna")
                     (__init__ true true))
                  answering (Returns VNone) (fun _ => 0.25%Q)
                  (fun _ => 2%nat))
               (random_used
                  (world_around
                     (with_personality (companion_profile "female" "Luna")
                        (__init__ true true))
                     answering (Returns VNone) (fun _ => 0.25%Q)
                     (fun _ => 2%nat)))) f0_4 then
      (Returns
         (<["personality_name" :=
              VStr (name (companion_profile "female" "Luna"))]>
            (<["personality_applied" := VBool true]>
               (<["content" :=
                    VStr (nth (random_picks
                                 (world_around
                                    (with_personality
                                       (companion_profile "female" "Luna")
                                       (__init__ true true))
                                    answering (Returns VNone)
                                    (fun _ => 0.25%Q) (fun _ => 2%nat))
                                 (S (random_used
                                       (world_around
                                          (with_personality
                                             (companion_profile "female"
                                                "Luna")
                                             (__init__ true true))
                                          answering (Returns VNone)
                                          (fun _ => 0.25%Q)
                                          (fun _ => 2%nat)))) mod 5)
                              empathy_phrases "درکت می‌کنم"
                          ++ ". " ++ Py.str (VStr "hi, that is hard"))]>
                  ({[ "success" := VBool true;
                      "content" := VStr "hi, that is hard" ]}
                   : Response)))),
       use_random
         (use_random
            (world_around
               (with_personality (companion_profile "female" "Luna")
                  (__init__ true true))
               answering (Returns VNone) (fun _ => 0.25%Q)
               (fun _ => 2%nat))))
    else
      (Returns
         (<["personality_name" :=
              VStr (name (companion_profile "female" "Luna"))]>
            (<["personality_applied" := VBool true]>
               ({[ "success" := VBool true;
                   "content" := VStr "hi, that is hard" ]} : Response))),
       use_random
         (world_around
            (with_personality (companion_profile "female" "Luna")
               (__init__ true true))
            answering (Returns VNone) (fun _ => 0.25%Q) (fun _ => 2%nat))).
Proof.
  apply (apply_personality_empathy ascii_lower
           (world_around
              (with_personality (companion_profile "female" "Luna")
                 (__init__ true true))
              answering (Returns VNone) (fun _ => 0.25%Q) (fun _ => 2%nat))
           ({[ "success" := VBool true;
               "content" := VStr "hi, that is hard" ]} : Response)
           (companion_profile "female" "Luna")
           (VStr "hi, that is hard")).
  - reflexivity.
  - right. exists "hi, that is hard". split; reflexivity.
  - reflexivity.
  - reflexivity.
  - reflexivity.
Defined.

(** The run of [setup_personality] for a type the table has. *)
Lemma setup_personality_known (chosen : string) (given : option string)
    (personality_type : string) (config : personality_config) (w : World) :
  dict_get personality_type personality_configs = Some config ->
  exists picked w1,
    self w1 = self w /\
    setup_personality chosen given personality_type w =
    (Returns {| gender := chosen;
                name := picked;
                personality_traits := config_traits config;
                communication_style := config_communication_style config;
                expertise_areas :=
                  ["مکالمه عمومی"; "مشاوره"; "تولید محتوا"; "تحلیل مالی";
                   "حمایت روانی"; "آموزش"; "سرگرمی"];
                emotional_intelligence := config_empathy_level config;
                humor_level := config_humor_level config;
                formality_level := config_formality_level config;
                empathy_level := config_empathy_level config |},
     with_self
       {| models := models (self w1);
          personality :=
            Some {| gender := chosen;
                    name := picked;
                    personality_traits := config_traits config;
                    communication_style := config_communication_style config;
                    expertise_areas :=
                      ["مکالمه عمومی"; "مشاوره"; "تولید محتوا";
                       "تحلیل مالی"; "حمایت روانی"; "آموزش"; "سرگرمی"];
                    emotional_intelligence := config_empathy_level config;
                    humor_level := config_humor_level config;
                    formality_level := config_formality_level config;
                    empathy_level := config_empathy_level config |};
          conversation_history := conversation_history (self w1) |} w1).
Proof.
  intros Hconfig.
  destruct (setup_personality_run chosen given personality_type w)
    as (picked & w1 & Hname & Hself & _).
  exists picked, w1. split; [exact Hself|].
  unfold setup_personality, bind at 1. rewrite Hname.
  change (dict_get "friendly" personality_configs)
    with (Some {| config_traits := ["دوستانه"; "مهربان"; "صبور"; "کمک‌کار"];
                  config_communication_style := "گرم و صمیمی";
                  config_empathy_level := f0_9;
                  config_humor_level := f0_7;
                  config_formality_level := f0_3 |}).
  cbv beta iota. rewrite Hconfig. reflexivity.
Qed.

(** What the three guards of [_apply_personality] let through: below the
    formality threshold the informal block gives an opener to a text
    without a greeting when the draw is below 0.3; above the empathy
    threshold the emotional block gives an empathy phrase for
    psychological support when the draw is below 0.4; above the humor
    threshold the humor block draws a number for a conversation and for
    creative writing. *)
Lemma personality_blocks_active (str_lower : string -> string)
    (p : PersonalityProfile) :
  (formality_level p < 0.5)%Q ->
  (f0_8 < empathy_level p)%Q ->
  (f0_6 < humor_level p)%Q ->
  (forall (w : World) (text : string),
      has_greeting_inside (str_lower text) = false ->
      (random_draws w (random_used w) < f0_3)%Q ->
      informal_style str_lower p (VStr text) w =
        (Returns
           (VStr (nth (random_picks w (S (random_used w)) mod 5)
                      friendly_starters "راستش" ++ ", " ++ text)),
         use_random (use_random w))) /\
  (forall (w : World) (content : pyval),
      (random_draws w (random_used w) < f0_4)%Q ->
      emotional_elements p PSYCHOLOGICAL_SUPPORT content w =
        (Returns
           (VStr (nth (random_picks w (S (random_used w)) mod 5)
                      empathy_phrases "درکت می‌کنم"
                  ++ ". " ++ Py.str content)),
         use_random (use_random w))) /\
  (forall (w : World) (task_type : TaskType),
      task_type ∈ [CONVERSATION; CREATIVE_WRITING] ->
      humor p task_type w = (Returns tt, use_random w)).
Proof.
  intros Hformality Hempathy Hhumor.
  apply Qltb_lt in Hformality, Hempathy, Hhumor.
  split; [|split].
  - intros w text Hgreeting Hdraw. apply Qltb_lt in Hdraw.
    unfold informal_style. rewrite Hformality.
    unfold lower_method, bind at 1, ret at 1.
    unfold has_greeting_inside in Hgreeting. rewrite Hgreeting.
    cbn [negb]. unfold bind at 1, random_random. by rewrite Hdraw.
  - intros w content Hdraw. apply Qltb_lt in Hdraw.
    unfold emotional_elements. rewrite Hempathy.
    rewrite bool_decide_eq_true_2 by done. cbn [andb].
    unfold bind at 1, random_random. by rewrite Hdraw.
  - intros w task_type Htask.
    unfold humor. rewrite Hhumor.
    rewrite bool_decide_eq_true_2 by done. cbn [andb].
    unfold bind, random_random.
    by destruct (Qltb (random_draws w (random_used w)) f0_2).
Qed.

(** X25. Of the types of [setup_personality], [professional] is the one
    whose profile leaves every response alone: with it,
    [_apply_personality] only adds the two annotations to a successful
    response with a content, for every category, and draws no random
    number. Every other type, known or not, gives a profile for which the
    three blocks are active: the informal block puts one of the five
    starters before a text without a greeting when the draw is below 0.3,
    the emotional block puts an empathy phrase before the content for
    psychological support when the draw is below 0.4, and the humor block
    draws a number for a conversation and for creative writing. *)
Theorem setup_personality_professional (str_lower : string -> string)
    (chosen : string) (given : option string) (personality_type : string)
    (w : World) :
  exists p w1,
    setup_personality chosen given personality_type w = (Returns p, w1) /\
    personality (self w1) = Some p /\
    if String.eqb personality_type "professional" then
      forall (w2 : World) (result : Response) (task_type : TaskType),
        personality (self w2) = Some p ->
        truthy (get_or_None result "success") = true ->
        is_Some (result !! "content") ->
        _apply_personality str_lower result task_type w2 =
          (Returns (<["personality_name" := VStr (name p)]>
                      (<["personality_applied" := VBool true]> result)),
           w2)
    else
      (forall (w2 : World) (text : string),
          has_greeting_inside (str_lower text) = false ->
          (random_draws w2 (random_used w2) < f0_3)%Q ->
          informal_style str_lower p (VStr text) w2 =
            (Returns
               (VStr (nth (random_picks w2 (S (random_used w2)) mod 5)
                          friendly_starters "راستش" ++ ", " ++ text)),
             use_random (use_random w2))) /\
      (forall (w2 : World) (content : pyval),
          (random_draws w2 (random_used w2) < f0_4)%Q ->
          emotional_elements p PSYCHOLOGICAL_SUPPORT content w2 =
            (Returns
               (VStr (nth (random_picks w2 (S (random_used w2)) mod 5)
                          empathy_phrases "درکت می‌کنم"
                      ++ ". " ++ Py.str content)),
             use_random (use_random w2))) /\
      (forall (w2 : World) (task_type : TaskType),
          task_type ∈ [CONVERSATION; CREATIVE_WRITING] ->
          humor p task_type w2 = (Returns tt, use_random w2)).
Proof.
  destruct (String.eqb personality_type "professional") eqn:Htype.
  - apply String.eqb_eq in Htype. subst personality_type.
    destruct (setup_personality_known chosen given "professional" _ w
                eq_refl) as (picked & w1 & _ & ->).
    eexists _, _. split; [reflexivity|]. split; [reflexivity|].
    intros w2 result task_type Hprofile Hsuccess [content Hcontent].
    unfold _apply_personality, bind at 1, get_self.
    rewrite Hprofile, Hsuccess. cbn [negb].
    unfold getitem. rewrite Hcontent. unfold bind at 1, ret at 1.
    unfold bind at 1, informal_style.
    cbn [formality_level config_formality_level].
    change (Qltb f0_8 0.5) with false. unfold ret at 1.
    unfold bind at 1, emotional_elements.
    cbn [empathy_level config_empathy_level].
    change (Qltb f0_8 f0_6) with false. rewrite andb_false_r.
    unfold ret at 1. unfold bind, humor.
    cbn [humor_level config_humor_level].
    change (Qltb f0_6 f0_3) with false. cbn [andb]. unfold ret, name.
    by rewrite (insert_id result "content" content Hcontent).
  - apply String.eqb_neq in Htype.
    destruct (dict_get personality_type personality_configs) as [config|]
      eqn:Hconfig.
    + destruct (setup_personality_known chosen given personality_type config
                  w Hconfig) as (picked & w1 & _ & ->).
      eexists _, _. split; [reflexivity|]. split; [reflexivity|].
      apply personality_blocks_active;
        cbn [formality_level empathy_level humor_level];
        apply dict_get_Some_elem in Hconfig;
        unfold personality_configs in Hconfig;
        (apply elem_of_cons in Hconfig as [Hconfig|Hconfig];
           [by injection Hconfig as _ ->|]);
        (apply elem_of_cons in Hconfig as [Hconfig|Hconfig];
           [by injection Hconfig as -> _|]);
        (apply elem_of_cons in Hconfig as [Hconfig|Hconfig];
           [by injection Hconfig as _ ->|]);
        inversion Hconfig.
    + destruct (setup_personality_run chosen given personality_type w)
        as (picked & w1 & Hname & _).
      unfold setup_personality, bind at 1. rewrite Hname.
      change (dict_get "friendly" personality_configs)
        with (Some {| config_traits :=
                        ["دوستانه"; "مهربان"; "صبور"; "کمک‌کار"];
                      config_communication_style := "گرم و صمیمی";
                      config_empathy_level := f0_9;
                      config_humor_level := f0_7;
                      config_formality_level := f0_3 |}).
      cbv beta iota. rewrite Hconfig.
      eexists _, _. split; [reflexivity|]. split; [reflexivity|].
      by apply personality_blocks_active.
Qed.

(** [_apply_personality] moves nothing but the generator, whatever it
    answers. *)
Lemma apply_personality_world (str_lower : string -> string) (w : World)
    (result : Response) (task_type : TaskType) :
  exists out n,
    _apply_personality str_lower result task_type w
      = (out, Nat.iter n use_random w).
Proof.
  unfold _apply_personality, bind at 1, get_self.
  destruct (personality (self w)) as [p|];
    [|by exists (Returns result), 0%nat].
  destruct (negb (truthy (get_or_None result "success")));
    [by exists (Returns result), 0%nat|].
  unfold getitem.
  destruct (result !! "content") as [content|];
    [|by eexists (Raises _), 0%nat].
  unfold bind at 1, ret at 1.
  destruct (informal_style_outcome str_lower p content w)
    as (styled & n1 & Hstyle & _).
  unfold bind at 1. rewrite Hstyle.
  destruct styled as [styled|e]; [|by exists (Raises e), n1].
  destruct (emotional_elements_outcome p task_type styled
              (Nat.iter n1 use_random w)) as (final & n2 & Hemotion & _).
  unfold bind at 1. rewrite Hemotion.
  destruct (humor_outcome p task_type
              (Nat.iter n2 use_random (Nat.iter n1 use_random w)))
    as (n3 & Hhumor & _).
  unfold bind, ret. rewrite Hhumor, !iter_use_random_add.
  by eexists (Returns _), _.
Qed.

(** The call a dispatch logs when the history can be replayed. *)
Lemma process_with_model_calls (model : AIModel) (user_input : string)
    (task_type : TaskType) (w : World) :
  replayable (conversation_history (self w)) ->
  calls (snd (_process_with_model model user_input task_type w)) =
    (if bool_decide (model = GEMINI_PRO) then call_gemini user_input
     else call_openai
            (request_for (self w)
               (if bool_decide (model ∈ [GPT4; GPT35_TURBO]) then model
                else GPT35_TURBO)
               user_input task_type))
    :: calls w.
Proof.
  intros Hreplay.
  assert (forall sent,
             calls (snd (try_except
                           (_process_with_openai sent user_input task_type)
                           (fun e =>
                              ret ({[ "success" := VBool false;
                                      "error" := VStr (exn_str e);
                                      "fallback_response" :=
                                        VStr fallback_apology ]}
                                   : Response)) w))
             = call_openai (request_for (self w) sent user_input task_type)
                 :: calls w) as Hopenai.
  { intros sent. unfold try_except.
    rewrite (process_with_openai_run sent user_input task_type w Hreplay).
    destruct (acreate _ _ _) as [response|e].
    - by destruct (choices response).
    - by destruct (exn_is_Exception e). }
  unfold _process_with_model.
  destruct (bool_decide (model ∈ [GPT4; GPT35_TURBO])) eqn:Hgpt.
  - apply bool_decide_eq_true in Hgpt.
    rewrite bool_decide_eq_false_2; [apply Hopenai|].
    intros ->.
    repeat (apply elem_of_cons in Hgpt as [Hgpt|Hgpt]; [discriminate Hgpt|]).
    inversion Hgpt.
  - destruct (bool_decide (model = GEMINI_PRO)); [|apply Hopenai].
    unfold try_except at 1, _process_with_gemini, try_except, bind,
      await_generate_content.
    destruct (generate_content_async _ _ _) as [text|e]; [reflexivity|].
    destruct (exn_is_Exception e) eqn:Hcaught; [reflexivity|].
    by rewrite Hcaught.
Qed.

(** What [process_request] adds to the call log is what the dispatch
    adds. *)
Lemma process_request_calls (str_lower : string -> string) (w : World)
    (user_input : string) (category : TaskType) (model : AIModel) :
  _select_best_model category w = (Returns model, w) ->
  calls (snd (process_request str_lower user_input (Some category) w)) =
  calls (snd (_process_with_model model user_input category w)).
Proof.
  intros Hselect. unfold process_request, bind at 1, ret at 1.
  unfold bind at 1. rewrite Hselect. unfold bind at 1.
  destruct (_process_with_model model user_input category w)
    as [[result|e] w1]; [|done].
  destruct (apply_personality_world str_lower w1 result category)
    as (out & n & Hpersonality).
  unfold bind at 1. rewrite Hpersonality.
  destruct (iter_use_random n w1) as (_ & Hcalls & _).
  destruct out as [personalized|e]; [|exact Hcalls].
  unfold bind. rewrite save_to_history_step. exact Hcalls.
Qed.

Lemma differ_inside_app (a b tail : string) :
  differ_inside a b = true -> a ++ tail <> b.
Proof.
  revert b. induction a as [|x a IH]; intros [|y b]; try done.
  cbn [differ_inside]. intros Hdiffer.
  change (String x (a ++ tail) <> String y b). intros Heq.
  injection Heq as -> Hrest.
  rewrite Ascii.eqb_refl in Hdiffer. cbn [negb orb] in Hdiffer.
  by apply (IH b).
Qed.

Lemma differ_inside_neq (a b : string) : differ_inside a b = true -> a <> b.
Proof.
  revert b. induction a as [|x a IH]; intros [|y b]; try done.
  cbn [differ_inside]. intros Hdiffer Heq.
  injection Heq as -> Hrest.
  rewrite Ascii.eqb_refl in Hdiffer. cbn [negb orb] in Hdiffer.
  by apply (IH b).
Qed.

(** X26. For a specialty of the table, [get_specialized_response] is
    [process_request] on the query with the category of the specialty, and
    the specialised system prompt of the table is never sent. On an engine
    built with the OpenAI key whose history can be replayed, one call is
    made: to Gemini with the query alone for creative writing when the
    Google key is set, and otherwise a chat request sent as GPT-3.5-Turbo,
    not GPT-4, whose system prompt is the one of the category, which
    differs from the one of the specialty. *)
Theorem specialized_response_request (str_lower : string -> string)
    (w : World) (google_api_key : bool) (specialty query : string) :
  models (self w) = _initialize_models true google_api_key ->
  replayable (conversation_history (self w)) ->
  specialty ∈ ["financial_advisor"; "therapist"; "creative_writer";
               "meditation_guide"] ->
  exists category prompt,
    dict_get specialty specialty_configs = Some (category, prompt) /\
    get_specialized_response str_lower specialty query w
      = process_request str_lower query (Some category) w /\
    calls (snd (get_specialized_response str_lower specialty query w)) =
      (if google_api_key && bool_decide (category = CREATIVE_WRITING)
       then call_gemini query
       else call_openai (request_for (self w) GPT35_TURBO query category))
      :: calls w /\
    system_prompt_for (self w) category <> prompt.
Proof.
  intros Hregistry Hreplay Hknown.
  assert (forall category prompt model,
    dict_get specialty specialty_configs = Some (category, prompt) ->
    _select_best_model category w = (Returns model, w) ->
    (if bool_decide (model = GEMINI_PRO) then call_gemini query
     else call_openai
            (request_for (self w)
               (if bool_decide (model ∈ [GPT4; GPT35_TURBO]) then model
                else GPT35_TURBO)
               query category))
    = (if google_api_key && bool_decide (category = CREATIVE_WRITING)
       then call_gemini query
       else call_openai (request_for (self w) GPT35_TURBO query category)) ->
    differ_inside
      (default (default "" (dict_get CONVERSATION system_prompts))
               (dict_get category system_prompts)) prompt = true ->
    exists category prompt,
      dict_get specialty specialty_configs = Some (category, prompt) /\
      get_specialized_response str_lower specialty query w
        = process_request str_lower query (Some category) w /\
      calls (snd (get_specialized_response str_lower specialty query w)) =
        (if google_api_key && bool_decide (category = CREATIVE_WRITING)
         then call_gemini query
         else call_openai (request_for (self w) GPT35_TURBO query category))
        :: calls w /\
      system_prompt_for (self w) category <> prompt) as Hcase.
  { intros category prompt model Hconfig Hselect Hcall Hdiffer.
    exists category, prompt. split; [exact Hconfig|].
    assert (get_specialized_response str_lower specialty query w
            = process_request str_lower query (Some category) w) as Hrun.
    { unfold get_specialized_response. by rewrite Hconfig. }
    split; [exact Hrun|]. split.
    - rewrite Hrun.
      rewrite (process_request_calls str_lower w query category model
                 Hselect).
      rewrite (process_with_model_calls model query category w Hreplay).
      by rewrite Hcall.
    - unfold system_prompt_for.
      destruct (personality (self w)) as [p|].
      + by apply differ_inside_app.
      + by apply differ_inside_neq. }
  assert (forall category,
            _select_best_model category w =
            (match suitable_models (_initialize_models true google_api_key)
                     category with
             | x :: rest =>
                 Returns (fst (max_from (fun a b => Qltb b a) snd x rest))
             | [] => Returns GPT35_TURBO
             end, w)) as Hselect.
  { intros category. unfold _select_best_model, bind, get_self.
    rewrite Hregistry.
    destruct (suitable_models _ category); [|done].
    by destruct google_api_key. }
  repeat (apply elem_of_cons in Hknown as [->|Hknown]);
    [..|inversion Hknown].
  - eapply (Hcase FINANCIAL_ADVICE _ GPT35_TURBO).
    + reflexivity.
    + rewrite Hselect. by destruct google_api_key.
    + by rewrite andb_false_r.
    + vm_compute. reflexivity.
  - eapply (Hcase PSYCHOLOGICAL_SUPPORT _ GPT35_TURBO).
    + reflexivity.
    + rewrite Hselect. by destruct google_api_key.
    + by rewrite andb_false_r.
    + vm_compute. reflexivity.
  - eapply (Hcase CREATIVE_WRITING _
              (if google_api_key then GEMINI_PRO else GPT35_TURBO)).
    + reflexivity.
    + rewrite Hselect. by destruct google_api_key.
    + by destruct google_api_key.
    + vm_compute. reflexivity.
  - eapply (Hcase MEDITATION _ GPT35_TURBO).
    + reflexivity.
    + rewrite Hselect. by destruct google_api_key.
    + by rewrite andb_false_r.
    + vm_compute. reflexivity.
Qed.

Lemma specialized_response_request_witness :
  exists category prompt,
    dict_get "creative_writer" specialty_configs = Some (category, prompt) /\
    get_specialized_response ascii_lower "creative_writer" "a poem"
      (quiet_world (__init__ true true))
      = process_request ascii_lower "a poem" (Some category)
          (quiet_world (__init__ true true)) /\
    calls (snd (get_specialized_response ascii_lower "creative_writer"
                  "a poem" (quiet_world (__init__ true true)))) =
      (if true && bool_decide (category = CREATIVE_WRITING)
       then call_gemini "a poem"
       else call_openai
              (request_for (self (quiet_world (__init__ true true)))
                 GPT35_TURBO "a poem" category))
      :: calls (quiet_world (__init__ true true)) /\
    system_prompt_for (self (quiet_world (__init__ true true))) category
      <> prompt.
Proof.
  apply (specialized_response_request ascii_lower
           (quiet_world (__init__ true true)) true "creative_writer"
           "a poem").
  - reflexivity.
  - intros entry Hin. vm_compute in Hin. inversion Hin.
  - apply list_elem_of_further, list_elem_of_further, list_elem_of_here.
Defined.
